(** * The agent orchestrator's agentic loop

    A shallow embedding of [agent/orchestrator-service/main.go]: the data
    model, the five phases of one iteration (analyze, plan, execute,
    synthesize, verify), the decision step, the conversation store and the
    HTTP handlers that wrap them.

    Go values are embedded as follows.
    - [string] is Rocq's [string] (a sequence of bytes), [int] is [Z],
      [float64] is the kernel's binary64 [float], [bool] is [bool].
    - [map[string]interface{}] is an optional [gmap]: [None] is the nil map,
      which reads as the empty map and panics when assigned to.
    - an [error] is the text its [Error()] method returns.
    - the packages the program calls into ([genai], [net/http],
      [encoding/json], [fmt]'s [%v] of library values, [time], [uuid], [os])
      are the fields of the class [Externals]; calls that talk to the outside
      world thread a [World] through.
    - [log.Printf] only writes to the process log and is left out. *)

From Stdlib Require Import ZArith String Ascii List Bool Lia PrimFloat DecimalString.
From stdpp Require Import base option gmap strings list.

Set Warnings "-register-all,-inexact-float".

Open Scope Z_scope.

(** ** Go values *)

(** The dynamic values an [interface{}] holds in this program: what
    [encoding/json] decodes into, plus the [int] of the default plan. *)
Inductive GoValue : Type :=
| VNil
| VBool (b : bool)
| VInt (n : Z)
| VFloat (f : float)
| VString (s : string)
| VSlice (xs : list GoValue)
| VMap (m : option (gmap string GoValue)).

Abbreviation GoMap := (option (gmap string GoValue)).

Definition error : Type := string.

(** What a call yields: a value, or a run-time panic that unwinds the
    goroutine. *)
Inductive Outcome (A : Type) : Type :=
| Ok (a : A)
| Panic (msg : string).
Arguments Ok {A} a.
Arguments Panic {A} msg.

(** [m[k]]: a nil map reads as an empty one. *)
Definition map_index (m : GoMap) (k : string) : option GoValue :=
  match m with
  | Some g => g !! k
  | None => None
  end.

(** [m[k] = v]: assignment to an entry of a nil map panics. *)
Definition map_assign (m : GoMap) (k : string) (v : GoValue) : Outcome GoMap :=
  match m with
  | Some g => Ok (Some (<[k := v]> g))
  | None => Panic "assignment to entry in nil map"
  end.

(** [x.(string)] and [x.(float64)] in their two-result form. *)
Definition assert_string (x : option GoValue) : string * bool :=
  match x with
  | Some (VString s) => (s, true)
  | _ => (EmptyString, false)
  end.

Definition assert_float64 (x : option GoValue) : float * bool :=
  match x with
  | Some (VFloat f) => (f, true)
  | _ => (0%float, false)
  end.

(** ** Strings *)

Definition dq : string := String (ascii_of_nat 34) EmptyString.
Definition nl : string := String (ascii_of_nat 10) EmptyString.
Definition fence : string := "```".
Definition fence_json : string := "```json".

Definition lines (ls : list string) : string := String.concat nl ls.

(** [strings.HasPrefix], [strings.TrimPrefix], [strings.HasSuffix] and
    [strings.TrimSuffix]. *)
Definition HasPrefix (s p : string) : bool := String.prefix p s.

Definition TrimPrefix (s p : string) : string :=
  if HasPrefix s p
  then String.substring (String.length p) (String.length s - String.length p) s
  else s.

Definition HasSuffix (s suffix : string) : bool :=
  (String.length suffix <=? String.length s)%nat
  && String.eqb
       (String.substring (String.length s - String.length suffix)
          (String.length suffix) s)
       suffix.

Definition TrimSuffix (s suffix : string) : string :=
  if HasSuffix s suffix
  then String.substring 0 (String.length s - String.length suffix) s
  else s.

(** [%d] and [%v] of the values the program formats itself. *)
Definition fmt_d (n : Z) : string := NilZero.string_of_int (Z.to_int n).

Definition fmt_bool (b : bool) : string := if b then "true" else "false".

Definition len {A : Type} (l : list A) : Z := Z.of_nat (List.length l).

(** ** Data models *)

Module AgentRequest.
Record t : Type := mk {
    Query : string;
    ConversationID : string;
    MaxIterations : Z;
    Context : gmap string string
  }.
Definition set_Query (q : string) (r : t) : t :=
    mk q (ConversationID r) (MaxIterations r) (Context r).
Definition set_MaxIterations (n : Z) (r : t) : t :=
    mk (Query r) (ConversationID r) n (Context r).
Definition set_ConversationID (c : string) (r : t) : t :=
    mk (Query r) c (MaxIterations r) (Context r).
End AgentRequest.

Module AgentStep.
Record t : Type := mk {
    StepNumber : Z;
    Type_ : string;
    Description : string;
    Action : string;
    Result : string;
    Success : bool;
    Duration : float
  }.
End AgentStep.

Module AgentResponse.
Record t : Type := mk {
    ConversationID : string;
    Query : string;
    Answer : string;
    Confidence : float;
    Iterations : Z;
    ToolsUsed : list string;
    Sources : list string;
    ProcessTime : float;
    Steps : list AgentStep.t;
    NeedMoreInfo : bool;
    FollowUpQ : string
  }.
Definition set_Answer (a : string) (r : t) : t :=
    mk (ConversationID r) (Query r) a (Confidence r) (Iterations r)
       (ToolsUsed r) (Sources r) (ProcessTime r) (Steps r) (NeedMoreInfo r)
       (FollowUpQ r).
Definition set_Confidence (c : float) (r : t) : t :=
    mk (ConversationID r) (Query r) (Answer r) c (Iterations r)
       (ToolsUsed r) (Sources r) (ProcessTime r) (Steps r) (NeedMoreInfo r)
       (FollowUpQ r).
Definition set_Iterations (n : Z) (r : t) : t :=
    mk (ConversationID r) (Query r) (Answer r) (Confidence r) n
       (ToolsUsed r) (Sources r) (ProcessTime r) (Steps r) (NeedMoreInfo r)
       (FollowUpQ r).
Definition set_ToolsUsed (l : list string) (r : t) : t :=
    mk (ConversationID r) (Query r) (Answer r) (Confidence r) (Iterations r)
       l (Sources r) (ProcessTime r) (Steps r) (NeedMoreInfo r)
       (FollowUpQ r).
Definition set_Sources (l : list string) (r : t) : t :=
    mk (ConversationID r) (Query r) (Answer r) (Confidence r) (Iterations r)
       (ToolsUsed r) l (ProcessTime r) (Steps r) (NeedMoreInfo r)
       (FollowUpQ r).
Definition set_ProcessTime (d : float) (r : t) : t :=
    mk (ConversationID r) (Query r) (Answer r) (Confidence r) (Iterations r)
       (ToolsUsed r) (Sources r) d (Steps r) (NeedMoreInfo r)
       (FollowUpQ r).
Definition set_Steps (l : list AgentStep.t) (r : t) : t :=
    mk (ConversationID r) (Query r) (Answer r) (Confidence r) (Iterations r)
       (ToolsUsed r) (Sources r) (ProcessTime r) l (NeedMoreInfo r)
       (FollowUpQ r).
Definition set_NeedMoreInfo (b : bool) (r : t) : t :=
    mk (ConversationID r) (Query r) (Answer r) (Confidence r) (Iterations r)
       (ToolsUsed r) (Sources r) (ProcessTime r) (Steps r) b
       (FollowUpQ r).
Definition set_FollowUpQ (q : string) (r : t) : t :=
    mk (ConversationID r) (Query r) (Answer r) (Confidence r) (Iterations r)
       (ToolsUsed r) (Sources r) (ProcessTime r) (Steps r) (NeedMoreInfo r)
       q.
End AgentResponse.

Module Action.
Record t : Type := mk {
    Type_ : string;
    Description : string;
    Parameters : GoMap
  }.
End Action.

Module ExecutionPlan.
Record t : Type := mk {
    OriginalQuery : string;
    RewrittenQueries : list string;
    Actions : list Action.t;
    Reasoning : string
  }.
(** The zero value of the struct: [var plan ExecutionPlan]. *)
Definition zero : t := mk EmptyString [] [] EmptyString.
Definition set_OriginalQuery (q : string) (p : t) : t :=
    mk q (RewrittenQueries p) (Actions p) (Reasoning p).
Definition set_RewrittenQueries (l : list string) (p : t) : t :=
    mk (OriginalQuery p) l (Actions p) (Reasoning p).
Definition set_Actions (l : list Action.t) (p : t) : t :=
    mk (OriginalQuery p) (RewrittenQueries p) l (Reasoning p).
Definition set_Reasoning (s : string) (p : t) : t :=
    mk (OriginalQuery p) (RewrittenQueries p) (Actions p) s.
End ExecutionPlan.

Module Verification.
Record t : Type := mk {
    IsComplete : bool;
    Confidence : float;
    MissingInfo : string
  }.
Definition zero : t := mk false 0%float EmptyString.
End Verification.

Module Message.
Record t (Time : Type) : Type := mk {
    Role : string;
    Content : string;
    Timestamp : Time
  }.
Arguments mk {Time}.
Arguments Role {Time}.
Arguments Content {Time}.
Arguments Timestamp {Time}.
End Message.

Module Conversation.
Record t (Time : Type) : Type := mk {
    ID : string;
    Messages : list (Message.t Time);
    StartTime : Time
  }.
Arguments mk {Time}.
Arguments ID {Time}.
Arguments Messages {Time}.
Arguments StartTime {Time}.
End Conversation.

(** The part of [genai.GenerateContentResponse] the program reads. A nil
    [*Content] is [None]. *)
Module genai.
Record Content (Part : Type) : Type := mkContent { Parts : list Part }.
Arguments mkContent {Part}.
Arguments Parts {Part}.
Record Candidate (Part : Type) : Type :=
    mkCandidate { Content_ : option (Content Part) }.
Arguments mkCandidate {Part}.
Arguments Content_ {Part}.
Record GenerateContentResponse (Part : Type) : Type :=
    mkResponse { Candidates : list (Candidate Part) }.
Arguments mkResponse {Part}.
Arguments Candidates {Part}.
End genai.

(** What a handler writes: [http.Error], [respondError] or [respondJSON]. *)
Inductive HttpReply (A : Type) : Type :=
| PlainError (message : string) (status : Z)
| JSONError (message : string) (status : Z)
| JSON (data : A) (status : Z).
Arguments PlainError {A} message status.
Arguments JSONError {A} message status.
Arguments JSON {A} data status.

(** ** The packages the program calls into *)

Class Externals : Type := {
  (** the world outside the process: the model, the collaborators, the clock *)
  World : Type;
  (** [genai.Part] *)
  Part : Type;
  (** [time.Time] *)
  Time : Type;
  (** [geminiClient.Models.GenerateContent(ctx, modelName, genai.Text(prompt), nil)] *)
  GenerateContent :
    string -> string -> World ->
    (genai.GenerateContentResponse Part + error) * World;
  (** [http.Post(url, contentType, body)] followed by reading the reply's body *)
  http_Post : string -> string -> string -> World -> (string + error) * World;
  (** [time.Now()] *)
  time_Now : World -> Time * World;
  (** [float64(time.Since(t).Milliseconds())] *)
  time_Since_ms : Time -> World -> float * World;
  (** [uuid.New().String()] *)
  uuid_New : World -> string * World;
  (** [os.Getenv] *)
  os_Getenv : string -> string;
  (** [strings.TrimSpace] *)
  TrimSpace : string -> string;
  (** [fmt.Sprintf("%v", x)] of a [*genai.Part], of a
      [map[string]interface{}] and of a [map[string]string] *)
  fmt_v_Part : Part -> string;
  fmt_v_map : GoMap -> string;
  fmt_v_ctx : gmap string string -> string;
  (** [fmt.Sprintf("%.2f", x)] *)
  fmt_2f : float -> string;
  (** [json.Marshal], its error dropped as the callers do *)
  json_Marshal : GoValue -> string;
  (** [json.Unmarshal(data, &v)]: the struct as the decoder leaves it, and
      the error if any *)
  json_Unmarshal_plan :
    string -> ExecutionPlan.t -> ExecutionPlan.t * option error;
  json_Unmarshal_verification :
    string -> Verification.t -> Verification.t * option error;
  (** [json.NewDecoder(body).Decode(&result)] into a nil
      [map[string]interface{}] *)
  json_Decode_map : string -> GoMap * option error;
  (** the conversion [int(x)] of a [float64] *)
  float64_to_int : float -> Z
}.

(** ** Prompts *)

Definition quoted (s : string) : string := dq +:+ s +:+ dq.

Definition analyze_prompt (query : string) : string :=
  lines [
    "Analyze this user query and provide a brief analysis:";
    "";
    "Query: " +:+ quoted query;
    "";
    "Provide:";
    "1. Query type (question, request, command)";
    "2. Domain (compliance, kyc, risk, general)";
    "3. Intent (what user wants)";
    "4. Complexity (simple, medium, complex)";
    "";
    "Answer in 2-3 sentences."
  ].

Definition plan_prompt (query : string) : string :=
  lines [
    "You are an AI agent planning how to answer a user query.";
    "";
    "Query: " +:+ quoted query;
    "";
    "Available actions:";
    "1. search_rag - Search knowledge base (collections: regulatory_docs, merchant_docs, kyc_docs)";
    "2. call_tool - Call MCP tools (tools: verify-docs, risk-score, web-search, data-extractor)";
    "3. synthesize - Combine information";
    "";
    "Create a plan with 2-4 actions. For each action specify:";
    "- type (one of above)";
    "- description (what this action does)";
    "- parameters (what parameters to pass)";
    "";
    "Respond ONLY in JSON format:";
    "{";
    "  " +:+ quoted "rewritten_queries" +:+ ": [" +:+ quoted "query1" +:+ ", "
      +:+ quoted "query2" +:+ "],";
    "  " +:+ quoted "actions" +:+ ": [";
    "    {" +:+ quoted "type" +:+ ": " +:+ quoted "search_rag" +:+ ", "
      +:+ quoted "description" +:+ ": " +:+ quoted "..." +:+ ", "
      +:+ quoted "parameters" +:+ ": {" +:+ quoted "query" +:+ ": "
      +:+ quoted "..." +:+ ", " +:+ quoted "collection" +:+ ": "
      +:+ quoted "..." +:+ "}}";
    "  ],";
    "  " +:+ quoted "reasoning" +:+ ": " +:+ quoted "Why this plan will work";
    "}"
  ].

Definition synthesize_prompt (query contextStr : string) : string :=
  lines [
    "Based on the information below, answer this question:";
    "";
    "Question: " +:+ quoted query;
    "";
    contextStr;
    "";
    "Provide a clear, concise answer. If information is insufficient, say so."
  ].

Definition verify_prompt (query answer : string) : string :=
  lines [
    "Evaluate this answer:";
    "";
    "Question: " +:+ quoted query;
    "Answer: " +:+ quoted answer;
    "";
    "Is the answer:";
    "1. Complete (addresses the question fully)";
    "2. Accurate (based on the information)";
    "3. Relevant (stays on topic)";
    "";
    "Respond in JSON:";
    "{";
    "  " +:+ quoted "is_complete" +:+ ": true/false,";
    "  " +:+ quoted "confidence" +:+ ": 0.0-1.0,";
    "  " +:+ quoted "missing_info" +:+ ": "
      +:+ quoted "what's missing (if not complete)";
    "}"
  ].

(** ** Agent settings *)

Definition MAX_ITERATIONS : Z := 5.

(** The literal [0.7] denotes the [float64] nearest to it,
    [0x1.6666666666666p-1], here as in Go. *)
Definition CONFIDENCE_THRESHOLD : float := 0.7%float.

Section Orchestrator.

Context {E : Externals}.

(** ** Global state and the monad of the handlers *)

(** The process state a request can touch: the outside world and the
    package-level [conversations] map. *)
Record State : Type := mkState {
  world : World;
  conversations : gmap string (Conversation.t Time)
}.

Definition M (A : Type) : Type := State -> Outcome A * State.

Definition ret {A : Type} (a : A) : M A := fun s => (Ok a, s).

Definition bind {A B : Type} (m : M A) (k : A -> M B) : M B :=
  fun s =>
    match m s with
    | (Ok a, s') => k a s'
    | (Panic msg, s') => (Panic msg, s')
    end.

Notation "'let*' p ':=' m 'in' k" := (bind m (fun x => let 'p := x in k))
  (at level 10, p pattern, m at level 100, k at level 200).

Definition lift_world {A : Type} (f : World -> A * World) : M A :=
  fun s => let '(a, w) := f (world s) in (Ok a, mkState w (conversations s)).

Definition lift_outcome {A : Type} (o : Outcome A) : M A := fun s => (o, s).

Definition get_conversations : M (gmap string (Conversation.t Time)) :=
  fun s => (Ok (conversations s), s).

Definition put_conversations (c : gmap string (Conversation.t Time)) : M unit :=
  fun s => (Ok tt, mkState (world s) c).

Definition getEnv (key defaultValue : string) : string :=
  let value := os_Getenv key in
  if negb (String.eqb value "") then value else defaultValue.

Definition RAG_SERVICE_URL : string := getEnv "RAG_SERVICE_URL" "http://localhost:8084".
Definition MCP_GATEWAY_URL : string := getEnv "MCP_GATEWAY_URL" "http://localhost:9100".
Definition QUERY_REWRITER_URL : string := getEnv "QUERY_REWRITER_URL" "http://localhost:9001".

Definition modelName : string := "gemini-2.5-pro".

(** The markdown clean-up both JSON consumers apply to the model's text. *)
Definition clean_json (responseText : string) : string :=
  let responseText := TrimPrefix responseText fence_json in
  let responseText := TrimPrefix responseText fence in
  let responseText := TrimSuffix responseText fence in
  TrimSpace responseText.

(** ** Step 1: analyze query *)

(** The prompt of the analysis: the template, and the context when there
    is one. *)
Definition analysis_prompt (query : string) (ctxMap : gmap string string) : string :=
  let prompt := analyze_prompt query in
  if (0 <? Z.of_nat (size ctxMap))
  then prompt +:+ nl +:+ nl +:+ "Additional context: " +:+ fmt_v_ctx ctxMap
  else prompt.

Definition analyzeQuery (query : string) (ctxMap : gmap string string) : M string :=
  let prompt := analysis_prompt query ctxMap in
  let* r := lift_world (GenerateContent modelName prompt) in
  match r with
  | inr err => ret "Unable to analyze query"
  | inl resp =>
      match genai.Candidates resp with
      | {| genai.Content_ := Some content |} :: _ =>
          match genai.Parts content with
          | part :: _ => ret (fmt_v_Part part)
          | [] => ret "Query analysis completed"
          end
      | _ => ret "Query analysis completed"
      end
  end.

(** ** Step 2: create execution plan *)

Definition default_action (query : string) : Action.t :=
  Action.mk "search_rag" "Search knowledge base"
    (Some (<["query" := VString query]>
            (<["collection" := VString "regulatory_docs"]>
              (<["top_k" := VInt 5]> ∅)))).

Definition createExecutionPlan (query : string) (ctxMap : gmap string string)
  : M (ExecutionPlan.t + error) :=
  let prompt := plan_prompt query in
  let* r := lift_world (GenerateContent modelName prompt) in
  match r with
  | inr err => ret (inr err)
  | inl resp =>
      match genai.Candidates resp with
      | {| genai.Content_ := Some content |} :: _ =>
          match genai.Parts content with
          | [] => ret (inr "empty response")
          | part :: _ =>
              let responseText := fmt_v_Part part in
              let responseText := clean_json responseText in
              let plan := ExecutionPlan.set_OriginalQuery query ExecutionPlan.zero in
              match json_Unmarshal_plan responseText plan with
              | (plan, Some err) =>
                  let plan := ExecutionPlan.set_RewrittenQueries [query] plan in
                  let plan := ExecutionPlan.set_Actions [default_action query] plan in
                  let plan :=
                    ExecutionPlan.set_Reasoning "Default plan: search knowledge base" plan in
                  ret (inl plan)
              | (plan, None) => ret (inl plan)
              end
          end
      | _ => ret (inr "no response from model")
      end
  end.

(** ** Step 3: execute actions *)

Definition executeSearchRAG (params : GoMap) : M (GoMap * option error) :=
  let query := fst (assert_string (map_index params "query")) in
  let collection := fst (assert_string (map_index params "collection")) in
  let topK := fst (assert_float64 (map_index params "top_k")) in
  let query := if String.eqb query "" then "default query" else query in
  let collection := if String.eqb collection "" then "regulatory_docs" else collection in
  let topK := if (topK =? 0)%float then 5%float else topK in
  let requestBody :=
    json_Marshal
      (VMap (Some (<["query" := VString query]>
                    (<["collection" := VString collection]>
                      (<["top_k" := VInt (float64_to_int topK)]> ∅))))) in
  let* r := lift_world (http_Post (RAG_SERVICE_URL +:+ "/retrieve") "application/json" requestBody) in
  match r with
  | inr err => ret (None, Some err)
  | inl body =>
      match json_Decode_map body with
      | (_, Some err) => ret (None, Some err)
      | (result, None) => ret (result, None)
      end
  end.

Definition executeCallTool (params : GoMap) : M (GoMap * option error) :=
  let toolName := fst (assert_string (map_index params "tool")) in
  if String.eqb toolName ""
  then ret (None, Some "tool name required")
  else
    let requestBody :=
      json_Marshal
        (VMap (Some (<["tool" := VString toolName]>
                      (<["params" := VMap params]> ∅)))) in
    let* r := lift_world (http_Post (MCP_GATEWAY_URL +:+ "/tools/call") "application/json" requestBody) in
    match r with
    | inr err => ret (None, Some err)
    | inl body =>
        match json_Decode_map body with
        | (_, Some err) => ret (None, Some err)
        | (result, None) => ret (result, None)
        end
    end.

(** The [switch] on the action's type: the result, the error and the
    response with the sources and tools the action registered. *)
Definition dispatch_action (action : Action.t) (response : AgentResponse.t)
  : M (GoMap * option error * AgentResponse.t) :=
  if String.eqb (Action.Type_ action) "search_rag" then
    let* (result, err) := executeSearchRAG (Action.Parameters action) in
    match err with
    | None =>
        ret (result, err,
             AgentResponse.set_Sources
               (AgentResponse.Sources response ++ ["RAG Knowledge Base"]) response)
    | Some _ => ret (result, err, response)
    end
  else if String.eqb (Action.Type_ action) "call_tool" then
    let* (result, err) := executeCallTool (Action.Parameters action) in
    match err with
    | None =>
        match assert_string (map_index (Action.Parameters action) "tool") with
        | (toolName, true) =>
            ret (result, err,
                 AgentResponse.set_ToolsUsed
                   (AgentResponse.ToolsUsed response ++ [toolName]) response)
        | (_, false) => ret (result, err, response)
        end
    | Some _ => ret (result, err, response)
    end
  else if String.eqb (Action.Type_ action) "synthesize" then
    ret (Some (<["status" := VString "deferred"]> ∅), None, response)
  else
    ret (None, Some ("unknown action type: " +:+ Action.Type_ action), response).

Definition failed_result (err : error) : GoMap :=
  Some (<["error" := VString err]> (<["status" := VString "failed"]> ∅)).

(** One round of the [for] over the actions. *)
Definition execute_one (action : Action.t) (response : AgentResponse.t)
  : M (GoMap * AgentResponse.t) :=
  let* (result, err, response) := dispatch_action action response in
  let result :=
    match err with
    | Some e => failed_result e
    | None => result
    end in
  let* result := lift_outcome (map_assign result "action_type" (VString (Action.Type_ action))) in
  ret (result, response).

Fixpoint executeActions_from (actions : list Action.t) (results : list GoMap)
  (response : AgentResponse.t) : M (list GoMap * AgentResponse.t) :=
  match actions with
  | [] => ret (results, response)
  | action :: actions =>
      let* (result, response) := execute_one action response in
      executeActions_from actions (results ++ [result]) response
  end.

(** [executeActions(actions, &response)]: the results, and the response the
    pointer leads to as the call leaves it. *)
Definition executeActions (actions : list Action.t) (response : AgentResponse.t)
  : M (list GoMap * AgentResponse.t) :=
  executeActions_from actions [] response.

(** ** Step 4: synthesize answer *)

(** The [for i, result := range results] that numbers the results. *)
Fixpoint gather_results (i : Z) (results : list GoMap) (contextStr : string) : string :=
  match results with
  | [] => contextStr
  | result :: results =>
      gather_results (i + 1) results
        (contextStr +:+ fmt_d (i + 1) +:+ ". " +:+ fmt_v_map result +:+ nl +:+ nl)
  end.

Definition synthesizeAnswer (query : string) (results : list GoMap) : M string :=
  let contextStr := "Information gathered:" +:+ nl +:+ nl in
  let contextStr := gather_results 0 results contextStr in
  let prompt := synthesize_prompt query contextStr in
  let* r := lift_world (GenerateContent modelName prompt) in
  match r with
  | inr err => ret "Unable to synthesize answer from available information."
  | inl resp =>
      match genai.Candidates resp with
      | {| genai.Content_ := Some content |} :: _ =>
          match genai.Parts content with
          | part :: _ => ret (fmt_v_Part part)
          | [] => ret "No answer could be generated."
          end
      | _ => ret "No answer could be generated."
      end
  end.

(** ** Step 5: verify answer *)

Definition transport_fallback : Verification.t :=
  Verification.mk true 0.5%float EmptyString.

Definition parse_fallback : Verification.t :=
  Verification.mk true 0.7%float EmptyString.

Definition verifyAnswer (query answer : string) (results : list GoMap)
  : M Verification.t :=
  let prompt := verify_prompt query answer in
  let* r := lift_world (GenerateContent modelName prompt) in
  match r with
  | inr err => ret transport_fallback
  | inl resp =>
      match genai.Candidates resp with
      | {| genai.Content_ := Some content |} :: _ =>
          match genai.Parts content with
          | part :: _ =>
              let responseText := fmt_v_Part part in
              let responseText := clean_json responseText in
              match json_Unmarshal_verification responseText Verification.zero with
              | (_, Some err) => ret parse_fallback
              | (v, None) => ret v
              end
          | [] => ret parse_fallback
          end
      | _ => ret parse_fallback
      end
  end.

(** ** Helper functions *)

Definition enhanceQueryForIteration (originalQuery missingInfo : string) : string :=
  if String.eqb missingInfo ""
  then originalQuery
  else originalQuery +:+ " (specifically about: " +:+ missingInfo +:+ ")".

Definition storeConversation (conversationID query answer : string) : M unit :=
  let* convs := get_conversations in
  let* conv :=
    match convs !! conversationID with
    | Some conv => ret conv
    | None =>
        let* now := lift_world time_Now in
        let conv := Conversation.mk conversationID [] now in
        let* _ := put_conversations (<[conversationID := conv]> convs) in
        ret conv
    end in
  let* t1 := lift_world time_Now in
  let* t2 := lift_world time_Now in
  let conv :=
    Conversation.mk (Conversation.ID conv)
      (Conversation.Messages conv
         ++ [Message.mk "user" query t1; Message.mk "assistant" answer t2])
      (Conversation.StartTime conv) in
  let* convs := get_conversations in
  put_conversations (<[conversationID := conv]> convs).

(** ** The agentic loop *)

(** The variables the loop carries from one iteration to the next. *)
Record LoopState : Type := mkLoop {
  req : AgentRequest.t;
  response : AgentResponse.t;
  finalAnswer : string;
  confidence : float
}.

Definition set_req (r : AgentRequest.t) (st : LoopState) : LoopState :=
  mkLoop r (response st) (finalAnswer st) (confidence st).
Definition set_response (r : AgentResponse.t) (st : LoopState) : LoopState :=
  mkLoop (req st) r (finalAnswer st) (confidence st).
Definition set_finalAnswer (a : string) (st : LoopState) : LoopState :=
  mkLoop (req st) (response st) a (confidence st).
Definition set_confidence (c : float) (st : LoopState) : LoopState :=
  mkLoop (req st) (response st) (finalAnswer st) c.

(** [response.Steps = append(response.Steps, AgentStep{StepNumber:
    len(response.Steps) + 1, ...})]; no step sets the [Action] field. *)
Definition append_step (ty description result : string) (success : bool)
  (duration : float) (r : AgentResponse.t) : AgentResponse.t :=
  AgentResponse.set_Steps
    (AgentResponse.Steps r
       ++ [AgentStep.mk (len (AgentResponse.Steps r) + 1) ty description
             EmptyString result success duration])
    r.

Definition initial_response (rq : AgentRequest.t) : AgentResponse.t :=
  AgentResponse.mk (AgentRequest.ConversationID rq) (AgentRequest.Query rq)
    EmptyString 0%float 0 [] [] 0%float [] false EmptyString.

Definition initial_state (rq : AgentRequest.t) : LoopState :=
  mkLoop rq (initial_response rq) EmptyString 0%float.

Definition step_analyze (st : LoopState) : M LoopState :=
  let* step1Start := lift_world time_Now in
  let* analysis :=
    analyzeQuery (AgentRequest.Query (req st)) (AgentRequest.Context (req st)) in
  let* d := lift_world (time_Since_ms step1Start) in
  ret (set_response
         (append_step "analyze" "Analyze user query and intent" analysis true d
            (response st)) st).

(** Planning either hands the plan on, or ends the whole call with the
    response it returns. *)
Definition step_plan (st : LoopState) : M (LoopState * ExecutionPlan.t + AgentResponse.t) :=
  let* step2Start := lift_world time_Now in
  let* r :=
    createExecutionPlan (AgentRequest.Query (req st)) (AgentRequest.Context (req st)) in
  match r with
  | inr err =>
      let* d := lift_world (time_Since_ms step2Start) in
      let response :=
        append_step "plan" "Create execution plan" EmptyString false d (response st) in
      ret (inr (AgentResponse.set_Answer ("Failed to create plan: " +:+ err) response))
  | inl plan =>
      let* d := lift_world (time_Since_ms step2Start) in
      ret (inl (set_response
                  (append_step "plan" "Create execution plan"
                     (ExecutionPlan.Reasoning plan) true d (response st)) st,
                plan))
  end.

Definition step_execute (st : LoopState) (plan : ExecutionPlan.t)
  : M (LoopState * list GoMap) :=
  let* step3Start := lift_world time_Now in
  let* (executionResults, response) :=
    executeActions (ExecutionPlan.Actions plan) (response st) in
  let* d := lift_world (time_Since_ms step3Start) in
  ret (set_response
         (append_step "execute"
            ("Execute " +:+ fmt_d (len (ExecutionPlan.Actions plan)) +:+ " actions")
            ("Executed " +:+ fmt_d (len executionResults) +:+ " actions")
            true d response) st,
       executionResults).

Definition step_synthesize (st : LoopState) (executionResults : list GoMap)
  : M LoopState :=
  let* step4Start := lift_world time_Now in
  let* answer := synthesizeAnswer (AgentRequest.Query (req st)) executionResults in
  let st := set_finalAnswer answer st in
  let* d := lift_world (time_Since_ms step4Start) in
  ret (set_response
         (append_step "synthesize" "Synthesize final answer"
            ("Generated answer (" +:+ fmt_d (Z.of_nat (String.length answer)) +:+ " chars)")
            true d (response st)) st).

Definition step_verify (st : LoopState) (executionResults : list GoMap)
  : M (LoopState * Verification.t) :=
  let* step5Start := lift_world time_Now in
  let* verification :=
    verifyAnswer (AgentRequest.Query (req st)) (finalAnswer st) executionResults in
  let st := set_confidence (Verification.Confidence verification) st in
  let* d := lift_world (time_Since_ms step5Start) in
  ret (set_response
         (append_step "verify" "Verify answer quality"
            ("Confidence: " +:+ fmt_2f (Verification.Confidence verification)
               +:+ ", Complete: " +:+ fmt_bool (Verification.IsComplete verification))
            true d (response st)) st,
       verification).

(** Steps 1 to 5 of one iteration. *)
Inductive PhaseResult : Type :=
| PlanFailed (resp : AgentResponse.t)
| Verified (st : LoopState) (verification : Verification.t).

Definition plan_onwards (st : LoopState) : M PhaseResult :=
  let* p := step_plan st in
  match p with
  | inr resp => ret (PlanFailed resp)
  | inl (st, plan) =>
      let* (st, executionResults) := step_execute st plan in
      let* st := step_synthesize st executionResults in
      let* (st, verification) := step_verify st executionResults in
      ret (Verified st verification)
  end.

Definition run_phases (st : LoopState) : M PhaseResult :=
  let* st := step_analyze st in
  plan_onwards st.

(** Step 6: decide if done. *)
Inductive Decision : Type :=
| Done (st : LoopState)
| NeedsInfo (st : LoopState)
| Iterate (st : LoopState).

Definition satisfactory (verification : Verification.t) : bool :=
  Verification.IsComplete verification
  && (CONFIDENCE_THRESHOLD <=? Verification.Confidence verification)%float.

Definition follow_up_template : string :=
  "I need more information to answer completely. Can you provide more context about: ".

Definition decide_if_done (iteration : Z) (st : LoopState)
  (verification : Verification.t) : Decision :=
  if satisfactory verification then
    Done (set_response (AgentResponse.set_NeedMoreInfo false (response st)) st)
  else if (iteration >=? AgentRequest.MaxIterations (req st)) then
    NeedsInfo
      (set_response
         (AgentResponse.set_FollowUpQ
            (follow_up_template +:+ Verification.MissingInfo verification)
            (AgentResponse.set_NeedMoreInfo true (response st)))
         st)
  else
    Iterate
      (set_req
         (AgentRequest.set_Query
            (enhanceQueryForIteration (AgentRequest.Query (req st))
               (Verification.MissingInfo verification))
            (req st))
         st).

(** How the [for] is left: by the [return] of a failed planning step, or by
    a [break] or a false loop condition, both of which fall through to the
    code after the loop. *)
Inductive LoopExit : Type :=
| Returned (resp : AgentResponse.t)
| Exited (st : LoopState).

(** [for iteration := 1; iteration <= req.MaxIterations; iteration++],
    counted down by [remaining], the number of values [iteration] still has
    to take: the loop condition holds exactly when it is positive. *)
Fixpoint agentic_loop (remaining : nat) (iteration : Z) (st : LoopState) : M LoopExit :=
  match remaining with
  | O => ret (Exited st)
  | S remaining =>
      let* p := run_phases st in
      match p with
      | PlanFailed resp => ret (Returned resp)
      | Verified st verification =>
          match decide_if_done iteration st verification with
          | Done st => ret (Exited st)
          | NeedsInfo st => ret (Exited st)
          | Iterate st => agentic_loop remaining (iteration + 1) st
          end
      end
  end.

(** The code after the loop: the three assignments to the response, then
    the call that stores the conversation. *)
Definition final_response (st : LoopState) : AgentResponse.t :=
  let response := AgentResponse.set_Answer (finalAnswer st) (response st) in
  let response := AgentResponse.set_Confidence (confidence st) response in
  AgentResponse.set_Iterations (len (AgentResponse.Steps response) ÷ 5) response.

Definition finish (st : LoopState) : M AgentResponse.t :=
  let response := final_response st in
  let* _ :=
    storeConversation (AgentRequest.ConversationID (req st))
      (AgentRequest.Query (req st)) (finalAnswer st) in
  ret response.

Definition executeAgenticLoop (rq : AgentRequest.t) : M AgentResponse.t :=
  let* exit :=
    agentic_loop (Z.to_nat (AgentRequest.MaxIterations rq)) 1 (initial_state rq) in
  match exit with
  | Returned resp => ret resp
  | Exited st => finish st
  end.

(** ** Observing a run

    [loop_entry rq s n] is the loop state and the process state with which
    the call [executeAgenticLoop rq], started in [s], enters iteration
    [n + 1], when it gets that far. *)
Fixpoint loop_entry (rq : AgentRequest.t) (s : State) (n : nat)
  : option (LoopState * State) :=
  match n with
  | O =>
      if 1 <=? AgentRequest.MaxIterations rq
      then Some (initial_state rq, s)
      else None
  | S n' =>
      match loop_entry rq s n' with
      | Some (st, s1) =>
          match run_phases st s1 with
          | (Ok (Verified st verification), s2) =>
              match decide_if_done (Z.of_nat n) st verification with
              | Iterate st => Some (st, s2)
              | _ => None
              end
          | _ => None
          end
      | None => None
      end
  end.

(** Iterations are numbered from 1, as [iteration] is in the source. *)
Definition iteration_entry (rq : AgentRequest.t) (s : State) (k : nat)
  : option (LoopState * State) :=
  match k with
  | O => None
  | S n => loop_entry rq s n
  end.

(** What steps 1 to 5 of iteration [k] come to. *)
Definition iteration_phases (rq : AgentRequest.t) (s : State) (k : nat)
  : option (Outcome PhaseResult * State) :=
  match iteration_entry rq s k with
  | Some (st, s1) => Some (run_phases st s1)
  | None => None
  end.

(** The verification iteration [k] produces, if the run reaches its step 5. *)
Definition iteration_verification (rq : AgentRequest.t) (s : State) (k : nat)
  : option Verification.t :=
  match iteration_phases rq s k with
  | Some (Ok (Verified _ verification), _) => Some verification
  | _ => None
  end.

(** The query iteration [k] analyzes and plans with. *)
Definition iteration_query (rq : AgentRequest.t) (s : State) (k : nat)
  : option string :=
  match iteration_entry rq s k with
  | Some (st, _) => Some (AgentRequest.Query (req st))
  | None => None
  end.

(** [confidence] within the unit interval, by the comparisons of [float64]. *)
Definition in_unit_interval (c : float) : bool :=
  ((0 <=? c) && (c <=? 1))%float.

(** The response steps 1 to 5 leave behind. *)
Definition phase_response (p : PhaseResult) : AgentResponse.t :=
  match p with
  | PlanFailed resp => resp
  | Verified st _ => response st
  end.

(** What the result of executing [action] must look like: it names the
    action's type; for a type the [switch] does not know it is the failed
    result with the "unknown action type" message; for a tool call without a
    tool name it is the failed result with "tool name required". *)
Definition known_type (ty : string) : bool :=
  String.eqb ty "search_rag" || String.eqb ty "call_tool" || String.eqb ty "synthesize".

Definition in_band (action : Action.t) (result : GoMap) : Prop :=
  exists g,
    result = Some g
    /\ g !! "action_type" = Some (VString (Action.Type_ action))
    /\ (known_type (Action.Type_ action) = false ->
        g !! "status" = Some (VString "failed")
        /\ g !! "error"
           = Some (VString ("unknown action type: " +:+ Action.Type_ action)))
    /\ (Action.Type_ action = "call_tool" ->
        fst (assert_string (map_index (Action.Parameters action) "tool")) = EmptyString ->
        g !! "status" = Some (VString "failed")
        /\ g !! "error" = Some (VString "tool name required")).

(** A call that cannot panic and leaves the conversation store alone. *)
Definition safe {A : Type} (m : M A) : Prop :=
  forall s, exists a s', m s = (Ok a, s') /\ conversations s' = conversations s.

(** [verification] is what some call of the verifier returned. *)
Definition verified (verification : Verification.t) : Prop :=
  exists query answer results s s',
    verifyAnswer query answer results s = (Ok verification, s').

(** The steps of [l] carry the ordinals [start], [start + 1], ... in order. *)
Definition numbered_from (start : Z) (l : list AgentStep.t) : Prop :=
  forall (i : nat) (step : AgentStep.t),
    l !! i = Some step -> AgentStep.StepNumber step = start + Z.of_nat i.

(** [r'] holds the steps of [r] and [n] more, numbered on from them. *)
Definition steps_grown (n : nat) (r r' : AgentResponse.t) : Prop :=
  exists new,
    AgentResponse.Steps r' = AgentResponse.Steps r ++ new
    /\ List.length new = n
    /\ numbered_from (len (AgentResponse.Steps r) + 1) new.

(** [r'] is [r] with [n] more steps, and possibly more sources and tools:
    what the phases of an iteration do to the response. The new steps are
    numbered on from the old ones. *)
Record grown (n : nat) (r r' : AgentResponse.t) : Prop := mkGrown {
  grown_ConversationID : AgentResponse.ConversationID r' = AgentResponse.ConversationID r;
  grown_Query : AgentResponse.Query r' = AgentResponse.Query r;
  grown_Answer : AgentResponse.Answer r' = AgentResponse.Answer r;
  grown_Confidence : AgentResponse.Confidence r' = AgentResponse.Confidence r;
  grown_Iterations : AgentResponse.Iterations r' = AgentResponse.Iterations r;
  grown_ProcessTime : AgentResponse.ProcessTime r' = AgentResponse.ProcessTime r;
  grown_NeedMoreInfo : AgentResponse.NeedMoreInfo r' = AgentResponse.NeedMoreInfo r;
  grown_FollowUpQ : AgentResponse.FollowUpQ r' = AgentResponse.FollowUpQ r;
  grown_Steps : steps_grown n r r'
}.

(** ** HTTP handlers *)

(** [body] is what [json.NewDecoder(r.Body).Decode(&req)] leaves in [req],
    with its error. *)
Definition agentQueryHandler (method : string) (body : AgentRequest.t * option error)
  : M (HttpReply AgentResponse.t) :=
  if negb (String.eqb method "POST") then ret (PlainError "Method not allowed" 405)
  else
    let* startTime := lift_world time_Now in
    match body with
    | (_, Some err) => ret (JSONError "Invalid request body" 400)
    | (rq, None) =>
        if String.eqb (AgentRequest.Query rq) ""
        then ret (JSONError "Query cannot be empty" 400)
        else
          let rq :=
            if AgentRequest.MaxIterations rq =? 0
            then AgentRequest.set_MaxIterations MAX_ITERATIONS rq
            else rq in
          let* rq :=
            if String.eqb (AgentRequest.ConversationID rq) ""
            then
              let* id := lift_world uuid_New in
              ret (AgentRequest.set_ConversationID id rq)
            else ret rq in
          let* response := executeAgenticLoop rq in
          let* d := lift_world (time_Since_ms startTime) in
          ret (JSON (AgentResponse.set_ProcessTime d response) 200)
    end.

Definition planHandler (method : string) (body : AgentRequest.t * option error)
  : M (HttpReply ExecutionPlan.t) :=
  if negb (String.eqb method "POST") then ret (PlainError "Method not allowed" 405)
  else
    match body with
    | (_, Some err) => ret (JSONError "Invalid request body" 400)
    | (rq, None) =>
        let* r :=
          createExecutionPlan (AgentRequest.Query rq) (AgentRequest.Context rq) in
        match r with
        | inr err => ret (JSONError ("Failed to create plan: " +:+ err) 500)
        | inl plan => ret (JSON plan 200)
        end
    end.

Definition historyHandler (method path : string)
  : M (HttpReply (Conversation.t Time)) :=
  if negb (String.eqb method "GET") then ret (PlainError "Method not allowed" 405)
  else
    let conversationID := TrimPrefix path "/agent/history/" in
    if String.eqb conversationID ""
    then ret (JSONError "Conversation ID required" 400)
    else
      let* convs := get_conversations in
      match convs !! conversationID with
      | None => ret (JSONError "Conversation not found" 404)
      | Some conv => ret (JSON conv 200)
      end.

End Orchestrator.

(** ** A scripted environment

    A concrete [Externals] on which the program can be run: the model and
    the collaborators answer from scripts, the clock ticks once per reading,
    and the decoders are given by tables of sample texts. *)

Module Scripted.

Record world : Type := mkWorld {
  llm : list (genai.GenerateContentResponse string + error);
  http : list (string + error);
  clock : Z
}.

(** What the decoders yield on the texts they know; every other text is
    refused as malformed. *)
Record Tables : Type := mkTables {
  plans : list (string * ExecutionPlan.t);
  verifications : list (string * Verification.t);
  maps : list (string * GoMap)
}.

Fixpoint assoc {A : Type} (table : list (string * A)) (data : string) : option A :=
  match table with
  | [] => None
  | (k, a) :: table => if String.eqb k data then Some a else assoc table data
  end.

Definition is_ascii_space (c : ascii) : bool :=
  let n := nat_of_ascii c in
  ((9 <=? n) && (n <=? 13) || (n =? 32))%nat.

Fixpoint trim_left (s : string) : string :=
  match s with
  | String c rest => if is_ascii_space c then trim_left rest else s
  | EmptyString => EmptyString
  end.

Fixpoint trim_right (s : string) : string :=
  match s with
  | String c rest =>
      match trim_right rest with
      | EmptyString => if is_ascii_space c then EmptyString else String c EmptyString
      | rest => String c rest
      end
  | EmptyString => EmptyString
  end.

(** [strings.TrimSpace] on ASCII text. *)
Definition trim_space (s : string) : string := trim_right (trim_left s).

Definition generate (_ _ : string) (w : world)
  : (genai.GenerateContentResponse string + error) * world :=
  match llm w with
  | r :: rest => (r, mkWorld rest (http w) (clock w))
  | [] => (inr "model unavailable", w)
  end.

Definition post (_ _ _ : string) (w : world) : (string + error) * world :=
  match http w with
  | r :: rest => (r, mkWorld (llm w) rest (clock w))
  | [] => (inr "connection refused", w)
  end.

Definition now (w : world) : Z * world :=
  (clock w, mkWorld (llm w) (http w) (clock w + 1)).

Fixpoint float_of_pos (p : positive) : float :=
  match p with
  | xH => 1%float
  | xO p => (2 * float_of_pos p)%float
  | xI p => (2 * float_of_pos p + 1)%float
  end.

Definition float_of_Z (n : Z) : float :=
  match n with
  | Z0 => 0%float
  | Zpos p => float_of_pos p
  | Zneg p => (- float_of_pos p)%float
  end.

Definition since_ms (t : Z) (w : world) : float * world :=
  (float_of_Z (clock w - t), w).

Definition decode {A : Type} (table : list (string * A)) (zero : A) (data : string)
  : A * option error :=
  match assoc table data with
  | Some a => (a, None)
  | None => (zero, Some "invalid character looking for beginning of value")
  end.

Definition env (T : Tables) : Externals := {|
  World := world;
  Part := string;
  Time := Z;
  GenerateContent := generate;
  http_Post := post;
  time_Now := now;
  time_Since_ms := since_ms;
  uuid_New := fun w => ("00000000-0000-4000-8000-000000000000", w);
  os_Getenv := fun _ => EmptyString;
  TrimSpace := trim_space;
  fmt_v_Part := fun text => text;
  fmt_v_map := fun _ => "map[]";
  fmt_v_ctx := fun _ => "map[]";
  fmt_2f := fun _ => "0.00";
  json_Marshal := fun _ => "{}";
  json_Unmarshal_plan := fun data plan => decode (plans T) plan data;
  json_Unmarshal_verification := fun data v => decode (verifications T) v data;
  json_Decode_map := fun data => decode (maps T) None data;
  float64_to_int := fun _ => 5
|}.

(** A model reply whose first candidate has the one part [text]. *)
Definition says (text : string) : genai.GenerateContentResponse string + error :=
  inl (genai.mkResponse [genai.mkCandidate (Some (genai.mkContent [text]))]).

Definition start (T : Tables) (w : world) : @State (env T) :=
  @mkState (env T) w ∅.

(** What a run returned, if it did not panic. *)
Definition returned {A S : Type} (r : Outcome A * S) : option A :=
  match fst r with
  | Ok a => Some a
  | Panic _ => None
  end.

(** The response a run returned (an empty one if it panicked), and the
    response the loop left by its [return] (an empty one if it did not). *)
Definition response_of {S : Type} (r : Outcome AgentResponse.t * S) : AgentResponse.t :=
  match fst r with
  | Ok resp => resp
  | Panic _ => AgentResponse.mk "" "" "" 0%float 0 [] [] 0%float [] false ""
  end.

Definition early_response {S : Type} (r : Outcome LoopExit * S) : AgentResponse.t :=
  match fst r with
  | Ok (Returned resp) => resp
  | _ => AgentResponse.mk "" "" "" 0%float 0 [] [] 0%float [] false ""
  end.

(** The roles and contents of a conversation after a run. *)
Definition history {A : Type} {T : Tables} (r : Outcome A * @State (env T))
  (conversationID : string) : option (list (string * string)) :=
  match conversations (snd r) !! conversationID with
  | Some conv =>
      Some (map (fun m => (Message.Role m, Message.Content m)) (Conversation.Messages conv))
  | None => None
  end.

(** *** Sample texts and runs

    The verification texts spell the fields as the struct does
    ([Verification] carries no [json] tags), so that [encoding/json] decodes
    them to the values the tables give. *)

Definition verification_text (is_complete confidence missing_info : string) : string :=
  "{" +:+ quoted "IsComplete" +:+ ": " +:+ is_complete +:+ ", "
      +:+ quoted "Confidence" +:+ ": " +:+ confidence +:+ ", "
      +:+ quoted "MissingInfo" +:+ ": " +:+ quoted missing_info +:+ "}".

Definition complete_text : string := verification_text "true" "0.9" "".
Definition incomplete_text : string := verification_text "false" "0.3" "budget limits".
Definition vague_text : string := verification_text "false" "0.3" "".
Definition overconfident_text : string := verification_text "true" "1.5" "".

Definition sample_verifications : list (string * Verification.t) :=
  [ (complete_text, Verification.mk true 0.9%float "");
    (incomplete_text, Verification.mk false 0.3%float "budget limits");
    (vague_text, Verification.mk false 0.3%float "") ].

(** Every model text but the sample verifications is refused by the
    decoders; the collaborators' [null] decodes to the nil map. *)
Definition sample : Tables :=
  mkTables [] sample_verifications [("null", None)].

(** The same, with a reply that reports a confidence of 1.5. *)
Definition unchecked : Tables :=
  mkTables []
    ((overconfident_text, Verification.mk true 1.5%float "") :: sample_verifications)
    [("null", None)].

Abbreviation E := (env sample).
Abbreviation s0 w := (start sample w).

Definition kyc_query : string := "What are the KYC requirements?".

Definition request (max_iterations : Z) : AgentRequest.t :=
  AgentRequest.mk kyc_query "C1" max_iterations ∅.

(** The model's four replies in an iteration that ends with the verifier
    saying [verdict]: analysis, a plan that is not JSON, answer, verdict. *)
Definition iteration_script (verdict : string)
  : list (genai.GenerateContentResponse string + error) :=
  [says "A question about compliance."; says "Search the knowledge base first.";
   says "KYC requires identity verification."; says verdict].

(** One iteration, verified complete with confidence 0.9. *)
Definition confident_world : world :=
  mkWorld (iteration_script complete_text) [] 0.

(** Two iterations, both verified incomplete, missing "budget limits". *)
Definition doubtful_world : world :=
  mkWorld (iteration_script incomplete_text ++ iteration_script incomplete_text) [] 0.

(** Two iterations, both verified incomplete with nothing named missing. *)
Definition vague_world : world :=
  mkWorld (iteration_script vague_text ++ iteration_script vague_text) [] 0.

(** One iteration verified incomplete, then the model becomes unreachable
    after the analysis of the second. *)
Definition broken_world : world :=
  mkWorld (iteration_script incomplete_text ++ [says "A question about compliance."]) [] 0.

(** One iteration, verified with a confidence of 1.5. *)
Definition overconfident_world : world :=
  mkWorld (iteration_script overconfident_text) [] 0.

(** A single reply, reporting a confidence of 1.5. *)
Definition overconfident_reply : world :=
  mkWorld [says overconfident_text] [] 0.

(** A single reply that is prose, not JSON. *)
Definition prose_reply : world :=
  mkWorld [says "Search the knowledge base first."] [] 0.

(** The model fails the first call and answers the three after it. *)
Definition analysis_down : world :=
  mkWorld
    (inr "deadline exceeded"
       :: [says "Search the knowledge base first.";
           says "KYC requires identity verification."; says complete_text])
    [] 0.

(** The model unreachable from the first call on. *)
Definition silent_world : world := mkWorld [] [] 0.

(** The gateway answers a tool call with the body [null]. *)
Definition null_world : world := mkWorld [] [inl "null"] 0.

Definition tool_action : Action.t :=
  Action.mk "call_tool" "Score the merchant"
    (Some (<["tool" := VString "risk-score"]> ∅)).

Definition synthesize_action : Action.t :=
  Action.mk "synthesize" "Combine information" None.

Definition nameless_tool_action : Action.t :=
  Action.mk "call_tool" "Score the merchant" (Some (<["merchant" := VString "m-17"]> ∅)).

Definition unknown_action : Action.t :=
  Action.mk "summarize" "Summarize the findings" None.


(** What a call returned, or [d] if it panicked. *)
Definition result_of {A S : Type} (d : A) (r : Outcome A * S) : A :=
  match fst r with
  | Ok a => a
  | Panic _ => d
  end.

(** *** Further sample runs *)

Definition confident_run : Outcome AgentResponse.t * @State E :=
  executeAgenticLoop (E := E) (request 1) (s0 confident_world).

Definition doubtful_run : Outcome AgentResponse.t * @State E :=
  executeAgenticLoop (E := E) (request 2) (s0 doubtful_world).

Definition broken_run : Outcome AgentResponse.t * @State E :=
  executeAgenticLoop (E := E) (request 2) (s0 broken_world).

(** The state in which the second iteration of the doubtful run starts. *)
Definition second_entry : LoopState * @State E :=
  default (initial_state (request 2), s0 doubtful_world)
    (iteration_entry (E := E) (request 2) (s0 doubtful_world) 2).

(** The same question asked again in the conversation the confident run
    left behind. *)
Definition returning_state : @State E :=
  @mkState E confident_world (conversations (snd confident_run)).

Definition second_run : Outcome AgentResponse.t * @State E :=
  executeAgenticLoop (E := E) (request 1) returning_state.

(** The query endpoint, asked once with a cap of one iteration. *)
Definition query_call : Outcome (HttpReply AgentResponse.t) * @State E :=
  agentQueryHandler (E := E) "POST" (request 1, None) (s0 confident_world).

(** Collaborators whose body [{}] decodes to the empty map: the retrieval
    and the first tool call succeed, the second tool call times out. *)
Definition answering : Tables :=
  mkTables [] sample_verifications [("{}", Some ∅)].

Definition gateway_world : world :=
  mkWorld [] [inl "{}"; inl "{}"; inr "context deadline exceeded"] 0.

Definition search_action : Action.t :=
  Action.mk "search_rag" "Search knowledge base"
    (Some (<["query" := VString kyc_query]> ∅)).

Definition sample_actions : list Action.t :=
  [search_action; tool_action; nameless_tool_action; tool_action].

Definition actions_run
  : Outcome (list GoMap * AgentResponse.t) * @State (env answering) :=
  executeActions (E := env answering) sample_actions (initial_response (request 1))
    (start answering gateway_world).

(** A reply of the model with no candidate, and the model giving it once. *)
Definition no_text : genai.GenerateContentResponse string := genai.mkResponse [].

Definition mute_world : world := mkWorld [inl no_text] [] 0.

(** One iteration whose search is answered by the retrieval service. *)
Definition sourced_world : world :=
  mkWorld (iteration_script complete_text) [inl "{}"] 0.

Definition sourced_run : Outcome AgentResponse.t * @State (env answering) :=
  executeAgenticLoop (E := env answering) (request 1) (start answering sourced_world).

End Scripted.

(** ** Further vocabulary for the orchestrator *)

Section Vocabulary.

Context {E : Externals}.

(** The value [executeSearchRAG] marshals into the body of its request: the
    parameters with their defaults filled in. *)
Definition retrieve_request (params : GoMap) : GoValue :=
  let query := fst (assert_string (map_index params "query")) in
  let collection := fst (assert_string (map_index params "collection")) in
  let topK := fst (assert_float64 (map_index params "top_k")) in
  let query := if String.eqb query "" then "default query" else query in
  let collection := if String.eqb collection "" then "regulatory_docs" else collection in
  let topK := if (topK =? 0)%float then 5%float else topK in
  VMap (Some (<["query" := VString query]>
               (<["collection" := VString collection]>
                 (<["top_k" := VInt (float64_to_int topK)]> ∅)))).

(** What [executeSearchRAG] makes of the outcome of its request: the result
    and the error it returns. *)
Definition reply_result (r : string + error) : GoMap * option error :=
  match r with
  | inr err => (None, Some err)
  | inl body =>
      match json_Decode_map body with
      | (_, Some err) => (None, Some err)
      | (result, None) => (result, None)
      end
  end.

(** The tool a [call_tool] action names: [action.Parameters["tool"].(string)]. *)
Definition tool_name (action : Action.t) : string :=
  fst (assert_string (map_index (Action.Parameters action) "tool")).

(** An action whose execution needs no collaborator: a [synthesize], an
    action of a type the [switch] does not know, or a tool call that names
    no tool. *)
Definition offline (action : Action.t) : bool :=
  if String.eqb (Action.Type_ action) "search_rag" then false
  else if String.eqb (Action.Type_ action) "call_tool" then String.eqb (tool_name action) ""
  else true.

(** The phase tags of one full iteration, and of [k] of them. *)
Definition phase_tags : list string :=
  ["analyze"; "plan"; "execute"; "synthesize"; "verify"].

Fixpoint iteration_tags (k : nat) : list string :=
  match k with
  | O => []
  | S k => iteration_tags k ++ phase_tags
  end.

Definition step_tags (r : AgentResponse.t) : list string :=
  AgentStep.Type_ <$> AgentResponse.Steps r.

Definition step_flags (r : AgentResponse.t) : list bool :=
  AgentStep.Success <$> AgentResponse.Steps r.

(** [r'] holds the steps of [r] and then steps of the types [tags] with
    the success flags [flags]. *)
Definition tagged (tags : list string) (flags : list bool) (r r' : AgentResponse.t) : Prop :=
  step_tags r' = step_tags r ++ tags /\ step_flags r' = step_flags r ++ flags.

(** The roles and contents of a conversation's messages, in order. *)
Definition transcript (conv : Conversation.t Time) : list (string * string) :=
  (fun m => (Message.Role m, Message.Content m)) <$> Conversation.Messages conv.

(** The part of a reply the program reads: the first part of the first
    candidate, when the candidate has a content and the content a part. *)
Definition first_part (resp : genai.GenerateContentResponse Part) : option Part :=
  match genai.Candidates resp with
  | {| genai.Content_ := Some content |} :: _ =>
      match genai.Parts content with
      | part :: _ => Some part
      | [] => None
      end
  | _ => None
  end.

(** The tools the [call_tool] actions of a list name, in order, and the
    number of its [search_rag] actions. *)
Definition tool_calls (actions : list Action.t) : list string :=
  tool_name <$> List.filter (fun a => String.eqb (Action.Type_ a) "call_tool") actions.

Definition searches (actions : list Action.t) : nat :=
  List.length (List.filter (fun a => String.eqb (Action.Type_ a) "search_rag") actions).

(** What the execution of [actions] may add to the tools and the sources of
    the response. *)
Definition registered (actions : list Action.t) (r r' : AgentResponse.t) : Prop :=
  exists (tools : list string) (n : nat),
    AgentResponse.ToolsUsed r' = AgentResponse.ToolsUsed r ++ tools
    /\ AgentResponse.Sources r' = AgentResponse.Sources r ++ replicate n "RAG Knowledge Base"
    /\ sublist tools (tool_calls actions)
    /\ Forall (fun tool => tool <> EmptyString) tools
    /\ (n <= searches actions)%nat.

(** The sources of [r] are copies of the one name the program knows, and
    no tool of [r] has an empty name. *)
Definition listed (r : AgentResponse.t) : Prop :=
  (exists n : nat, AgentResponse.Sources r = replicate n "RAG Knowledge Base")
  /\ Forall (fun tool => tool <> EmptyString) (AgentResponse.ToolsUsed r).

End Vocabulary.

(** * Properties *)

Section Properties.

Context {E : Externals}.

(** ** Running the monad *)

Lemma bind_run {A B : Type} (m : M A) (k : A -> M B) (s s1 : State) (a : A) :
  m s = (Ok a, s1) -> bind m k s = k a s1.
Proof. intros Hm. unfold bind. rewrite Hm. reflexivity. Qed.

Lemma bind_panic {A B : Type} (m : M A) (k : A -> M B) (s s1 : State) (msg : string) :
  m s = (Panic msg, s1) -> bind m k s = (Panic msg, s1).
Proof. intros Hm. unfold bind. rewrite Hm. reflexivity. Qed.

Lemma bind_Ok_inv {A B : Type} (m : M A) (k : A -> M B) (s s' : State) (b : B) :
  bind m k s = (Ok b, s') ->
  exists a s1, m s = (Ok a, s1) /\ k a s1 = (Ok b, s').
Proof.
  unfold bind. destruct (m s) as [[a|msg] s1]; intros H.
  - exists a, s1. split; [reflexivity | exact H].
  - discriminate H.
Qed.

Lemma lift_world_run {A : Type} (f : World -> A * World) (s : State) :
  lift_world f s = (Ok (fst (f (world s))), mkState (snd (f (world s))) (conversations s)).
Proof. unfold lift_world. destruct (f (world s)); reflexivity. Qed.

Lemma safe_ret {A : Type} (a : A) : safe (ret a).
Proof. intros s. exists a, s. split; reflexivity. Qed.

Lemma safe_lift_world {A : Type} (f : World -> A * World) : safe (lift_world f).
Proof.
  intros s. rewrite lift_world_run. eexists _, _. split; reflexivity.
Qed.

Lemma safe_bind {A B : Type} (m : M A) (k : A -> M B) :
  safe m -> (forall a, safe (k a)) -> safe (bind m k).
Proof.
  intros Hm Hk s. destruct (Hm s) as (a & s1 & Hrun & Hc).
  destruct (Hk a s1) as (b & s2 & Hrun2 & Hc2).
  exists b, s2. split.
  - rewrite (bind_run _ _ _ _ _ Hrun). exact Hrun2.
  - congruence.
Qed.

Lemma analyzeQuery_safe (query : string) (ctxMap : gmap string string) :
  safe (analyzeQuery query ctxMap).
Proof.
  unfold analyzeQuery. apply safe_bind; [apply safe_lift_world | ].
  intros [resp | err]; [ | apply safe_ret].
  destruct (genai.Candidates resp) as [ | [[content | ]] rest]; try apply safe_ret.
  destruct (genai.Parts content); apply safe_ret.
Qed.

Lemma createExecutionPlan_safe (query : string) (ctxMap : gmap string string) :
  safe (createExecutionPlan query ctxMap).
Proof.
  unfold createExecutionPlan. apply safe_bind; [apply safe_lift_world | ].
  intros [resp | err]; [ | apply safe_ret].
  destruct (genai.Candidates resp) as [ | [[content | ]] rest]; try apply safe_ret.
  destruct (genai.Parts content); [apply safe_ret | ].
  destruct (json_Unmarshal_plan _ _) as [plan [err | ]]; apply safe_ret.
Qed.

Lemma synthesizeAnswer_safe (query : string) (results : list GoMap) :
  safe (synthesizeAnswer query results).
Proof.
  unfold synthesizeAnswer. apply safe_bind; [apply safe_lift_world | ].
  intros [resp | err]; [ | apply safe_ret].
  destruct (genai.Candidates resp) as [ | [[content | ]] rest]; try apply safe_ret.
  destruct (genai.Parts content); apply safe_ret.
Qed.

Lemma verifyAnswer_safe (query answer : string) (results : list GoMap) :
  safe (verifyAnswer query answer results).
Proof.
  unfold verifyAnswer. apply safe_bind; [apply safe_lift_world | ].
  intros [resp | err]; [ | apply safe_ret].
  destruct (genai.Candidates resp) as [ | [[content | ]] rest]; try apply safe_ret.
  destruct (genai.Parts content); [apply safe_ret | ].
  destruct (json_Unmarshal_verification _ _) as [v [err | ]]; apply safe_ret.
Qed.

Lemma executeSearchRAG_safe (params : GoMap) : safe (executeSearchRAG params).
Proof.
  unfold executeSearchRAG. apply safe_bind; [apply safe_lift_world | ].
  intros [body | err]; [ | apply safe_ret].
  destruct (json_Decode_map body) as [result [err | ]]; apply safe_ret.
Qed.

Lemma executeCallTool_safe (params : GoMap) : safe (executeCallTool params).
Proof.
  unfold executeCallTool.
  destruct (String.eqb _ _); [apply safe_ret | ].
  apply safe_bind; [apply safe_lift_world | ].
  intros [body | err]; [ | apply safe_ret].
  destruct (json_Decode_map body) as [result [err | ]]; apply safe_ret.
Qed.

(** ** What the phases do to the response *)

Lemma numbered_from_nil (start : Z) : numbered_from start [].
Proof. intros i step H. rewrite lookup_nil in H. discriminate H. Qed.

Lemma numbered_from_app (start : Z) (l1 l2 : list AgentStep.t) :
  numbered_from start l1 ->
  numbered_from (start + len l1) l2 ->
  numbered_from start (l1 ++ l2).
Proof.
  intros H1 H2 i step Hi.
  destruct (Nat.lt_ge_cases i (List.length l1)) as [Hlt | Hge].
  - rewrite lookup_app_l in Hi by exact Hlt. exact (H1 i step Hi).
  - rewrite lookup_app_r in Hi by exact Hge.
    rewrite (H2 _ step Hi). unfold len. lia.
Qed.

Lemma steps_grown_same (r r' : AgentResponse.t) :
  AgentResponse.Steps r' = AgentResponse.Steps r -> steps_grown 0 r r'.
Proof.
  intros Heq. exists []. split_and!; [ | reflexivity | apply numbered_from_nil].
  rewrite Heq. symmetry. apply app_nil_r.
Qed.

Lemma steps_grown_trans (n m : nat) (r1 r2 r3 : AgentResponse.t) :
  steps_grown n r1 r2 -> steps_grown m r2 r3 -> steps_grown (n + m) r1 r3.
Proof.
  intros (new1 & Hs1 & Hl1 & Hn1) (new2 & Hs2 & Hl2 & Hn2).
  exists (new1 ++ new2). split_and!.
  - rewrite Hs2, Hs1. symmetry. apply app_assoc.
  - rewrite List.length_app. congruence.
  - apply numbered_from_app; [exact Hn1 | ].
    rewrite Hs1 in Hn2. unfold len in *. rewrite List.length_app in Hn2.
    replace (Z.of_nat (List.length (AgentResponse.Steps r1)) + 1
             + Z.of_nat (List.length new1))
      with (Z.of_nat (List.length (AgentResponse.Steps r1) + List.length new1) + 1)
      by lia.
    exact Hn2.
Qed.

Lemma steps_grown_eq (n m : nat) (r r' : AgentResponse.t) :
  n = m -> steps_grown n r r' -> steps_grown m r r'.
Proof. intros ->. exact (fun H => H). Qed.

Lemma steps_grown_len (n : nat) (r r' : AgentResponse.t) :
  steps_grown n r r' ->
  len (AgentResponse.Steps r') = len (AgentResponse.Steps r) + Z.of_nat n.
Proof.
  intros (new & Hs & Hl & _). unfold len. rewrite Hs, List.length_app. lia.
Qed.

Lemma grown_refl (r : AgentResponse.t) : grown 0 r r.
Proof. constructor; try reflexivity. apply steps_grown_same. reflexivity. Qed.

Lemma grown_trans (n m : nat) (r1 r2 r3 : AgentResponse.t) :
  grown n r1 r2 -> grown m r2 r3 -> grown (n + m) r1 r3.
Proof.
  intros [? ? ? ? ? ? ? ? Hs1] [? ? ? ? ? ? ? ? Hs2].
  constructor; try congruence.
  exact (steps_grown_trans _ _ _ _ _ Hs1 Hs2).
Qed.

Lemma grown_eq (n m : nat) (r r' : AgentResponse.t) :
  n = m -> grown n r r' -> grown m r r'.
Proof. intros ->. exact (fun H => H). Qed.

Lemma grown_append_step (ty description result : string) (success : bool)
  (duration : float) (r : AgentResponse.t) :
  grown 1 r (append_step ty description result success duration r).
Proof.
  constructor; try reflexivity. eexists. split_and!; [reflexivity | reflexivity | ].
  intros [ | i] step H; cbn in H; [ | try rewrite lookup_nil in H; discriminate H].
  inversion H; subst. cbn. lia.
Qed.

Lemma grown_set_Sources (l : list string) (r : AgentResponse.t) :
  grown 0 r (AgentResponse.set_Sources l r).
Proof. constructor; try reflexivity. apply steps_grown_same. reflexivity. Qed.

Lemma grown_set_ToolsUsed (l : list string) (r : AgentResponse.t) :
  grown 0 r (AgentResponse.set_ToolsUsed l r).
Proof. constructor; try reflexivity. apply steps_grown_same. reflexivity. Qed.

(** Running a call known to be [safe] at the head of a [bind]. *)
Ltac run_safe lem :=
  match goal with
  | |- context [bind ?m ?k ?s] =>
      let a := fresh "a" in
      let s1 := fresh "s" in
      let Hr := fresh "Hrun" in
      let Hc := fresh "Hconv" in
      destruct (lem s) as (a & s1 & Hr & Hc);
      rewrite (bind_run m k s s1 a Hr); cbv beta
  end.

Lemma dispatch_action_run (action : Action.t) (response : AgentResponse.t) (s : State) :
  exists result err response' s',
    dispatch_action action response s = (Ok (result, err, response'), s')
    /\ grown 0 response response' /\ conversations s' = conversations s.
Proof.
  unfold dispatch_action.
  destruct (String.eqb (Action.Type_ action) "search_rag").
  { run_safe (executeSearchRAG_safe (Action.Parameters action)).
    destruct a as [result [err | ]]; cbn; eexists _, _, _, _;
      (split; [reflexivity | split; [ | exact Hconv]]).
    - apply grown_refl.
    - apply grown_set_Sources. }
  destruct (String.eqb (Action.Type_ action) "call_tool").
  { run_safe (executeCallTool_safe (Action.Parameters action)).
    destruct a as [result [err | ]]; cbn.
    - eexists _, _, _, _. split; [reflexivity | split; [apply grown_refl | exact Hconv]].
    - destruct (assert_string _) as [toolName [ | ]]; eexists _, _, _, _;
        (split; [reflexivity | split; [ | exact Hconv]]).
      + apply grown_set_ToolsUsed.
      + apply grown_refl. }
  destruct (String.eqb (Action.Type_ action) "synthesize");
    eexists _, _, _, _; (split; [reflexivity | split; [apply grown_refl | reflexivity]]).
Qed.

Lemma execute_one_Ok (action : Action.t) (response response' : AgentResponse.t)
  (result : GoMap) (s s' : State) :
  execute_one action response s = (Ok (result, response'), s') ->
  grown 0 response response' /\ conversations s' = conversations s.
Proof.
  unfold execute_one.
  destruct (dispatch_action_run action response s)
    as (result0 & err & response0 & s0 & Hrun & Hg & Hc).
  rewrite (bind_run _ _ _ _ _ Hrun). cbn.
  unfold bind, lift_outcome.
  destruct (map_assign _ _ _) as [m | msg]; cbn; intros H; inversion H; subst.
  split; assumption.
Qed.

Lemma executeActions_from_Ok (actions : list Action.t) :
  forall (results results' : list GoMap) (response response' : AgentResponse.t)
         (s s' : State),
    executeActions_from actions results response s = (Ok (results', response'), s') ->
    grown 0 response response' /\ conversations s' = conversations s.
Proof.
  induction actions as [ | action actions IH]; intros results results' response response' s s' H.
  - cbn in H. inversion H; subst. split; [apply grown_refl | reflexivity].
  - cbn in H. apply bind_Ok_inv in H as ([result r1] & s1 & Hone & Hrest).
    apply execute_one_Ok in Hone as [Hg1 Hc1].
    apply IH in Hrest as [Hg2 Hc2].
    split; [ | congruence].
    exact (grown_trans 0 0 _ _ _ Hg1 Hg2).
Qed.

(** ** The five phases *)

Lemma step_analyze_run (st : LoopState) (s : State) :
  exists analysis d s',
    step_analyze st s
    = (Ok (set_response
             (append_step "analyze" "Analyze user query and intent" analysis true d
                (response st)) st), s')
    /\ conversations s' = conversations s.
Proof.
  unfold step_analyze.
  run_safe (safe_lift_world time_Now).
  run_safe (analyzeQuery_safe (AgentRequest.Query (req st)) (AgentRequest.Context (req st))).
  run_safe (safe_lift_world (time_Since_ms a)).
  eexists _, _, _. split; [reflexivity | congruence].
Qed.

Lemma step_plan_run (st : LoopState) (s : State) :
  exists d s',
    conversations s' = conversations s
    /\ ((exists err,
           step_plan st s
           = (Ok (inr (AgentResponse.set_Answer ("Failed to create plan: " +:+ err)
                         (append_step "plan" "Create execution plan" EmptyString false d
                            (response st)))), s'))
        \/ (exists plan,
              step_plan st s
              = (Ok (inl (set_response
                            (append_step "plan" "Create execution plan"
                               (ExecutionPlan.Reasoning plan) true d (response st)) st,
                          plan)), s'))).
Proof.
  unfold step_plan.
  run_safe (safe_lift_world time_Now).
  run_safe (createExecutionPlan_safe (AgentRequest.Query (req st))
              (AgentRequest.Context (req st))).
  destruct a0 as [plan | err];
    run_safe (safe_lift_world (time_Since_ms a));
    eexists _, _; (split; [ | eauto]); congruence.
Qed.

Lemma step_execute_Ok (st st' : LoopState) (plan : ExecutionPlan.t)
  (results : list GoMap) (s s' : State) :
  step_execute st plan s = (Ok (st', results), s') ->
  req st' = req st /\ finalAnswer st' = finalAnswer st /\ confidence st' = confidence st
  /\ grown 1 (response st) (response st') /\ conversations s' = conversations s.
Proof.
  unfold step_execute.
  run_safe (safe_lift_world time_Now).
  intros H. apply bind_Ok_inv in H as ([executionResults response0] & s1 & Hex & H).
  apply executeActions_from_Ok in Hex as [Hg Hc].
  revert H. run_safe (safe_lift_world (time_Since_ms a)).
  intros H. inversion H; subst. cbn.
  split_and!; try congruence.
  exact (grown_trans 0 1 _ _ _ Hg (grown_append_step _ _ _ _ _ _)).
Qed.

Lemma step_synthesize_run (st : LoopState) (executionResults : list GoMap) (s : State) :
  exists st' s',
    step_synthesize st executionResults s = (Ok st', s')
    /\ req st' = req st /\ confidence st' = confidence st
    /\ grown 1 (response st) (response st') /\ conversations s' = conversations s.
Proof.
  unfold step_synthesize.
  run_safe (safe_lift_world time_Now).
  run_safe (synthesizeAnswer_safe (AgentRequest.Query (req st)) executionResults).
  run_safe (safe_lift_world (time_Since_ms a)).
  eexists _, _. split; [reflexivity | ]. cbn.
  split_and!; try congruence. apply grown_append_step.
Qed.

Lemma step_verify_run (st : LoopState) (executionResults : list GoMap) (s : State) :
  exists st' verification s',
    step_verify st executionResults s = (Ok (st', verification), s')
    /\ verified verification
    /\ req st' = req st /\ finalAnswer st' = finalAnswer st
    /\ confidence st' = Verification.Confidence verification
    /\ grown 1 (response st) (response st') /\ conversations s' = conversations s.
Proof.
  unfold step_verify.
  run_safe (safe_lift_world time_Now).
  run_safe (verifyAnswer_safe (AgentRequest.Query (req st)) (finalAnswer st) executionResults).
  run_safe (safe_lift_world (time_Since_ms a)).
  eexists _, _, _. split; [reflexivity | ]. cbn.
  split_and!; try congruence; try apply grown_append_step.
  eexists _, _, _, _, _. exact Hrun0.
Qed.

(** An iteration whose planning succeeds adds five steps to the response
    and leaves the request and the conversation store as they were. *)
Lemma run_phases_Verified (st st' : LoopState) (verification : Verification.t)
  (s s' : State) :
  run_phases st s = (Ok (Verified st' verification), s') ->
  req st' = req st
  /\ confidence st' = Verification.Confidence verification
  /\ grown 5 (response st) (response st')
  /\ conversations s' = conversations s
  /\ verified verification.
Proof.
  unfold run_phases.
  destruct (step_analyze_run st s) as (analysis & d1 & s1 & Hrun1 & Hc1).
  rewrite (bind_run _ _ _ _ _ Hrun1). unfold plan_onwards.
  match goal with |- context [bind (step_plan ?x)] => set (st1 := x) end.
  destruct (step_plan_run st1 s1) as (d2 & s2 & Hc2 & [(err & Hrun2) | (plan & Hrun2)]);
    rewrite (bind_run _ _ _ _ _ Hrun2); [discriminate | ].
  intros H. apply bind_Ok_inv in H as ([st3 results] & s3 & Hex & H).
  apply step_execute_Ok in Hex as (Hr3 & Hf3 & Hcf3 & Hg3 & Hc3).
  destruct (step_synthesize_run st3 results s3) as (st4 & s4 & Hrun4 & Hr4 & Hcf4 & Hg4 & Hc4).
  rewrite (bind_run _ _ _ _ _ Hrun4) in H.
  destruct (step_verify_run st4 results s4)
    as (st5 & v & s5 & Hrun5 & Hver & Hr5 & Hf5 & Hcf5 & Hg5 & Hc5).
  rewrite (bind_run _ _ _ _ _ Hrun5) in H.
  inversion H; subst. cbn in *.
  split_and!; try congruence.
  pose proof (grown_append_step "analyze" "Analyze user query and intent" analysis true d1
                (response st)) as Hg1.
  pose proof (grown_append_step "plan" "Create execution plan"
                (ExecutionPlan.Reasoning plan) true d2 (response st1)) as Hg2.
  exact (grown_trans 4 1 _ _ _
           (grown_trans 3 1 _ _ _
              (grown_trans 2 1 _ _ _ (grown_trans 1 1 _ _ _ Hg1 Hg2) Hg3) Hg4) Hg5).
Qed.

(** An iteration whose planning fails adds two steps and sets the answer. *)
Lemma run_phases_PlanFailed (st : LoopState) (resp : AgentResponse.t) (s s' : State) :
  run_phases st s = (Ok (PlanFailed resp), s') ->
  conversations s' = conversations s
  /\ exists err r2,
       resp = AgentResponse.set_Answer ("Failed to create plan: " +:+ err) r2
       /\ grown 2 (response st) r2.
Proof.
  unfold run_phases.
  destruct (step_analyze_run st s) as (analysis & d1 & s1 & Hrun1 & Hc1).
  rewrite (bind_run _ _ _ _ _ Hrun1). unfold plan_onwards.
  match goal with |- context [bind (step_plan ?x)] => set (st1 := x) end.
  destruct (step_plan_run st1 s1) as (d2 & s2 & Hc2 & [(err & Hrun2) | (plan & Hrun2)]);
    rewrite (bind_run _ _ _ _ _ Hrun2).
  - intros H. inversion H; subst. split; [congruence | ].
    eexists _, _. split; [reflexivity | ].
    exact (grown_trans 1 1 _ _ _ (grown_append_step _ _ _ _ _ _)
             (grown_append_step _ _ _ _ _ _)).
  - intros H. apply bind_Ok_inv in H as ([st3 results] & s3 & Hex & H).
    apply bind_Ok_inv in H as (st4 & s4 & Hsy & H).
    apply bind_Ok_inv in H as ([st5 v] & s5 & Hve & H).
    discriminate H.
Qed.

(** ** The decision step *)

Lemma decide_Done (iteration : Z) (st : LoopState) (verification : Verification.t) :
  satisfactory verification = true ->
  decide_if_done iteration st verification
  = Done (set_response (AgentResponse.set_NeedMoreInfo false (response st)) st).
Proof. intros H. unfold decide_if_done. rewrite H. reflexivity. Qed.

Lemma decide_NeedsInfo (iteration : Z) (st : LoopState) (verification : Verification.t) :
  satisfactory verification = false ->
  AgentRequest.MaxIterations (req st) <= iteration ->
  decide_if_done iteration st verification
  = NeedsInfo
      (set_response
         (AgentResponse.set_FollowUpQ
            (follow_up_template +:+ Verification.MissingInfo verification)
            (AgentResponse.set_NeedMoreInfo true (response st)))
         st).
Proof.
  intros Hs Hle. unfold decide_if_done. rewrite Hs.
  destruct (Z.geb_spec iteration (AgentRequest.MaxIterations (req st))) as [Hge | Hlt];
    [reflexivity | lia].
Qed.

Lemma decide_Iterate_inv (iteration : Z) (st st' : LoopState)
  (verification : Verification.t) :
  decide_if_done iteration st verification = Iterate st' ->
  satisfactory verification = false
  /\ iteration < AgentRequest.MaxIterations (req st)
  /\ st' = set_req
             (AgentRequest.set_Query
                (enhanceQueryForIteration (AgentRequest.Query (req st))
                   (Verification.MissingInfo verification))
                (req st))
             st.
Proof.
  unfold decide_if_done. destruct (satisfactory verification); [discriminate | ].
  destruct (Z.geb_spec iteration (AgentRequest.MaxIterations (req st))) as [Hge | Hlt];
    [discriminate | ].
  intros Heq. inversion Heq. split_and!; [reflexivity | lia | reflexivity].
Qed.

(** ** The loop *)

(** What holds whenever the run enters iteration [n + 1]. *)
Lemma loop_entry_inv (rq : AgentRequest.t) (s : State) (n : nat) :
  forall (st : LoopState) (s1 : State),
    loop_entry rq s n = Some (st, s1) ->
    Z.of_nat n + 1 <= AgentRequest.MaxIterations rq
    /\ AgentRequest.MaxIterations (req st) = AgentRequest.MaxIterations rq
    /\ AgentRequest.ConversationID (req st) = AgentRequest.ConversationID rq
    /\ AgentRequest.Context (req st) = AgentRequest.Context rq
    /\ grown (5 * n) (initial_response rq) (response st)
    /\ conversations s1 = conversations s.
Proof.
  induction n as [ | n IH]; intros st s1 H.
  - cbn in H. destruct (Z.leb_spec 1 (AgentRequest.MaxIterations rq)); [ | discriminate].
    inversion H; subst. cbn. split_and!; try reflexivity; try lia. apply grown_refl.
  - cbn [loop_entry] in H.
    destruct (loop_entry rq s n) as [[st0 s0] | ]; [ | discriminate].
    destruct (IH st0 s0 eq_refl) as (Hn & Hmax & Hid & Hctx & Hg & Hc).
    destruct (run_phases st0 s0) as [[[resp | st' v] | msg] s2] eqn:Hrun; try discriminate.
    apply run_phases_Verified in Hrun as (Hreq & _ & Hg5 & Hc5 & _).
    destruct (decide_if_done (Z.of_nat (S n)) st' v) as [ | | st''] eqn:Hd; try discriminate.
    apply decide_Iterate_inv in Hd as (_ & Hlt & ->).
    inversion H; subst. cbn. rewrite Hreq in *.
    split_and!; try congruence; try lia.
    apply (grown_eq (5 * n + 5)); [lia | ].
    exact (grown_trans _ _ _ _ _ Hg Hg5).
Qed.

(** The loop, run from its start, is the loop run from any iteration it
    enters. *)
Lemma loop_from_entry (rq : AgentRequest.t) (s : State) (n : nat) :
  forall (st : LoopState) (s1 : State),
    loop_entry rq s n = Some (st, s1) ->
    agentic_loop (Z.to_nat (AgentRequest.MaxIterations rq)) 1 (initial_state rq) s
    = agentic_loop (Z.to_nat (AgentRequest.MaxIterations rq) - n) (Z.of_nat n + 1) st s1.
Proof.
  induction n as [ | n IH]; intros st s1 H.
  - cbn in H. destruct (1 <=? AgentRequest.MaxIterations rq); [ | discriminate].
    inversion H; subst. rewrite Nat.sub_0_r. reflexivity.
  - cbn [loop_entry] in H.
    destruct (loop_entry rq s n) as [[st0 s0] | ] eqn:Hentry; [ | discriminate].
    rewrite (IH st0 s0 eq_refl).
    destruct (loop_entry_inv rq s n st0 s0 Hentry) as (Hn & Hmax & _).
    destruct (run_phases st0 s0) as [[[resp | st' v] | msg] s2] eqn:Hrun; try discriminate.
    destruct (decide_if_done (Z.of_nat (S n)) st' v) as [ | | st''] eqn:Hd; try discriminate.
    inversion H; subst.
    pose proof (run_phases_Verified _ _ _ _ _ Hrun) as (Hreq & _).
    pose proof (decide_Iterate_inv _ _ _ _ Hd) as (_ & Hlt & _).
    rewrite Hreq, Hmax in Hlt.
    replace (Z.to_nat (AgentRequest.MaxIterations rq) - n)%nat
      with (S (Z.to_nat (AgentRequest.MaxIterations rq) - S n)) by lia.
    cbn [agentic_loop]. rewrite (bind_run _ _ _ _ _ Hrun).
    replace (Z.of_nat n + 1) with (Z.of_nat (S n)) by lia.
    rewrite Hd. reflexivity.
Qed.

(** The last iteration of a run: what the loop comes to once the phases of
    iteration [n + 1] end in a verification and the decision is a [break]. *)
Lemma loop_breaks (rq : AgentRequest.t) (s : State) (n : nat)
  (st st' st'' : LoopState) (verification : Verification.t) (s1 s2 : State) :
  loop_entry rq s n = Some (st, s1) ->
  run_phases st s1 = (Ok (Verified st' verification), s2) ->
  (decide_if_done (Z.of_nat (S n)) st' verification = Done st''
   \/ decide_if_done (Z.of_nat (S n)) st' verification = NeedsInfo st'') ->
  executeAgenticLoop rq s = finish st'' s2.
Proof.
  intros Hentry Hrun Hd. unfold executeAgenticLoop. unfold bind at 1.
  rewrite (loop_from_entry rq s n st s1 Hentry).
  destruct (loop_entry_inv rq s n st s1 Hentry) as (Hn & _).
  replace (Z.to_nat (AgentRequest.MaxIterations rq) - n)%nat
    with (S (Z.to_nat (AgentRequest.MaxIterations rq) - S n)) by lia.
  cbn [agentic_loop]. rewrite (bind_run _ _ _ _ _ Hrun).
  replace (Z.of_nat n + 1) with (Z.of_nat (S n)) by lia.
  destruct Hd as [-> | ->]; reflexivity.
Qed.

(** Storing a conversation appends the two messages to its list, which
    starts empty for a new identifier, and touches no other conversation. *)
Lemma storeConversation_run (conversationID query answer : string) (s : State) :
  exists s' conv t1 t2,
    storeConversation conversationID query answer s = (Ok tt, s')
    /\ conversations s' !! conversationID = Some conv
    /\ Conversation.Messages conv
       = match conversations s !! conversationID with
         | Some old => Conversation.Messages old
         | None => []
         end
         ++ [Message.mk "user" query t1; Message.mk "assistant" answer t2]
    /\ forall other, other <> conversationID ->
                     conversations s' !! other = conversations s !! other.
Proof.
  unfold storeConversation, get_conversations, put_conversations.
  unfold bind at 1. cbv beta iota.
  destruct (conversations s !! conversationID) as [old | ] eqn:Hold.
  - unfold bind, ret. rewrite !lift_world_run. cbn.
    eexists _, _, _, _. split; [reflexivity | ]. cbn.
    rewrite lookup_insert_eq. split_and!; try reflexivity.
    intros other Hne. rewrite lookup_insert_ne by congruence. reflexivity.
  - unfold bind, ret. rewrite !lift_world_run. cbn.
    eexists _, _, _, _. split; [reflexivity | ]. cbn.
    rewrite lookup_insert_eq. split_and!; try reflexivity.
    intros other Hne. rewrite !lookup_insert_ne by congruence. reflexivity.
Qed.

Lemma finish_run (st : LoopState) (s : State) :
  exists s', finish st s = (Ok (final_response st), s').
Proof.
  unfold finish.
  destruct (storeConversation_run (AgentRequest.ConversationID (req st))
              (AgentRequest.Query (req st)) (finalAnswer st) s)
    as (s' & conv & t1 & t2 & Hrun & _).
  rewrite (bind_run _ _ _ _ _ Hrun). exists s'. reflexivity.
Qed.

Lemma grown_len (n : nat) (r r' : AgentResponse.t) :
  grown n r r' -> len (AgentResponse.Steps r') = len (AgentResponse.Steps r) + Z.of_nat n.
Proof. intros Hg. exact (steps_grown_len _ _ _ (grown_Steps _ _ _ Hg)). Qed.

(** The verification of iteration [k], unfolded. *)
Lemma iteration_verification_inv (rq : AgentRequest.t) (s : State) (k : nat)
  (verification : Verification.t) :
  iteration_verification rq s k = Some verification ->
  exists n st s1 st' s2,
    k = S n
    /\ loop_entry rq s n = Some (st, s1)
    /\ run_phases st s1 = (Ok (Verified st' verification), s2).
Proof.
  unfold iteration_verification, iteration_phases, iteration_entry.
  destruct k as [ | n]; [discriminate | ].
  destruct (loop_entry rq s n) as [[st s1] | ] eqn:Hentry; [ | discriminate].
  destruct (run_phases st s1) as [[[resp | st' v] | msg] s2] eqn:Hrun; try discriminate.
  intros H. inversion H; subst. eexists _, _, _, _, _.
  split_and!; [reflexivity | exact Hentry | exact Hrun].
Qed.

(** ** The claims about the loop's exits *)

(** C1. If iteration [k] of a run produces a verification that is complete
    and whose confidence is at least the threshold, the loop stops at
    iteration [k]: the call returns a response with [need_more_info] false,
    holding the [5 * k] steps of [k] iterations and reporting [k]
    iterations, and there is no iteration [k + 1]. Such a [k] is at most
    [max_iterations]. *)
Theorem stop_when_satisfactory (rq : AgentRequest.t) (s : State) (k : nat)
  (verification : Verification.t) :
  iteration_verification rq s k = Some verification ->
  Verification.IsComplete verification = true ->
  (CONFIDENCE_THRESHOLD <=? Verification.Confidence verification)%float = true ->
  exists resp s',
    executeAgenticLoop rq s = (Ok resp, s')
    /\ AgentResponse.NeedMoreInfo resp = false
    /\ len (AgentResponse.Steps resp) = 5 * Z.of_nat k
    /\ AgentResponse.Iterations resp = Z.of_nat k
    /\ Z.of_nat k <= AgentRequest.MaxIterations rq
    /\ iteration_entry rq s (S k) = None.
Proof.
  intros Hv Hcomplete Hconf.
  assert (Hsat : satisfactory verification = true).
  { unfold satisfactory. rewrite Hcomplete, Hconf. reflexivity. }
  apply iteration_verification_inv in Hv as (n & st & s1 & st' & s2 & -> & Hentry & Hrun).
  pose proof (decide_Done (Z.of_nat (S n)) st' verification Hsat) as Hd.
  rewrite (loop_breaks rq s n st st' _ verification s1 s2 Hentry Hrun (or_introl Hd)).
  destruct (finish_run
              (set_response (AgentResponse.set_NeedMoreInfo false (response st')) st') s2)
    as (s' & Hfin).
  destruct (loop_entry_inv rq s n st s1 Hentry) as (Hn & _ & _ & _ & Hg & _).
  destruct (run_phases_Verified _ _ _ _ _ Hrun) as (_ & _ & Hg5 & _).
  assert (Hlen : len (AgentResponse.Steps (response st')) = Z.of_nat (S n) * 5).
  { rewrite (grown_len _ _ _ (grown_trans _ _ _ _ _ Hg Hg5)). unfold len. cbn. lia. }
  exists (final_response
            (set_response (AgentResponse.set_NeedMoreInfo false (response st')) st')), s'.
  split; [exact Hfin | ]. cbn.
  split_and!.
  - reflexivity.
  - lia.
  - rewrite Hlen. apply Z.quot_mul. lia.
  - lia.
  - cbn [iteration_entry loop_entry]. rewrite Hentry, Hrun, Hd. reflexivity.
Qed.

(** C2. If the run reaches iteration [max_iterations] and the verification
    produced there does not meet the stop condition (so that no iteration
    has), the call returns a response with [need_more_info] true whose
    follow-up question is the literal template followed by the verifier's
    missing-info text, and is not empty. *)
Theorem need_more_info_at_cap (rq : AgentRequest.t) (s : State)
  (verification : Verification.t) :
  iteration_verification rq s (Z.to_nat (AgentRequest.MaxIterations rq))
  = Some verification ->
  satisfactory verification = false ->
  exists resp s',
    executeAgenticLoop rq s = (Ok resp, s')
    /\ AgentResponse.NeedMoreInfo resp = true
    /\ AgentResponse.FollowUpQ resp
       = "I need more information to answer completely. Can you provide more context about: "
           +:+ Verification.MissingInfo verification
    /\ AgentResponse.FollowUpQ resp <> EmptyString
    /\ len (AgentResponse.Steps resp) = 5 * AgentRequest.MaxIterations rq.
Proof.
  intros Hv Hsat.
  apply iteration_verification_inv in Hv as (n & st & s1 & st' & s2 & Hk & Hentry & Hrun).
  destruct (loop_entry_inv rq s n st s1 Hentry) as (Hn & Hmax & _ & _ & Hg & _).
  destruct (run_phases_Verified _ _ _ _ _ Hrun) as (Hreq & _ & Hg5 & _).
  assert (Hcap : AgentRequest.MaxIterations (req st') <= Z.of_nat (S n)).
  { rewrite Hreq, Hmax. lia. }
  pose proof (decide_NeedsInfo (Z.of_nat (S n)) st' verification Hsat Hcap) as Hd.
  rewrite (loop_breaks rq s n st st' _ verification s1 s2 Hentry Hrun (or_intror Hd)).
  match goal with |- context [finish ?x s2] => destruct (finish_run x s2) as (s' & Hfin) end.
  assert (Hlen : len (AgentResponse.Steps (response st')) = Z.of_nat (S n) * 5).
  { rewrite (grown_len _ _ _ (grown_trans _ _ _ _ _ Hg Hg5)). unfold len. cbn. lia. }
  eexists _, s'. split; [exact Hfin | ]. cbn.
  split_and!.
  - reflexivity.
  - reflexivity.
  - discriminate.
  - lia.
Qed.

(** ** The claims about the phases *)

(** C5. When the planning reply, stripped of its code-fence markers and
    trimmed, does not decode, [createExecutionPlan] returns the default
    plan: the single action [search_rag] on the collection
    [regulatory_docs] with the original query and [top_k] 5, and the
    reasoning "Default plan: search knowledge base"; the dry-run handler
    answers with that plan. *)
Theorem default_plan_on_decode_failure (query : string) (ctxMap : gmap string string)
  (s : State) (resp : genai.GenerateContentResponse Part) (content : genai.Content Part)
  (rest : list (genai.Candidate Part)) (part : Part) (parts : list Part)
  (w : World) (partial : ExecutionPlan.t) (err : error) :
  GenerateContent modelName (plan_prompt query) (world s) = (inl resp, w) ->
  genai.Candidates resp = genai.mkCandidate (Some content) :: rest ->
  genai.Parts content = part :: parts ->
  json_Unmarshal_plan
    (TrimSpace
       (TrimSuffix (TrimPrefix (TrimPrefix (fmt_v_Part part) "```json") "```") "```"))
    (ExecutionPlan.set_OriginalQuery query ExecutionPlan.zero)
  = (partial, Some err) ->
  exists plan,
    createExecutionPlan query ctxMap s = (Ok (inl plan), mkState w (conversations s))
    /\ ExecutionPlan.Actions plan
       = [Action.mk "search_rag" "Search knowledge base"
            (Some (<["query" := VString query]>
                    (<["collection" := VString "regulatory_docs"]>
                      (<["top_k" := VInt 5]> ∅))))]
    /\ ExecutionPlan.Reasoning plan = "Default plan: search knowledge base"
    /\ ExecutionPlan.RewrittenQueries plan = [query]
    /\ planHandler "POST" (AgentRequest.mk query EmptyString 0 ctxMap, None) s
       = (Ok (JSON plan 200), mkState w (conversations s)).
Proof.
  intros Hgen Hcand Hparts Hdec.
  assert (Hrun : exists plan,
             createExecutionPlan query ctxMap s
             = (Ok (inl plan), mkState w (conversations s))
             /\ plan = ExecutionPlan.set_Reasoning "Default plan: search knowledge base"
                         (ExecutionPlan.set_Actions [default_action query]
                            (ExecutionPlan.set_RewrittenQueries [query] partial))).
  { unfold createExecutionPlan.
    rewrite (bind_run _ _ _ _ _ (lift_world_run _ s)). rewrite Hgen. cbn.
    rewrite Hcand. cbn. rewrite Hparts.
    unfold clean_json, fence, fence_json. rewrite Hdec.
    eexists. split; reflexivity. }
  destruct Hrun as (plan & Hrun & ->).
  eexists. split; [exact Hrun | ].
  split_and!; try reflexivity.
  unfold planHandler. cbn. rewrite (bind_run _ _ _ _ _ Hrun). reflexivity.
Qed.

(** C9. [verifyAnswer] returns exactly [{true, 0.5, ""}] when the
    text-completion call fails, and exactly [{true, 0.7, ""}] when the reply
    arrives but its text does not decode; the two values differ. *)
Theorem verify_fallbacks (query answer : string) (results : list GoMap) (s : State) :
  (forall (err : error) (w : World),
      GenerateContent modelName (verify_prompt query answer) (world s) = (inr err, w) ->
      verifyAnswer query answer results s
      = (Ok (Verification.mk true 0.5%float EmptyString), mkState w (conversations s)))
  /\ (forall (resp : genai.GenerateContentResponse Part) (content : genai.Content Part)
             (rest : list (genai.Candidate Part)) (part : Part) (parts : list Part)
             (w : World) (partial : Verification.t) (err : error),
         GenerateContent modelName (verify_prompt query answer) (world s) = (inl resp, w) ->
         genai.Candidates resp = genai.mkCandidate (Some content) :: rest ->
         genai.Parts content = part :: parts ->
         json_Unmarshal_verification (clean_json (fmt_v_Part part)) Verification.zero
         = (partial, Some err) ->
         verifyAnswer query answer results s
         = (Ok (Verification.mk true 0.7%float EmptyString), mkState w (conversations s)))
  /\ Verification.mk true 0.5%float EmptyString
     <> Verification.mk true 0.7%float EmptyString.
Proof.
  split_and!.
  - intros err w Hgen. unfold verifyAnswer.
    rewrite (bind_run _ _ _ _ _ (lift_world_run _ s)). rewrite Hgen. reflexivity.
  - intros resp content rest part parts w partial err Hgen Hcand Hparts Hdec.
    unfold verifyAnswer.
    rewrite (bind_run _ _ _ _ _ (lift_world_run _ s)). rewrite Hgen. cbn.
    rewrite Hcand. cbn. rewrite Hparts, Hdec. reflexivity.
  - intros Heq.
    apply (f_equal (fun v => (0.6 <=? Verification.Confidence v)%float)) in Heq.
    vm_compute in Heq. discriminate Heq.
Qed.

(** The planning phase always leaves a "plan" record right after the
    steps it started from. *)
Lemma plan_onwards_Ok (st : LoopState) (s s' : State) (p : PhaseResult) :
  plan_onwards st s = (Ok p, s') ->
  exists result success d more,
    AgentResponse.Steps (phase_response p)
    = AgentResponse.Steps (response st)
        ++ AgentStep.mk (len (AgentResponse.Steps (response st)) + 1) "plan"
             "Create execution plan" EmptyString result success d
           :: more.
Proof.
  unfold plan_onwards.
  destruct (step_plan_run st s) as (d2 & s2 & Hc2 & [(err & Hrun2) | (plan & Hrun2)]);
    rewrite (bind_run _ _ _ _ _ Hrun2).
  - intros H. inversion H; subst. cbn. eexists _, _, _, []. reflexivity.
  - intros H. apply bind_Ok_inv in H as ([st3 results] & s3 & Hex & H).
    apply step_execute_Ok in Hex as (_ & _ & _ & Hg3 & _).
    destruct (step_synthesize_run st3 results s3) as (st4 & s4 & Hrun4 & _ & _ & Hg4 & _).
    rewrite (bind_run _ _ _ _ _ Hrun4) in H.
    destruct (step_verify_run st4 results s4)
      as (st5 & v & s5 & Hrun5 & _ & _ & _ & _ & Hg5 & _).
    rewrite (bind_run _ _ _ _ _ Hrun5) in H.
    inversion H; subst. cbn.
    destruct (grown_trans _ _ _ _ _ (grown_trans _ _ _ _ _ Hg3 Hg4) Hg5)
      as [_ _ _ _ _ _ _ _ (more & Hs & _)].
    rewrite Hs. cbn. rewrite <- app_assoc. eexists _, _, _, more. reflexivity.
Qed.

(** C10. A transport failure of the text-completion call in the analyze
    phase is absorbed: [analyzeQuery] returns "Unable to analyze query"; the
    iteration records the analyze step with that result and [success] true
    and goes on with the planning phase, whose "plan" record follows the
    analyze record in whatever response the phases leave. *)
Theorem analyze_failure_absorbed (st : LoopState) (s : State) (err : error) (w : World) :
  GenerateContent modelName
    (analysis_prompt (AgentRequest.Query (req st)) (AgentRequest.Context (req st)))
    (snd (time_Now (world s)))
  = (inr err, w) ->
  let analyzed :=
    set_response
      (append_step "analyze" "Analyze user query and intent" "Unable to analyze query"
         true (fst (time_Since_ms (fst (time_Now (world s))) w)) (response st)) st in
  let s1 := mkState (snd (time_Since_ms (fst (time_Now (world s))) w)) (conversations s) in
  analyzeQuery (AgentRequest.Query (req st)) (AgentRequest.Context (req st))
    (mkState (snd (time_Now (world s))) (conversations s))
  = (Ok "Unable to analyze query", mkState w (conversations s))
  /\ step_analyze st s = (Ok analyzed, s1)
  /\ run_phases st s = plan_onwards analyzed s1
  /\ forall (p : PhaseResult) (s' : State),
       run_phases st s = (Ok p, s') ->
       exists result success d d' more,
         AgentResponse.Steps (phase_response p)
         = AgentResponse.Steps (response st)
             ++ AgentStep.mk (len (AgentResponse.Steps (response st)) + 1) "analyze"
                  "Analyze user query and intent" EmptyString "Unable to analyze query"
                  true d
             :: AgentStep.mk (len (AgentResponse.Steps (response st)) + 2) "plan"
                  "Create execution plan" EmptyString result success d'
             :: more.
Proof.
  intros Hgen analyzed s1.
  assert (Han : analyzeQuery (AgentRequest.Query (req st)) (AgentRequest.Context (req st))
                  (mkState (snd (time_Now (world s))) (conversations s))
                = (Ok "Unable to analyze query", mkState w (conversations s))).
  { unfold analyzeQuery.
    rewrite (bind_run _ _ _ _ _ (lift_world_run _ _)). cbn. rewrite Hgen. reflexivity. }
  assert (Hstep : step_analyze st s = (Ok analyzed, s1)).
  { unfold step_analyze.
    rewrite (bind_run _ _ _ _ _ (lift_world_run _ s)).
    rewrite (bind_run _ _ _ _ _ Han).
    rewrite (bind_run _ _ _ _ _ (lift_world_run _ _)). reflexivity. }
  assert (Hphases : run_phases st s = plan_onwards analyzed s1).
  { unfold run_phases. rewrite (bind_run _ _ _ _ _ Hstep). reflexivity. }
  split_and!; try assumption.
  intros p s' Hrun. rewrite Hphases in Hrun.
  apply plan_onwards_Ok in Hrun as (result & success & d' & more & Hs).
  exists result, success, (fst (time_Since_ms (fst (time_Now (world s))) w)), d', more.
  rewrite Hs. subst analyzed. cbn. rewrite <- app_assoc. cbn.
  unfold len. rewrite List.length_app. cbn.
  replace (Z.of_nat (List.length (AgentResponse.Steps (response st)) + 1) + 1)
    with (Z.of_nat (List.length (AgentResponse.Steps (response st))) + 2) by lia.
  reflexivity.
Qed.

(** ** Query refinement between iterations *)

Lemma append_cons (c : ascii) (s t : string) :
  String c s +:+ t = String c (s +:+ t).
Proof. reflexivity. Qed.

Lemma append_length (s t : string) :
  String.length (s +:+ t) = (String.length s + String.length t)%nat.
Proof.
  induction s as [ | c s IH]; [reflexivity | ].
  rewrite append_cons. cbn [String.length]. rewrite IH. reflexivity.
Qed.

Lemma append_assoc (s t u : string) : (s +:+ t) +:+ u = s +:+ (t +:+ u).
Proof.
  induction s as [ | c s IH]; [reflexivity | ].
  rewrite !append_cons, IH. reflexivity.
Qed.

Lemma append_inj_r (t : string) :
  forall s1 s2 : string, s1 +:+ t = s2 +:+ t -> s1 = s2.
Proof.
  induction s1 as [ | c1 s1 IH]; intros [ | c2 s2] H.
  - reflexivity.
  - apply (f_equal String.length) in H. rewrite !append_length in H.
    cbn [String.length] in H. lia.
  - apply (f_equal String.length) in H. rewrite !append_length in H.
    cbn [String.length] in H. lia.
  - rewrite !append_cons in H. injection H as -> H. f_equal. apply IH. exact H.
Qed.

(** The planning prompt determines the query it was built from. *)
Lemma plan_prompt_inj (q1 q2 : string) : plan_prompt q1 = plan_prompt q2 -> q1 = q2.
Proof.
  unfold plan_prompt, lines, quoted. cbn [String.concat].
  intros H. do 4 apply String.app_inj in H.
  rewrite !append_assoc in H. do 2 apply String.app_inj in H.
  match type of H with
  | (q1 +:+ ?t) = (q2 +:+ ?t) => exact (append_inj_r t q1 q2 H)
  end.
Qed.

Lemma enhanced_differs (q missing : string) :
  missing <> EmptyString ->
  enhanceQueryForIteration q missing = q +:+ " (specifically about: " +:+ missing +:+ ")"
  /\ enhanceQueryForIteration q missing <> q.
Proof.
  intros Hne. unfold enhanceQueryForIteration.
  destruct (String.eqb_spec missing ""); [contradiction | ].
  split; [reflexivity | ].
  intros H. apply (f_equal String.length) in H.
  rewrite !append_length in H. cbn [String.length] in H. lia.
Qed.

(** C8, as the code has it. Between two consecutive iterations the query
    of the next one is [enhanceQueryForIteration] of the previous query and
    the verifier's missing-info text: when that text is not empty, the
    previous query with the suffix " (specifically about: <text>)", which
    differs from the previous query and so does the planning prompt; when
    it is empty, the previous query unchanged. *)
Theorem query_refined_between_iterations (rq : AgentRequest.t) (s : State) (k : nat)
  (verification : Verification.t) (q q' : string) :
  iteration_query rq s k = Some q ->
  iteration_verification rq s k = Some verification ->
  iteration_query rq s (S k) = Some q' ->
  q' = enhanceQueryForIteration q (Verification.MissingInfo verification)
  /\ (Verification.MissingInfo verification <> EmptyString ->
      q' = q +:+ " (specifically about: " +:+ Verification.MissingInfo verification +:+ ")"
      /\ q' <> q
      /\ plan_prompt q' <> plan_prompt q)
  /\ (Verification.MissingInfo verification = EmptyString -> q' = q).
Proof.
  intros Hq Hv Hq'.
  apply iteration_verification_inv in Hv as (n & st & s1 & st' & s2 & -> & Hentry & Hrun).
  unfold iteration_query, iteration_entry in Hq, Hq'.
  rewrite Hentry in Hq. inversion Hq; subst q. clear Hq.
  cbn [loop_entry] in Hq'. rewrite Hentry, Hrun in Hq'.
  destruct (decide_if_done (Z.of_nat (S n)) st' verification) as [ | | st''] eqn:Hd;
    try discriminate.
  apply decide_Iterate_inv in Hd as (_ & _ & ->).
  destruct (run_phases_Verified _ _ _ _ _ Hrun) as (Hreq & _).
  cbn in Hq'. rewrite Hreq in Hq'. inversion Hq'; subst q'. clear Hq'.
  split; [reflexivity | ]. split.
  - intros Hne.
    destruct (enhanced_differs (AgentRequest.Query (req st))
                (Verification.MissingInfo verification) Hne) as (Heq & Hdiff).
    split_and!; [exact Heq | exact Hdiff | ].
    intros Hp. apply plan_prompt_inj in Hp. exact (Hdiff Hp).
  - intros ->. reflexivity.
Qed.

(** ** Confidence *)

(** ** Steps, iterations and the two ways out of the loop *)

Lemma agentic_loop_steps (remaining : nat) :
  forall (iteration : Z) (st : LoopState) (s s' : State) (exit : LoopExit),
    agentic_loop remaining iteration st s = (Ok exit, s') ->
    conversations s' = conversations s
    /\ match exit with
       | Exited st' =>
           exists j, (j <= remaining)%nat
                     /\ steps_grown (5 * j) (response st) (response st')
       | Returned resp =>
           (exists j, (j < remaining)%nat
                      /\ steps_grown (5 * j + 2) (response st) resp)
           /\ AgentResponse.Iterations resp = AgentResponse.Iterations (response st)
           /\ AgentResponse.Confidence resp = AgentResponse.Confidence (response st)
           /\ AgentResponse.NeedMoreInfo resp = AgentResponse.NeedMoreInfo (response st)
           /\ AgentResponse.FollowUpQ resp = AgentResponse.FollowUpQ (response st)
           /\ exists err, AgentResponse.Answer resp = "Failed to create plan: " +:+ err
       end.
Proof.
  induction remaining as [ | remaining IH]; intros iteration st s s' exit H.
  - inversion H; subst. split; [reflexivity | ].
    exists 0%nat. split; [lia | ]. apply steps_grown_same. reflexivity.
  - cbn [agentic_loop] in H. apply bind_Ok_inv in H as (p & s1 & Hrun & H).
    destruct p as [resp | st' v].
    + inversion H; subst.
      apply run_phases_PlanFailed in Hrun as (Hc & err & r2 & -> & Hg).
      split; [exact Hc | ]. cbn.
      split_and!; try (destruct Hg; assumption).
      * exists 0%nat. split; [lia | ]. exact (grown_Steps _ _ _ Hg).
      * exists err. reflexivity.
    + apply run_phases_Verified in Hrun as (_ & _ & Hg & Hc & _).
      pose proof (grown_Steps _ _ _ Hg) as Hs5.
      unfold decide_if_done in H.
      destruct (satisfactory v).
      { inversion H; subst. split; [exact Hc | ].
        exists 1%nat. split; [lia | ].
        apply (steps_grown_eq (5 + 0)); [reflexivity | ].
        apply (steps_grown_trans _ _ _ _ _ Hs5). apply steps_grown_same. reflexivity. }
      destruct (iteration >=? AgentRequest.MaxIterations (req st')).
      { inversion H; subst. split; [exact Hc | ].
        exists 1%nat. split; [lia | ].
        apply (steps_grown_eq (5 + 0)); [reflexivity | ].
        apply (steps_grown_trans _ _ _ _ _ Hs5). apply steps_grown_same. reflexivity. }
      apply IH in H as (Hc' & H). cbn in H. split; [congruence | ].
      destruct exit as [resp | st''].
      * destruct H as ((j & Hj & Hs) & Hit & Hco & Hne & Hfo & Herr).
        split.
        { exists (S j). split; [lia | ].
          apply (steps_grown_eq (5 + (5 * j + 2))); [lia | ].
          exact (steps_grown_trans _ _ _ _ _ Hs5 Hs). }
        destruct Hg. split_and!; [congruence | congruence | congruence | congruence | ].
        exact Herr.
      * destruct H as (j & Hj & Hs).
        exists (S j). split; [lia | ].
        apply (steps_grown_eq (5 + 5 * j)); [lia | ].
        exact (steps_grown_trans _ _ _ _ _ Hs5 Hs).
Qed.

(** X2. For every response [executeAgenticLoop] returns: it holds at most
    [5 * max_iterations] steps, their ordinals are 1, 2, 3, ... in order,
    and the iteration count is between 0 and the cap. *)
Theorem steps_and_iterations_bounded (rq : AgentRequest.t) (s s' : State)
  (resp : AgentResponse.t) :
  executeAgenticLoop rq s = (Ok resp, s') ->
  len (AgentResponse.Steps resp) <= 5 * Z.max 0 (AgentRequest.MaxIterations rq)
  /\ numbered_from 1 (AgentResponse.Steps resp)
  /\ 0 <= AgentResponse.Iterations resp <= Z.max 0 (AgentRequest.MaxIterations rq).
Proof.
  intros H. unfold executeAgenticLoop in H.
  apply bind_Ok_inv in H as (exit & s1 & Hloop & H).
  apply agentic_loop_steps in Hloop as (_ & Hloop).
  destruct exit as [resp0 | st].
  - inversion H; subst.
    destruct Hloop as ((j & Hj & (new & Hs & Hl & Hn)) & Hit & _).
    cbn in Hs, Hn, Hit. rewrite Hs, Hit. unfold len. cbn [app]. rewrite Hl.
    split_and!; [lia | exact Hn | lia | lia].
  - destruct (finish_run st s1) as (s2 & Hfin). rewrite Hfin in H. inversion H; subst.
    destruct Hloop as (j & Hj & (new & Hs & Hl & Hn)).
    cbn in Hs, Hn. cbn. rewrite Hs. unfold len. cbn [app]. rewrite Hl.
    replace (Z.of_nat (5 * j)) with (Z.of_nat j * 5) by lia.
    rewrite Z.quot_mul by lia.
    split_and!; [lia | exact Hn | lia | lia].
Qed.

(** X3. When the planning step fails, the call returns the response as the
    failed step left it: the answer is the diagnostic text, the iteration
    count, the confidence, the need-more-info flag and the follow-up
    question keep their zero values, and the conversation store is not
    touched. *)
Theorem hard_stop_returns_early (rq : AgentRequest.t) (s s1 : State)
  (resp : AgentResponse.t) :
  agentic_loop (Z.to_nat (AgentRequest.MaxIterations rq)) 1 (initial_state rq) s
  = (Ok (Returned resp), s1) ->
  executeAgenticLoop rq s = (Ok resp, s1)
  /\ conversations s1 = conversations s
  /\ AgentResponse.Iterations resp = 0
  /\ AgentResponse.Confidence resp = 0%float
  /\ AgentResponse.NeedMoreInfo resp = false
  /\ AgentResponse.FollowUpQ resp = EmptyString
  /\ exists err, AgentResponse.Answer resp = "Failed to create plan: " +:+ err.
Proof.
  intros Hloop.
  split.
  { unfold executeAgenticLoop. rewrite (bind_run _ _ _ _ _ Hloop). reflexivity. }
  apply agentic_loop_steps in Hloop as (Hc & _ & Hit & Hco & Hne & Hfo & Herr).
  split_and!; assumption.
Qed.

(** X4. When the loop ends in its first iteration, by a satisfactory
    verification or because the cap is 1, the response reports one
    iteration and the conversation gains exactly two messages: the user's,
    with the submitted query, and the assistant's, with the final answer. *)
Theorem first_iteration_history (rq : AgentRequest.t) (s : State)
  (verification : Verification.t) :
  iteration_verification rq s 1 = Some verification ->
  satisfactory verification = true \/ AgentRequest.MaxIterations rq <= 1 ->
  exists resp s' conv t1 t2,
    executeAgenticLoop rq s = (Ok resp, s')
    /\ AgentResponse.Iterations resp = 1
    /\ conversations s' !! AgentRequest.ConversationID rq = Some conv
    /\ Conversation.Messages conv
       = match conversations s !! AgentRequest.ConversationID rq with
         | Some old => Conversation.Messages old
         | None => []
         end
         ++ [Message.mk "user" (AgentRequest.Query rq) t1;
             Message.mk "assistant" (AgentResponse.Answer resp) t2].
Proof.
  intros Hv Hend.
  apply iteration_verification_inv in Hv as (n & st & s1 & st' & s2 & Hk & Hentry & Hrun).
  injection Hk as <-.
  pose proof Hentry as Hinit. cbn in Hinit.
  destruct (1 <=? AgentRequest.MaxIterations rq) eqn:Hle; [ | discriminate].
  inversion Hinit; subst st s1. clear Hinit.
  destruct (run_phases_Verified _ _ _ _ _ Hrun) as (Hreq & _ & Hg & Hc & _).
  assert (Hd : exists st'',
             (decide_if_done (Z.of_nat 1) st' verification = Done st''
              \/ decide_if_done (Z.of_nat 1) st' verification = NeedsInfo st'')
             /\ req st'' = rq /\ finalAnswer st'' = finalAnswer st'
             /\ AgentResponse.Steps (response st'') = AgentResponse.Steps (response st')).
  { destruct (satisfactory verification) eqn:Hsat.
    - eexists. split; [left; apply decide_Done; exact Hsat | ].
      split_and!; [exact Hreq | reflexivity | reflexivity].
    - destruct Hend as [Hs | Hcap]; [discriminate | ].
      eexists. split; [right; apply decide_NeedsInfo; [exact Hsat | ] | ].
      + rewrite Hreq. cbn. lia.
      + split_and!; [exact Hreq | reflexivity | reflexivity]. }
  destruct Hd as (st'' & Hd & Hreq'' & Hans & Hsteps).
  rewrite (loop_breaks rq s 0 _ st' st'' verification s s2 Hentry Hrun Hd).
  unfold finish.
  destruct (storeConversation_run (AgentRequest.ConversationID (req st''))
              (AgentRequest.Query (req st'')) (finalAnswer st'') s2)
    as (s' & conv & t1 & t2 & Hstore & Hlook & Hmsgs & _).
  rewrite (bind_run _ _ _ _ _ Hstore).
  exists (final_response st''), s', conv, t1, t2.
  rewrite Hreq'' in *. rewrite Hc in Hmsgs.
  split_and!; [reflexivity | | exact Hlook | exact Hmsgs].
  cbn. rewrite Hsteps. rewrite (grown_len _ _ _ Hg). reflexivity.
Qed.

(** ** Executing actions when no reply decodes to a nil map *)

Section NoNilReply.

Hypothesis decoded_not_nil : forall data : string, json_Decode_map data <> (None, None).








End NoNilReply.

Section DecodedInRange.

(** The decoder only ever reports a confidence within [0,1]. *)
Hypothesis decoded_in_range :
  forall (data : string) (v0 v : Verification.t),
    json_Unmarshal_verification data v0 = (v, None) ->
    in_unit_interval (Verification.Confidence v) = true.

Lemma verifyAnswer_in_range (query answer : string) (results : list GoMap)
  (s s' : State) (v : Verification.t) :
  verifyAnswer query answer results s = (Ok v, s') ->
  in_unit_interval (Verification.Confidence v) = true.
Proof.
  unfold verifyAnswer. rewrite (bind_run _ _ _ _ _ (lift_world_run _ s)).
  destruct (fst (GenerateContent _ _ _)) as [resp | err].
  - destruct (genai.Candidates resp) as [ | [[content | ]] rest];
      try (intros H; inversion H; reflexivity).
    destruct (genai.Parts content) as [ | part parts];
      try (intros H; inversion H; reflexivity).
    destruct (json_Unmarshal_verification _ _) as [v1 [err | ]] eqn:Hdec;
      intros H; inversion H; subst; [reflexivity | ].
    exact (decoded_in_range _ _ _ Hdec).
  - intros H; inversion H; reflexivity.
Qed.

Lemma agentic_loop_in_range (remaining : nat) :
  forall (iteration : Z) (st : LoopState) (s s' : State) (exit : LoopExit),
    in_unit_interval (confidence st) = true ->
    AgentResponse.Confidence (response st) = 0%float ->
    agentic_loop remaining iteration st s = (Ok exit, s') ->
    match exit with
    | Returned resp => AgentResponse.Confidence resp = 0%float
    | Exited st' => in_unit_interval (confidence st') = true
    end.
Proof.
  induction remaining as [ | remaining IH]; intros iteration st s s' exit Hconf Hzero H.
  - inversion H; subst. exact Hconf.
  - cbn [agentic_loop] in H. apply bind_Ok_inv in H as (p & s1 & Hrun & H).
    destruct p as [resp | st' v].
    + inversion H; subst.
      apply run_phases_PlanFailed in Hrun as (_ & err & r2 & -> & Hg).
      cbn. rewrite (grown_Confidence _ _ _ Hg). exact Hzero.
    + apply run_phases_Verified in Hrun as (_ & Hcv & Hg & _ & (q & a & r & sx & sy & Hver)).
      apply verifyAnswer_in_range in Hver.
      pose proof (grown_Confidence _ _ _ Hg) as Hrc.
      unfold decide_if_done in H.
      destruct (satisfactory v); [inversion H; subst; cbn; congruence | ].
      destruct (iteration >=? AgentRequest.MaxIterations (req st'));
        [inversion H; subst; cbn; congruence | ].
      apply IH in H; [exact H | cbn; congruence | cbn; congruence].
Qed.

(** C4, as the code has it. Provided every confidence the JSON decoder
    reports lies in [0,1], so does the confidence of every verification
    [verifyAnswer] returns and of every response [executeAgenticLoop]
    returns: the verifier's own fallback values and the loop's initial value
    are in range, and a decoded value is passed on as it is. *)
Theorem confidence_in_unit_interval :
  (forall (query answer : string) (results : list GoMap) (s : State),
      exists v s',
        verifyAnswer query answer results s = (Ok v, s')
        /\ in_unit_interval (Verification.Confidence v) = true)
  /\ (forall (rq : AgentRequest.t) (s s' : State) (resp : AgentResponse.t),
         executeAgenticLoop rq s = (Ok resp, s') ->
         in_unit_interval (AgentResponse.Confidence resp) = true).
Proof.
  split.
  - intros query answer results s.
    destruct (verifyAnswer_safe query answer results s) as (v & s' & Hrun & _).
    exists v, s'. split; [exact Hrun | ].
    exact (verifyAnswer_in_range _ _ _ _ _ _ Hrun).
  - intros rq s s' resp H. unfold executeAgenticLoop in H.
    apply bind_Ok_inv in H as (exit & s1 & Hloop & H).
    apply agentic_loop_in_range in Hloop; [ | reflexivity | reflexivity].
    destruct exit as [resp0 | st].
    + inversion H; subst. rewrite Hloop. reflexivity.
    + destruct (finish_run st s1) as (s2 & Hfin). rewrite Hfin in H.
      inversion H; subst. cbn. exact Hloop.
Qed.

End DecodedInRange.

End Properties.

(** * Further properties of the orchestrator *)

Section Coverage.

Context {E : Externals}.

Ltac run_head lem :=
  match goal with
  | |- context [bind ?m ?k ?s] =>
      let a := fresh "a" in
      let s1 := fresh "s" in
      let Hr := fresh "Hrun" in
      let Hc := fresh "Hconv" in
      destruct (lem s) as (a & s1 & Hr & Hc);
      rewrite (bind_run m k s s1 a Hr); cbv beta
  end.

(** ** How a run ends *)

Lemma decide_Done_inv (iteration : Z) (st st' : LoopState) (verification : Verification.t) :
  decide_if_done iteration st verification = Done st' ->
  satisfactory verification = true
  /\ st' = set_response (AgentResponse.set_NeedMoreInfo false (response st)) st.
Proof.
  unfold decide_if_done. destruct (satisfactory verification).
  - intros Heq. inversion Heq. split; reflexivity.
  - destruct (iteration >=? AgentRequest.MaxIterations (req st)); discriminate.
Qed.

Lemma decide_NeedsInfo_inv (iteration : Z) (st st' : LoopState)
  (verification : Verification.t) :
  decide_if_done iteration st verification = NeedsInfo st' ->
  satisfactory verification = false
  /\ AgentRequest.MaxIterations (req st) <= iteration
  /\ st' = set_response
             (AgentResponse.set_FollowUpQ
                (follow_up_template +:+ Verification.MissingInfo verification)
                (AgentResponse.set_NeedMoreInfo true (response st)))
             st.
Proof.
  unfold decide_if_done. destruct (satisfactory verification); [discriminate | ].
  destruct (Z.geb_spec iteration (AgentRequest.MaxIterations (req st))) as [Hge | Hlt];
    [ | discriminate].
  intros Heq. inversion Heq. split_and!; [reflexivity | lia | reflexivity].
Qed.

(** Whatever way the loop is left, it is left from an iteration the run
    entered: by the failed planning of that iteration, or by the decision
    taken on its verification. *)
Lemma loop_exit_inv (rq : AgentRequest.t) (s : State) (r : nat) :
  forall (n : nat) (st : LoopState) (s1 s' : State) (exit : LoopExit),
    loop_entry rq s n = Some (st, s1) ->
    r = (Z.to_nat (AgentRequest.MaxIterations rq) - n)%nat ->
    agentic_loop r (Z.of_nat n + 1) st s1 = (Ok exit, s') ->
    exists m stm sm,
      loop_entry rq s m = Some (stm, sm)
      /\ match exit with
         | Returned resp => run_phases stm sm = (Ok (PlanFailed resp), s')
         | Exited stf =>
             exists st' v,
               run_phases stm sm = (Ok (Verified st' v), s')
               /\ (decide_if_done (Z.of_nat (S m)) st' v = Done stf
                   \/ decide_if_done (Z.of_nat (S m)) st' v = NeedsInfo stf)
         end.
Proof.
  induction r as [ | r IH]; intros n st s1 s' exit Hentry Hr Hloop.
  - destruct (loop_entry_inv rq s n st s1 Hentry) as (Hn & _). lia.
  - cbn [agentic_loop] in Hloop. apply bind_Ok_inv in Hloop as (p & s2 & Hrun & Hloop).
    destruct p as [resp | st' v].
    + inversion Hloop; subst. exists n, st, s1. split; [exact Hentry | exact Hrun].
    + replace (Z.of_nat n + 1) with (Z.of_nat (S n)) in Hloop by lia.
      destruct (decide_if_done (Z.of_nat (S n)) st' v) as [stf | stf | st''] eqn:Hd.
      * inversion Hloop; subst. exists n, st, s1. split; [exact Hentry | ].
        exists st', v. split; [exact Hrun | left; exact Hd].
      * inversion Hloop; subst. exists n, st, s1. split; [exact Hentry | ].
        exists st', v. split; [exact Hrun | right; exact Hd].
      * assert (Hnext : loop_entry rq s (S n) = Some (st'', s2)).
        { cbn [loop_entry]. rewrite Hentry, Hrun, Hd. reflexivity. }
        apply (IH (S n) st'' s2 s' exit Hnext); [lia | exact Hloop].
Qed.

Lemma run_exit_inv (rq : AgentRequest.t) (s s' : State) (exit : LoopExit) :
  agentic_loop (Z.to_nat (AgentRequest.MaxIterations rq)) 1 (initial_state rq) s
  = (Ok exit, s') ->
  (AgentRequest.MaxIterations rq <= 0 /\ exit = Exited (initial_state rq) /\ s' = s)
  \/ exists m stm sm,
      loop_entry rq s m = Some (stm, sm)
      /\ match exit with
         | Returned resp => run_phases stm sm = (Ok (PlanFailed resp), s')
         | Exited stf =>
             exists st' v,
               run_phases stm sm = (Ok (Verified st' v), s')
               /\ (decide_if_done (Z.of_nat (S m)) st' v = Done stf
                   \/ decide_if_done (Z.of_nat (S m)) st' v = NeedsInfo stf)
         end.
Proof.
  intros Hloop.
  destruct (Z.leb_spec 1 (AgentRequest.MaxIterations rq)) as [Hpos | Hneg].
  - right.
    assert (Hentry : loop_entry rq s 0 = Some (initial_state rq, s)).
    { cbn. destruct (Z.leb_spec 1 (AgentRequest.MaxIterations rq)); [reflexivity | lia]. }
    apply (loop_exit_inv rq s (Z.to_nat (AgentRequest.MaxIterations rq)) 0%nat
             (initial_state rq) s s' exit Hentry); [lia | exact Hloop].
  - left. replace (Z.to_nat (AgentRequest.MaxIterations rq)) with 0%nat in Hloop by lia.
    inversion Hloop; subst. split_and!; [lia | reflexivity | reflexivity].
Qed.

(** A run that returns went through the loop and then either returned the
    failed plan's response or finished. *)
Lemma executeAgenticLoop_inv (rq : AgentRequest.t) (s s' : State) (resp : AgentResponse.t) :
  executeAgenticLoop rq s = (Ok resp, s') ->
  exists exit s1,
    agentic_loop (Z.to_nat (AgentRequest.MaxIterations rq)) 1 (initial_state rq) s
    = (Ok exit, s1)
    /\ match exit with
       | Returned resp0 => resp = resp0 /\ s' = s1
       | Exited st => resp = final_response st /\ finish st s1 = (Ok resp, s')
       end.
Proof.
  unfold executeAgenticLoop. intros H.
  apply bind_Ok_inv in H as (exit & s1 & Hloop & H).
  exists exit, s1. split; [exact Hloop | ].
  destruct exit as [resp0 | st].
  - inversion H; subst. split; reflexivity.
  - destruct (finish_run st s1) as (s2 & Hfin). rewrite Hfin in H.
    inversion H; subst. split; [reflexivity | exact Hfin].
Qed.

(** The response with which the loop is left, told from the response the
    call started with. *)
Lemma exit_response (rq : AgentRequest.t) (s s1 : State) (exit : LoopExit) :
  agentic_loop (Z.to_nat (AgentRequest.MaxIterations rq)) 1 (initial_state rq) s
  = (Ok exit, s1) ->
  match exit with
  | Returned resp =>
      exists err r2 m,
        resp = AgentResponse.set_Answer ("Failed to create plan: " +:+ err) r2
        /\ grown (5 * m + 2) (initial_response rq) r2
        /\ Z.of_nat m < AgentRequest.MaxIterations rq
  | Exited st =>
      (AgentRequest.MaxIterations rq <= 0 /\ st = initial_state rq /\ s1 = s)
      \/ exists m r5 v,
          grown (5 * S m) (initial_response rq) r5
          /\ Z.of_nat (S m) <= AgentRequest.MaxIterations rq
          /\ AgentRequest.ConversationID (req st) = AgentRequest.ConversationID rq
          /\ confidence st = Verification.Confidence v
          /\ verified v
          /\ iteration_verification rq s (S m) = Some v
          /\ ((satisfactory v = true
               /\ response st = AgentResponse.set_NeedMoreInfo false r5)
              \/ (satisfactory v = false
                  /\ Z.of_nat (S m) = AgentRequest.MaxIterations rq
                  /\ response st
                     = AgentResponse.set_FollowUpQ
                         (follow_up_template +:+ Verification.MissingInfo v)
                         (AgentResponse.set_NeedMoreInfo true r5)))
  end.
Proof.
  intros Hloop. apply run_exit_inv in Hloop.
  destruct Hloop as [(Hneg & -> & ->) | (m & stm & sm & Hentry & Hexit)].
  { left. split_and!; [exact Hneg | reflexivity | reflexivity]. }
  destruct (loop_entry_inv rq s m stm sm Hentry) as (Hm & Hmax & Hid & _ & Hg & _).
  destruct exit as [resp | st].
  - apply run_phases_PlanFailed in Hexit as (_ & err & r2 & -> & Hg2).
    exists err, r2, m. split_and!; [reflexivity | | lia].
    exact (grown_trans _ _ _ _ _ Hg Hg2).
  - right. destruct Hexit as (st' & v & Hrun & Hd).
    assert (Hiv : iteration_verification rq s (S m) = Some v).
    { unfold iteration_verification, iteration_phases, iteration_entry.
      rewrite Hentry, Hrun. reflexivity. }
    apply run_phases_Verified in Hrun as (Hreq & Hconf & Hg5 & _ & Hver).
    exists m, (response st'), v.
    assert (Hgrown : grown (5 * S m) (initial_response rq) (response st')).
    { apply (grown_eq (5 * m + 5)); [lia | ]. exact (grown_trans _ _ _ _ _ Hg Hg5). }
    destruct Hd as [Hd | Hd].
    + apply decide_Done_inv in Hd as (Hsat & ->). cbn.
      split_and!; try assumption; try lia; [congruence | ].
      left. split; [exact Hsat | reflexivity].
    + apply decide_NeedsInfo_inv in Hd as (Hsat & Hcap & ->). cbn.
      split_and!; try assumption; try lia; [congruence | ].
      right. split_and!; [exact Hsat | rewrite Hreq, Hmax in Hcap; lia | reflexivity].
Qed.

(** ** What every returned response satisfies *)

(** In every response [executeAgenticLoop] returns, the conversation
    identifier and the query are those of the request, the query as it was
    submitted even when the loop rewrote it between iterations. *)
Lemma response_echoes_request (rq : AgentRequest.t) (s s' : State)
  (resp : AgentResponse.t) :
  executeAgenticLoop rq s = (Ok resp, s') ->
  AgentResponse.ConversationID resp = AgentRequest.ConversationID rq
  /\ AgentResponse.Query resp = AgentRequest.Query rq.
Proof.
  intros H. apply executeAgenticLoop_inv in H as (exit & s1 & Hloop & H).
  apply exit_response in Hloop.
  destruct exit as [resp0 | st].
  - destruct H as (-> & _). destruct Hloop as (err & r2 & m & -> & Hg & _).
    destruct Hg. cbn in *. split; assumption.
  - destruct H as (-> & _).
    destruct Hloop as [(_ & -> & _) | (m & r5 & v & Hg & _ & _ & _ & _ & _ & Hresp)].
    + split; reflexivity.
    + destruct Hg. cbn in *.
      destruct Hresp as [(_ & Hr) | (_ & _ & Hr)]; rewrite Hr; cbn; split; assumption.
Qed.

(** X5. In every response [executeAgenticLoop] returns, the follow-up
    question goes with the need-more-info flag: when the flag is set, the
    question is the template followed by the missing-info text of the last
    verification, which was not satisfactory, and the loop ran all of its
    [max_iterations] iterations; when it is not set, the question is empty. *)
Theorem follow_up_goes_with_flag (rq : AgentRequest.t) (s s' : State)
  (resp : AgentResponse.t) :
  executeAgenticLoop rq s = (Ok resp, s') ->
  (AgentResponse.NeedMoreInfo resp = true ->
   AgentResponse.Iterations resp = AgentRequest.MaxIterations rq
   /\ exists v,
       iteration_verification rq s (Z.to_nat (AgentRequest.MaxIterations rq)) = Some v
       /\ satisfactory v = false
       /\ AgentResponse.FollowUpQ resp
          = "I need more information to answer completely. Can you provide more context about: "
              +:+ Verification.MissingInfo v)
  /\ (AgentResponse.NeedMoreInfo resp = false ->
      AgentResponse.FollowUpQ resp = EmptyString).
Proof.
  intros H. apply executeAgenticLoop_inv in H as (exit & s1 & Hloop & H).
  apply exit_response in Hloop.
  destruct exit as [resp0 | st].
  - destruct H as (-> & _). destruct Hloop as (err & r2 & m & -> & Hg & _).
    destruct Hg. cbn in *. split; [congruence | intros _; assumption].
  - destruct H as (-> & _).
    destruct Hloop as [(_ & -> & _) | (m & r5 & v & Hg & Hm & _ & _ & _ & Hiv & Hresp)].
    + cbn. split; [discriminate | reflexivity].
    + pose proof (grown_len _ _ _ Hg) as Hlen.
      destruct Hg. cbn in *.
      destruct Hresp as [(_ & Hr) | (Hsat & Hcap & Hr)]; rewrite Hr; cbn.
      * split; [discriminate | intros _; assumption].
      * split; [intros _ | discriminate]. split.
        -- rewrite Hlen. unfold len. cbn [List.length].
           match goal with
           | |- ?x ÷ 5 = _ => replace x with (Z.of_nat (S m) * 5) by lia
           end.
           rewrite Z.quot_mul by lia. exact Hcap.
        -- exists v. rewrite <- Hcap. rewrite Nat2Z.id.
           split_and!; [exact Hiv | exact Hsat | reflexivity].
Qed.

(** ** The query across iterations *)

Lemma prefix_append (s t : string) : String.prefix s (s +:+ t) = true.
Proof.
  induction s as [ | c s IH]; [destruct t; reflexivity | ].
  rewrite append_cons. cbn [String.prefix].
  destruct (ascii_dec c c) as [_ | Hne]; [exact IH | contradiction].
Qed.

Lemma prefix_inv (s u : string) :
  String.prefix s u = true -> exists t, u = s +:+ t.
Proof.
  revert u. induction s as [ | c s IH]; intros u H.
  - exists u. reflexivity.
  - destruct u as [ | d u]; [discriminate H | ].
    cbn [String.prefix] in H. destruct (ascii_dec c d) as [-> | _]; [ | discriminate H].
    destruct (IH u H) as (t & ->). exists t. reflexivity.
Qed.

Lemma prefix_trans (s t u : string) :
  String.prefix s t = true -> String.prefix t u = true -> String.prefix s u = true.
Proof.
  intros Hst Htu.
  destruct (prefix_inv _ _ Hst) as (a & ->). destruct (prefix_inv _ _ Htu) as (b & ->).
  rewrite append_assoc. apply prefix_append.
Qed.

Lemma prefix_refl (s : string) : String.prefix s s = true.
Proof.
  induction s as [ | c s IH]; [reflexivity | ].
  cbn [String.prefix]. destruct (ascii_dec c c) as [_ | Hne]; [exact IH | contradiction].
Qed.

Lemma enhance_prefix (q missing : string) :
  String.prefix q (enhanceQueryForIteration q missing) = true.
Proof.
  unfold enhanceQueryForIteration. destruct (String.eqb missing "").
  - apply prefix_refl.
  - apply prefix_append.
Qed.

(** X6. The query an iteration analyzes and plans with always begins with
    the query that was submitted: rewriting only ever appends to it. The
    other fields of the request stay as submitted. *)
Theorem submitted_query_is_kept (rq : AgentRequest.t) (s : State) (k : nat)
  (st : LoopState) (s1 : State) :
  iteration_entry rq s k = Some (st, s1) ->
  String.prefix (AgentRequest.Query rq) (AgentRequest.Query (req st)) = true
  /\ AgentRequest.ConversationID (req st) = AgentRequest.ConversationID rq
  /\ AgentRequest.MaxIterations (req st) = AgentRequest.MaxIterations rq
  /\ AgentRequest.Context (req st) = AgentRequest.Context rq.
Proof.
  destruct k as [ | n]; [discriminate | ]. cbn [iteration_entry].
  revert st s1. induction n as [ | n IH]; intros st s1 H.
  - cbn in H. destruct (1 <=? AgentRequest.MaxIterations rq); [ | discriminate].
    inversion H; subst. cbn. split_and!; try reflexivity.
    apply prefix_refl.
  - pose proof (loop_entry_inv rq s (S n) st s1 H) as (_ & Hmax & Hid & Hctx & _).
    split_and!; try assumption.
    cbn [loop_entry] in H.
    destruct (loop_entry rq s n) as [[st0 s0] | ]; [ | discriminate].
    destruct (IH st0 s0 eq_refl) as (Hpre & _).
    destruct (run_phases st0 s0) as [[[resp | st' v] | msg] s2] eqn:Hrun; try discriminate.
    apply run_phases_Verified in Hrun as (Hreq & _).
    destruct (decide_if_done (Z.of_nat (S n)) st' v) as [ | | st''] eqn:Hd; try discriminate.
    apply decide_Iterate_inv in Hd as (_ & _ & ->).
    inversion H; subst. cbn. rewrite Hreq.
    exact (prefix_trans _ _ _ Hpre (enhance_prefix _ _)).
Qed.

(** ** The conversation store across a call *)

(** X7. A call of [executeAgenticLoop] that returns never shortens or
    rewrites a conversation: every conversation the store held is still
    there, with the messages it had as the first messages it has now; only
    the conversation of the request can have changed, and a call ended by a
    failed planning step changes none. *)
Theorem conversations_only_grow (rq : AgentRequest.t) (s s' : State)
  (resp : AgentResponse.t) :
  executeAgenticLoop rq s = (Ok resp, s') ->
  (forall (id : string) (old : Conversation.t Time),
      conversations s !! id = Some old ->
      exists new more,
        conversations s' !! id = Some new
        /\ Conversation.Messages new = Conversation.Messages old ++ more
        /\ (id <> AgentRequest.ConversationID rq -> more = []))
  /\ (forall id : string,
         id <> AgentRequest.ConversationID rq ->
         conversations s' !! id = conversations s !! id).
Proof.
  intros H. apply executeAgenticLoop_inv in H as (exit & s1 & Hloop & H).
  pose proof (agentic_loop_steps _ _ _ _ _ _ Hloop) as (Hc & _).
  pose proof (exit_response _ _ _ _ Hloop) as Hexit.
  destruct exit as [resp0 | st].
  - destruct H as (_ & ->). split.
    + intros id old Hold. exists old, []. rewrite Hc, app_nil_r.
      split_and!; [exact Hold | reflexivity | reflexivity].
    + intros id _. rewrite Hc. reflexivity.
  - destruct H as (_ & Hfin). unfold finish in Hfin.
    assert (Hid : AgentRequest.ConversationID (req st) = AgentRequest.ConversationID rq).
    { destruct Hexit as [(_ & -> & _) | (m & r5 & v & _ & _ & Hid & _)];
        [reflexivity | exact Hid]. }
    destruct (storeConversation_run (AgentRequest.ConversationID (req st))
                (AgentRequest.Query (req st)) (finalAnswer st) s1)
      as (s2 & conv & t1 & t2 & Hstore & Hlook & Hmsgs & Hother).
    rewrite (bind_run _ _ _ _ _ Hstore) in Hfin. inversion Hfin; subst s2.
    rewrite Hid in *. rewrite Hc in *. split.
    + intros id old Hold.
      destruct (decide (id = AgentRequest.ConversationID rq)) as [-> | Hne].
      * rewrite Hold in Hmsgs. exists conv. eexists.
        split_and!; [exact Hlook | exact Hmsgs | contradiction].
      * exists old, []. rewrite (Hother id Hne), app_nil_r.
        split_and!; [exact Hold | reflexivity | reflexivity].
    + intros id Hne. exact (Hother id Hne).
Qed.

(** ** The HTTP handlers *)

Lemma returned_iterations (rq : AgentRequest.t) (s s' : State) (resp : AgentResponse.t) :
  executeAgenticLoop rq s = (Ok resp, s') ->
  0 <= AgentResponse.Iterations resp <= Z.max 0 (AgentRequest.MaxIterations rq).
Proof.
  intros H. apply executeAgenticLoop_inv in H as (exit & s1 & Hloop & H).
  apply exit_response in Hloop.
  destruct exit as [resp0 | st].
  - destruct H as (-> & _). destruct Hloop as (err & r2 & m & -> & Hg & _).
    pose proof (grown_Iterations _ _ _ Hg) as Hit.
    change (AgentResponse.Iterations (AgentResponse.set_Answer _ r2))
      with (AgentResponse.Iterations r2).
    rewrite Hit. change (AgentResponse.Iterations (initial_response rq)) with 0. lia.
  - destruct H as (-> & _).
    destruct Hloop as [(_ & -> & _) | (m & r5 & v & Hg & Hm & _ & _ & _ & _ & Hresp)].
    + change (AgentResponse.Iterations (final_response (initial_state rq))) with 0. lia.
    + pose proof (grown_len _ _ _ Hg) as Hlen.
      change (len (AgentResponse.Steps (initial_response rq))) with 0 in Hlen.
      assert (Hit : AgentResponse.Iterations (final_response st) = Z.of_nat (S m)).
      { unfold final_response.
        change (AgentResponse.Iterations (AgentResponse.set_Iterations ?n _)) with n.
        assert (Hsteps : AgentResponse.Steps (response st) = AgentResponse.Steps r5)
          by (destruct Hresp as [(_ & ->) | (_ & _ & ->)]; reflexivity).
        cbn [AgentResponse.Steps AgentResponse.set_Confidence AgentResponse.set_Answer].
        rewrite Hsteps, Hlen.
        replace (0 + Z.of_nat (5 * S m)) with (Z.of_nat (S m) * 5) by lia.
        apply Z.quot_mul. lia. }
      rewrite Hit. lia.
Qed.

(** X8. What [agentQueryHandler] replies, whenever it replies. A plain 405
    goes to any method but POST and leaves the state as it was. A 400 goes
    to a body that did not decode or whose query is empty, and leaves the
    conversation store as it was. Every other request is answered with
    status 200, also when planning failed: the response carries the query
    as submitted, the conversation identifier of the request, or the
    generated one when the request had none, and an iteration count within
    the cap, which is 5 for a request whose [max_iterations] is 0. *)
Theorem query_reply (method : string) (body : AgentRequest.t * option error)
  (s s' : State) (reply : HttpReply AgentResponse.t) :
  agentQueryHandler method body s = (Ok reply, s') ->
  match reply with
  | PlainError message status =>
      method <> "POST" /\ message = "Method not allowed" /\ status = 405 /\ s' = s
  | JSONError message status =>
      method = "POST" /\ status = 400 /\ conversations s' = conversations s
      /\ ((snd body <> None /\ message = "Invalid request body")
          \/ (snd body = None /\ AgentRequest.Query (fst body) = EmptyString
              /\ message = "Query cannot be empty"))
  | JSON resp status =>
      method = "POST" /\ status = 200 /\ snd body = None
      /\ AgentRequest.Query (fst body) <> EmptyString
      /\ AgentResponse.Query resp = AgentRequest.Query (fst body)
      /\ AgentResponse.ConversationID resp
         = (if String.eqb (AgentRequest.ConversationID (fst body)) ""
            then fst (uuid_New (snd (time_Now (world s))))
            else AgentRequest.ConversationID (fst body))
      /\ 0 <= AgentResponse.Iterations resp
         <= (if AgentRequest.MaxIterations (fst body) =? 0
             then 5
             else Z.max 0 (AgentRequest.MaxIterations (fst body)))
  end.
Proof.
  unfold agentQueryHandler.
  destruct (String.eqb_spec method "POST") as [-> | Hmethod]; cbn [negb].
  2:{ intros H. inversion H; subst. split_and!; [exact Hmethod | reflexivity..]. }
  rewrite (bind_run _ _ _ _ _ (lift_world_run time_Now s)).
  destruct body as [rq [err | ]]; cbn [fst snd].
  { intros H. inversion H; subst. cbn.
    split_and!; try reflexivity. left. split; [discriminate | reflexivity]. }
  destruct (String.eqb_spec (AgentRequest.Query rq) "") as [Hq | Hq].
  { intros H. inversion H; subst. cbn.
    split_and!; try reflexivity. right. split_and!; [reflexivity | exact Hq | reflexivity]. }
  set (rq1 := if AgentRequest.MaxIterations rq =? 0
              then AgentRequest.set_MaxIterations MAX_ITERATIONS rq else rq).
  assert (Hq1 : AgentRequest.Query rq1 = AgentRequest.Query rq)
    by (subst rq1; destruct (AgentRequest.MaxIterations rq =? 0); reflexivity).
  assert (Hid1 : AgentRequest.ConversationID rq1 = AgentRequest.ConversationID rq)
    by (subst rq1; destruct (AgentRequest.MaxIterations rq =? 0); reflexivity).
  assert (Hmax1 : Z.max 0 (AgentRequest.MaxIterations rq1)
                  = if AgentRequest.MaxIterations rq =? 0
                    then 5 else Z.max 0 (AgentRequest.MaxIterations rq))
    by (subst rq1; destruct (AgentRequest.MaxIterations rq =? 0); reflexivity).
  rewrite Hid1.
  intros H. apply bind_Ok_inv in H as (rq2 & s2 & Hrq2 & H).
  assert (Hrq2' : AgentRequest.Query rq2 = AgentRequest.Query rq
                  /\ AgentRequest.MaxIterations rq2 = AgentRequest.MaxIterations rq1
                  /\ AgentRequest.ConversationID rq2
                     = if String.eqb (AgentRequest.ConversationID rq) ""
                       then fst (uuid_New (snd (time_Now (world s))))
                       else AgentRequest.ConversationID rq).
  { destruct (String.eqb (AgentRequest.ConversationID rq) "").
    - rewrite (bind_run _ _ _ _ _ (lift_world_run uuid_New _)) in Hrq2.
      inversion Hrq2; subst. cbn. split_and!; [exact Hq1 | reflexivity | reflexivity].
    - inversion Hrq2; subst. split_and!; [exact Hq1 | reflexivity | exact Hid1]. }
  destruct Hrq2' as (Hq2 & Hmax2 & Hid2).
  apply bind_Ok_inv in H as (resp & s3 & Hloop & H).
  rewrite (bind_run _ _ _ _ _ (lift_world_run _ s3)) in H.
  inversion H; subst. cbn.
  destruct (response_echoes_request _ _ _ _ Hloop) as (Hid & Hquery).
  pose proof (returned_iterations _ _ _ _ Hloop) as Hit.
  rewrite Hmax2, Hmax1 in Hit.
  split_and!; try reflexivity; try congruence; lia.
Qed.

(** X9. A negative [max_iterations] is not replaced by the default, and
    runs no iteration: the request is answered with status 200 by the
    response as it was initialised (empty answer, no step, no iteration,
    confidence 0), and the conversation gains the submitted query and an
    empty assistant message. *)
Theorem negative_cap_answers_nothing (rq : AgentRequest.t) (s : State) :
  AgentRequest.Query rq <> EmptyString ->
  AgentRequest.ConversationID rq <> EmptyString ->
  AgentRequest.MaxIterations rq < 0 ->
  exists d s' conv,
    agentQueryHandler "POST" (rq, None) s
    = (Ok (JSON (AgentResponse.set_ProcessTime d (initial_response rq)) 200), s')
    /\ conversations s' !! AgentRequest.ConversationID rq = Some conv
    /\ transcript conv
       = match conversations s !! AgentRequest.ConversationID rq with
         | Some old => transcript old
         | None => []
         end
         ++ [("user", AgentRequest.Query rq); ("assistant", EmptyString)].
Proof.
  intros Hq Hid Hneg.
  assert (Hloop : forall s1 : State,
             exists s2 conv,
               executeAgenticLoop rq s1 = (Ok (initial_response rq), s2)
               /\ conversations s2 !! AgentRequest.ConversationID rq = Some conv
               /\ transcript conv
                  = match conversations s1 !! AgentRequest.ConversationID rq with
                    | Some old => transcript old
                    | None => []
                    end
                    ++ [("user", AgentRequest.Query rq); ("assistant", EmptyString)]).
  { intros s1. unfold executeAgenticLoop.
    replace (Z.to_nat (AgentRequest.MaxIterations rq)) with 0%nat by lia.
    cbn [agentic_loop].
    rewrite (bind_run _ _ s1 s1 (Exited (initial_state rq)) eq_refl).
    unfold finish.
    destruct (storeConversation_run (AgentRequest.ConversationID (req (initial_state rq)))
                (AgentRequest.Query (req (initial_state rq)))
                (finalAnswer (initial_state rq)) s1)
      as (s2 & conv & t1 & t2 & Hstore & Hlook & Hmsgs & _).
    rewrite (bind_run _ _ _ _ _ Hstore).
    exists s2, conv. split; [reflexivity | ]. split; [exact Hlook | ].
    unfold transcript. cbn in Hmsgs. rewrite Hmsgs, fmap_app.
    destruct (conversations s1 !! AgentRequest.ConversationID rq); reflexivity. }
  unfold agentQueryHandler. rewrite String.eqb_refl. cbn [negb].
  rewrite (bind_run _ _ _ _ _ (lift_world_run time_Now s)).
  destruct (String.eqb_spec (AgentRequest.Query rq) "") as [Hq' | _]; [contradiction | ].
  destruct (Z.eqb_spec (AgentRequest.MaxIterations rq) 0) as [Hz | _]; [lia | ].
  destruct (String.eqb_spec (AgentRequest.ConversationID rq) "") as [Hid' | _];
    [contradiction | ].
  match goal with
  | |- context [bind (ret rq) ?k ?st] => rewrite (bind_run (ret rq) k st st rq eq_refl)
  end.
  match goal with
  | |- context [bind (executeAgenticLoop rq) ?k ?st] =>
      destruct (Hloop st) as (s2 & conv & Hrun & Hlook & Htr);
      rewrite (bind_run _ _ _ _ _ Hrun)
  end.
  rewrite (bind_run _ _ _ _ _ (lift_world_run _ s2)).
  eexists _, _, conv. split; [reflexivity | ].
  split; [exact Hlook | exact Htr].
Qed.

(** ** Trimming *)

Lemma substring_all (s : string) : String.substring 0 (String.length s) s = s.
Proof. induction s as [ | c s IH]; [reflexivity | cbn; rewrite IH; reflexivity]. Qed.

Lemma substring_skip (p s : string) (n m : nat) :
  String.substring (String.length p + n) m (p +:+ s) = String.substring n m s.
Proof. induction p as [ | c p IH]; [reflexivity | rewrite append_cons; exact IH]. Qed.

Lemma substring_take (s t : string) :
  String.substring 0 (String.length s) (s +:+ t) = s.
Proof.
  induction s as [ | c s IH]; [destruct t; reflexivity | ].
  rewrite append_cons. cbn. rewrite IH. reflexivity.
Qed.

Lemma substring_split (n : nat) :
  forall t : string,
    (n <= String.length t)%nat ->
    String.substring 0 n t +:+ String.substring n (String.length t - n) t = t.
Proof.
  induction n as [ | n IH]; intros t Hle.
  - rewrite Nat.sub_0_r, substring_all. destruct t; reflexivity.
  - destruct t as [ | c t]; [cbn in Hle; lia | ].
    cbn [String.substring String.length]. rewrite append_cons.
    replace (S (String.length t) - S n)%nat with (String.length t - n)%nat by lia.
    rewrite IH by (cbn in Hle; lia). reflexivity.
Qed.

Lemma TrimPrefix_append (p s : string) : TrimPrefix (p +:+ s) p = s.
Proof.
  unfold TrimPrefix, HasPrefix. rewrite prefix_append, append_length.
  replace (String.length p + String.length s - String.length p)%nat
    with (String.length s) by lia.
  rewrite <- (Nat.add_0_r (String.length p)) at 1.
  rewrite substring_skip. apply substring_all.
Qed.

Lemma HasSuffix_append (s p : string) : HasSuffix (s +:+ p) p = true.
Proof.
  unfold HasSuffix. rewrite append_length.
  replace (String.length s + String.length p - String.length p)%nat
    with (String.length s + 0)%nat by lia.
  rewrite substring_skip, substring_all, String.eqb_refl.
  destruct (Nat.leb_spec (String.length p) (String.length s + String.length p));
    [reflexivity | lia].
Qed.

Lemma HasSuffix_inv (t p : string) :
  HasSuffix t p = true -> exists s, t = s +:+ p.
Proof.
  unfold HasSuffix. intros H. apply andb_true_iff in H as (Hle & Heq).
  apply Nat.leb_le in Hle. apply String.eqb_eq in Heq.
  exists (String.substring 0 (String.length t - String.length p) t).
  pose proof (substring_split (String.length t - String.length p) t) as Hsplit.
  replace (String.length t - (String.length t - String.length p))%nat
    with (String.length p) in Hsplit by lia.
  rewrite Heq in Hsplit. symmetry. apply Hsplit. lia.
Qed.

Lemma TrimSuffix_append (s p : string) : TrimSuffix (s +:+ p) p = s.
Proof.
  unfold TrimSuffix. rewrite HasSuffix_append, append_length.
  replace (String.length s + String.length p - String.length p)%nat
    with (String.length s) by lia.
  apply substring_take.
Qed.

(** A text that ends with a line feed does not end with the fence. *)
Lemma HasSuffix_fence_nl (x : string) : HasSuffix (x +:+ nl) fence = false.
Proof.
  destruct (HasSuffix (x +:+ nl) fence) eqn:H; [ | reflexivity].
  apply HasSuffix_inv in H as (s & Heq).
  pose proof (f_equal String.length Heq) as Hlen. rewrite !append_length in Hlen.
  change (String.length nl) with 1%nat in Hlen.
  change (String.length fence) with 3%nat in Hlen.
  pose proof (String.append_correct2 x nl 0) as Hx.
  pose proof (String.append_correct2 s fence 2) as Hs.
  rewrite Heq in Hx. replace (0 + String.length x)%nat with (2 + String.length s)%nat in Hx by lia.
  rewrite <- Hs in Hx. discriminate Hx.
Qed.

(** X10. The clean-up applied to the model's text before it is decoded.
    A text wrapped in a "```json" or a "```" fence is unwrapped and trimmed;
    a text with no fence at either end is only trimmed. The closing fence is
    removed before the whitespace is: a fenced text followed by a line feed
    keeps its closing fence. *)
Theorem clean_json_cases (body : string) :
  (HasPrefix (body +:+ fence) fence = false ->
   clean_json (fence_json +:+ body +:+ fence) = TrimSpace body)
  /\ (HasPrefix (fence +:+ body +:+ fence) fence_json = false ->
      clean_json (fence +:+ body +:+ fence) = TrimSpace body)
  /\ (HasPrefix body fence = false -> HasSuffix body fence = false ->
      clean_json body = TrimSpace body)
  /\ (HasPrefix (body +:+ fence +:+ nl) fence = false ->
      clean_json (fence_json +:+ body +:+ fence +:+ nl)
      = TrimSpace (body +:+ fence +:+ nl)).
Proof.
  unfold clean_json. split_and!.
  - intros Hno. rewrite TrimPrefix_append.
    unfold TrimPrefix at 1. rewrite Hno. rewrite TrimSuffix_append. reflexivity.
  - intros Hno. unfold TrimPrefix at 2. rewrite Hno.
    rewrite TrimPrefix_append, TrimSuffix_append. reflexivity.
  - intros Hpre Hsuf.
    assert (Hjson : HasPrefix body fence_json = false).
    { destruct (HasPrefix body fence_json) eqn:Hj; [ | reflexivity].
      unfold HasPrefix in *.
      rewrite (prefix_trans fence fence_json body eq_refl Hj) in Hpre. discriminate Hpre. }
    unfold TrimPrefix. rewrite Hjson, Hpre. unfold TrimSuffix. rewrite Hsuf. reflexivity.
  - intros Hno. rewrite TrimPrefix_append.
    unfold TrimPrefix at 1. rewrite Hno.
    unfold TrimSuffix.
    replace (body +:+ fence +:+ nl) with ((body +:+ fence) +:+ nl)
      by apply append_assoc.
    rewrite HasSuffix_fence_nl. reflexivity.
Qed.

(** X11. The conversation a call stored is the one [historyHandler]
    returns: after [storeConversation] under a non-empty identifier, a GET
    of "/agent/history/<identifier>" is answered with status 200 by that
    conversation, whose transcript is the one it had followed by the user
    and assistant messages just stored. A GET of an identifier the store
    does not hold is answered 404, a GET with no identifier 400, any other
    method 405; no request to this handler changes the state. *)
Theorem history_after_store (conversationID query answer : string) (s : State) :
  conversationID <> EmptyString ->
  (exists s' conv,
      storeConversation conversationID query answer s = (Ok tt, s')
      /\ historyHandler "GET" ("/agent/history/" +:+ conversationID) s'
         = (Ok (JSON conv 200), s')
      /\ transcript conv
         = match conversations s !! conversationID with
           | Some old => transcript old
           | None => []
           end
           ++ [("user", query); ("assistant", answer)])
  /\ (conversations s !! conversationID = None ->
      historyHandler "GET" ("/agent/history/" +:+ conversationID) s
      = (Ok (JSONError "Conversation not found" 404), s))
  /\ historyHandler "GET" "/agent/history/" s
     = (Ok (JSONError "Conversation ID required" 400), s)
  /\ (forall method path : string,
         method <> "GET" ->
         historyHandler method path s = (Ok (PlainError "Method not allowed" 405), s)).
Proof.
  intros Hid.
  assert (Hget : forall st : State,
             historyHandler "GET" ("/agent/history/" +:+ conversationID) st
             = (match conversations st !! conversationID with
                | None => Ok (JSONError "Conversation not found" 404)
                | Some conv => Ok (JSON conv 200)
                end, st)).
  { intros st. unfold historyHandler. rewrite String.eqb_refl. cbn [negb].
    rewrite TrimPrefix_append.
    destruct (String.eqb_spec conversationID "") as [He | _]; [contradiction | ].
    unfold bind, get_conversations, ret.
    destruct (conversations st !! conversationID); reflexivity. }
  split_and!.
  - destruct (storeConversation_run conversationID query answer s)
      as (s' & conv & t1 & t2 & Hstore & Hlook & Hmsgs & _).
    exists s', conv. split; [exact Hstore | ]. split.
    + rewrite Hget, Hlook. reflexivity.
    + unfold transcript. rewrite Hmsgs, fmap_app.
      destruct (conversations s !! conversationID); reflexivity.
  - intros Hnone. rewrite Hget, Hnone. reflexivity.
  - reflexivity.
  - intros method path Hm. unfold historyHandler.
    destruct (String.eqb_spec method "GET") as [He | _]; [contradiction | reflexivity].
Qed.

(** ** The requests sent to the collaborators *)

(** X12. What [executeSearchRAG] sends and returns. It posts to
    "<RAG_SERVICE_URL>/retrieve" the parameters with their defaults filled
    in: the query and the collection are never empty and the [top_k] that
    is converted is never 0. In particular the action of the default plan
    asks for "regulatory_docs" with [top_k] 5 and, when the user's query is
    empty, for "default query". The call fails only when the request or the
    decoding of the reply does. *)
Theorem retrieve_request_defaults (params : GoMap) (s : State) :
  executeSearchRAG params s
  = (Ok (reply_result
           (fst (http_Post (RAG_SERVICE_URL +:+ "/retrieve") "application/json"
                   (json_Marshal (retrieve_request params)) (world s)))),
     mkState
       (snd (http_Post (RAG_SERVICE_URL +:+ "/retrieve") "application/json"
               (json_Marshal (retrieve_request params)) (world s)))
       (conversations s))
  /\ (exists query collection topK,
         retrieve_request params
         = VMap (Some (<["query" := VString query]>
                        (<["collection" := VString collection]>
                          (<["top_k" := VInt (float64_to_int topK)]> ∅))))
         /\ query <> EmptyString /\ collection <> EmptyString
         /\ (topK =? 0)%float = false)
  /\ (forall query : string,
         retrieve_request (Action.Parameters (default_action query))
         = VMap (Some (<["query" := VString (if String.eqb query "" then "default query"
                                             else query)]>
                        (<["collection" := VString "regulatory_docs"]>
                          (<["top_k" := VInt (float64_to_int 5)]> ∅))))).
Proof.
  split_and!.
  - unfold executeSearchRAG, retrieve_request, reply_result.
    rewrite (bind_run _ _ _ _ _ (lift_world_run _ s)).
    destruct (fst (http_Post _ _ _ _)) as [body | err]; [ | reflexivity].
    destruct (json_Decode_map body) as [result [err | ]]; reflexivity.
  - unfold retrieve_request. eexists _, _, _. split; [reflexivity | ].
    split_and!.
    + destruct (String.eqb_spec (fst (assert_string (map_index params "query"))) "");
        [discriminate | assumption].
    + destruct (String.eqb_spec (fst (assert_string (map_index params "collection"))) "");
        [discriminate | assumption].
    + destruct (fst (assert_float64 (map_index params "top_k")) =? 0)%float eqn:Hz;
        [reflexivity | exact Hz].
  - intros query. unfold retrieve_request. cbn. reflexivity.
Qed.

(** ** Actions that need no collaborator *)

Lemma execute_one_offline (action : Action.t) (response : AgentResponse.t) (s : State) :
  offline action = true ->
  exists result,
    execute_one action response s = (Ok (result, response), s)
    /\ in_band action result.
Proof.
  unfold offline, execute_one, dispatch_action, in_band, known_type, tool_name.
  destruct (String.eqb_spec (Action.Type_ action) "search_rag") as [Hs | Hs];
    [discriminate | ].
  destruct (String.eqb_spec (Action.Type_ action) "call_tool") as [Hc | Hc].
  - intros Hname. unfold executeCallTool. rewrite Hname.
    eexists. split; [reflexivity | ].
    eexists. split; [reflexivity | ].
    split_and!.
    + apply lookup_insert_eq.
    + intros Hk. discriminate Hk.
    + intros _ _. split; vm_compute; reflexivity.
  - intros _.
    destruct (String.eqb_spec (Action.Type_ action) "synthesize") as [Hy | Hy].
    + eexists. split; [reflexivity | ].
      eexists. split; [reflexivity | ].
      split_and!; [apply lookup_insert_eq | intros Hk; discriminate Hk | contradiction].
    + eexists. split; [reflexivity | ].
      eexists. split; [reflexivity | ].
      split_and!; [apply lookup_insert_eq | | contradiction].
      intros _. split; vm_compute; reflexivity.
Qed.

(** X13. Actions that need no collaborator reach none. When every action
    of the list is a [synthesize], an action of an unknown type or a tool
    call without a tool name, [executeActions] returns its results with the
    process state exactly as it was, and registers neither a source nor a
    tool in the response. *)
Theorem offline_actions_reach_nobody (actions : list Action.t)
  (response : AgentResponse.t) (s : State) :
  forallb offline actions = true ->
  exists results,
    executeActions actions response s = (Ok (results, response), s)
    /\ Forall2 in_band actions results.
Proof.
  intros Hall. unfold executeActions.
  assert (Hgen : forall acc : list GoMap,
             exists new,
               executeActions_from actions acc response s = (Ok (acc ++ new, response), s)
               /\ Forall2 in_band actions new).
  { induction actions as [ | action actions IH]; intros acc.
    - exists []. rewrite app_nil_r. split; [reflexivity | constructor].
    - cbn [forallb] in Hall. apply andb_true_iff in Hall as (Hoff & Hrest).
      destruct (execute_one_offline action response s Hoff) as (result & Hrun & Hband).
      cbn [executeActions_from]. rewrite (bind_run _ _ _ _ _ Hrun). cbn.
      destruct (IH Hrest (acc ++ [result])) as (new & Hnew & Hall').
      exists (result :: new). split.
      + rewrite Hnew, <- app_assoc. reflexivity.
      + constructor; assumption. }
  destruct (Hgen []) as (new & Hrun & Hband).
  exists new. split; [exact Hrun | exact Hband].
Qed.

(** ** The order of the phases *)

Lemma tagged_same (r r' : AgentResponse.t) :
  AgentResponse.Steps r' = AgentResponse.Steps r -> tagged [] [] r r'.
Proof.
  intros H. unfold tagged, step_tags, step_flags. rewrite H, !app_nil_r.
  split; reflexivity.
Qed.

Lemma tagged_trans (t1 t2 : list string) (f1 f2 : list bool) (r1 r2 r3 : AgentResponse.t) :
  tagged t1 f1 r1 r2 -> tagged t2 f2 r2 r3 -> tagged (t1 ++ t2) (f1 ++ f2) r1 r3.
Proof.
  intros [Ht1 Hf1] [Ht2 Hf2]. unfold tagged.
  rewrite Ht2, Ht1, Hf2, Hf1, !app_assoc. split; reflexivity.
Qed.

Lemma tagged_append_step (ty description result : string) (success : bool)
  (duration : float) (r : AgentResponse.t) :
  tagged [ty] [success] r (append_step ty description result success duration r).
Proof.
  unfold tagged, step_tags, step_flags, append_step. cbn.
  rewrite !fmap_app. split; reflexivity.
Qed.

Lemma grown_0_steps (r r' : AgentResponse.t) :
  grown 0 r r' -> AgentResponse.Steps r' = AgentResponse.Steps r.
Proof.
  intros Hg. destruct (grown_Steps _ _ _ Hg) as (new & Heq & Hlen & _).
  destruct new; [ | discriminate Hlen]. rewrite app_nil_r in Heq. exact Heq.
Qed.

Lemma step_execute_tagged (st st' : LoopState) (plan : ExecutionPlan.t)
  (results : list GoMap) (s s' : State) :
  step_execute st plan s = (Ok (st', results), s') ->
  tagged ["execute"] [true] (response st) (response st').
Proof.
  unfold step_execute.
  run_head (safe_lift_world time_Now).
  intros H. apply bind_Ok_inv in H as ([executionResults response0] & s1 & Hex & H).
  apply executeActions_from_Ok in Hex as [Hg _].
  revert H. run_head (safe_lift_world (time_Since_ms a)).
  intros H. inversion H; subst. cbn.
  exact (tagged_trans [] _ [] _ _ _ _ (tagged_same _ _ (grown_0_steps _ _ Hg))
           (tagged_append_step _ _ _ _ _ _)).
Qed.

Lemma step_synthesize_tagged (st st' : LoopState) (executionResults : list GoMap)
  (s s' : State) :
  step_synthesize st executionResults s = (Ok st', s') ->
  tagged ["synthesize"] [true] (response st) (response st').
Proof.
  unfold step_synthesize.
  run_head (safe_lift_world time_Now).
  run_head (synthesizeAnswer_safe (AgentRequest.Query (req st)) executionResults).
  run_head (safe_lift_world (time_Since_ms a)).
  intros H. inversion H; subst. cbn. apply tagged_append_step.
Qed.

Lemma step_verify_tagged (st st' : LoopState) (executionResults : list GoMap)
  (verification : Verification.t) (s s' : State) :
  step_verify st executionResults s = (Ok (st', verification), s') ->
  tagged ["verify"] [true] (response st) (response st').
Proof.
  unfold step_verify.
  run_head (safe_lift_world time_Now).
  run_head (verifyAnswer_safe (AgentRequest.Query (req st)) (finalAnswer st)
              executionResults).
  run_head (safe_lift_world (time_Since_ms a)).
  intros H. inversion H; subst. cbn. apply tagged_append_step.
Qed.

Lemma run_phases_tagged (st : LoopState) (p : PhaseResult) (s s' : State) :
  run_phases st s = (Ok p, s') ->
  match p with
  | PlanFailed resp => tagged ["analyze"; "plan"] [true; false] (response st) resp
  | Verified st' _ =>
      tagged phase_tags [true; true; true; true; true] (response st) (response st')
  end.
Proof.
  unfold run_phases.
  destruct (step_analyze_run st s) as (analysis & d1 & s1 & Hrun1 & Hc1).
  rewrite (bind_run _ _ _ _ _ Hrun1). unfold plan_onwards.
  match goal with |- context [bind (step_plan ?x)] => set (st1 := x) end.
  pose proof (tagged_append_step "analyze" "Analyze user query and intent" analysis true d1
                (response st)) as Ht1.
  destruct (step_plan_run st1 s1) as (d2 & s2 & Hc2 & [(err & Hrun2) | (plan & Hrun2)]);
    rewrite (bind_run _ _ _ _ _ Hrun2).
  - intros H. inversion H; subst.
    exact (tagged_trans ["analyze"] ["plan"] [true] [false] _ _ _ Ht1
             (tagged_append_step _ _ _ _ _ _)).
  - intros H. apply bind_Ok_inv in H as ([st3 results] & s3 & Hex & H).
    apply bind_Ok_inv in H as (st4 & s4 & Hsy & H).
    apply bind_Ok_inv in H as ([st5 v] & s5 & Hve & H).
    inversion H; subst.
    apply step_execute_tagged in Hex. apply step_synthesize_tagged in Hsy.
    apply step_verify_tagged in Hve.
    pose proof (tagged_append_step "plan" "Create execution plan"
                  (ExecutionPlan.Reasoning plan) true d2 (response st1)) as Ht2.
    exact (tagged_trans ["analyze"; "plan"; "execute"; "synthesize"] ["verify"]
             [true; true; true; true] [true] _ _ _
             (tagged_trans ["analyze"; "plan"; "execute"] ["synthesize"]
                [true; true; true] [true] _ _ _
                (tagged_trans ["analyze"; "plan"] ["execute"] [true; true] [true] _ _ _
                   (tagged_trans ["analyze"] ["plan"] [true] [true] _ _ _ Ht1 Ht2)
                   Hex) Hsy) Hve).
Qed.

Lemma loop_entry_tagged (rq : AgentRequest.t) (s : State) (n : nat) :
  forall (st : LoopState) (s1 : State),
    loop_entry rq s n = Some (st, s1) ->
    step_tags (response st) = iteration_tags n
    /\ step_flags (response st) = replicate (5 * n) true.
Proof.
  induction n as [ | n IH]; intros st s1 H.
  - cbn in H. destruct (1 <=? AgentRequest.MaxIterations rq); [ | discriminate].
    inversion H; subst. split; reflexivity.
  - cbn [loop_entry] in H.
    destruct (loop_entry rq s n) as [[st0 s0] | ]; [ | discriminate].
    destruct (IH st0 s0 eq_refl) as (Htags & Hflags).
    destruct (run_phases st0 s0) as [[[resp | st' v] | msg] s2] eqn:Hrun; try discriminate.
    apply run_phases_tagged in Hrun as [Ht Hf].
    destruct (decide_if_done (Z.of_nat (S n)) st' v) as [ | | st''] eqn:Hd; try discriminate.
    apply decide_Iterate_inv in Hd as (_ & _ & ->).
    inversion H; subst. cbn [response set_req iteration_tags].
    rewrite Ht, Hf, Htags, Hflags.
    split; [reflexivity | ].
    replace (5 * S n)%nat with (5 * n + 5)%nat by lia.
    rewrite replicate_add. reflexivity.
Qed.

(** X14. The steps of every returned response are whole iterations, each
    "analyze", "plan", "execute", "synthesize", "verify" in this order and
    all marked successful, followed by nothing or, when a planning step
    failed, by one "analyze" marked successful and one "plan" marked
    failed. No other step is ever marked failed: a failed analysis, a
    failed action and a failed verification are all recorded as
    successes. *)
Theorem phases_in_order (rq : AgentRequest.t) (s s' : State) (resp : AgentResponse.t) :
  executeAgenticLoop rq s = (Ok resp, s') ->
  exists k : nat,
    Z.of_nat k <= Z.max 0 (AgentRequest.MaxIterations rq)
    /\ ((step_tags resp = iteration_tags k
         /\ step_flags resp = replicate (5 * k) true)
        \/ (step_tags resp = iteration_tags k ++ ["analyze"; "plan"]
            /\ step_flags resp = replicate (5 * k) true ++ [true; false]
            /\ Z.of_nat k < AgentRequest.MaxIterations rq)).
Proof.
  intros H. apply executeAgenticLoop_inv in H as (exit & s1 & Hloop & H).
  apply run_exit_inv in Hloop.
  destruct Hloop as [(Hneg & -> & ->) | (m & stm & sm & Hentry & Hexit)].
  { destruct H as (-> & _). exists 0%nat. split; [lia | ]. left. split; reflexivity. }
  destruct (loop_entry_inv rq s m stm sm Hentry) as (Hm & _).
  destruct (loop_entry_tagged rq s m stm sm Hentry) as (Htags & Hflags).
  destruct exit as [resp0 | stf].
  - destruct H as (-> & _). apply run_phases_tagged in Hexit as [Ht Hf].
    exists m. split; [lia | ]. right.
    rewrite Ht, Hf, Htags, Hflags. split_and!; [reflexivity | reflexivity | lia].
  - destruct H as (-> & _). destruct Hexit as (st' & v & Hrun & Hd).
    apply run_phases_tagged in Hrun as [Ht Hf].
    assert (Hsteps : AgentResponse.Steps (final_response stf)
                     = AgentResponse.Steps (response st')).
    { destruct Hd as [Hd | Hd];
        [apply decide_Done_inv in Hd as (_ & ->)
        | apply decide_NeedsInfo_inv in Hd as (_ & _ & ->)]; reflexivity. }
    exists (S m). split; [lia | ]. left.
    unfold step_tags, step_flags in *. rewrite Hsteps, Ht, Hf, Htags, Hflags.
    split; [reflexivity | ].
    replace (5 * S m)%nat with (5 * m + 5)%nat by lia.
    rewrite replicate_add. reflexivity.
Qed.

(** ** Sources and tools *)

Lemma tool_calls_cons (action : Action.t) (actions : list Action.t) :
  tool_calls (action :: actions) = tool_calls [action] ++ tool_calls actions.
Proof.
  unfold tool_calls. cbn [List.filter].
  destruct (String.eqb (Action.Type_ action) "call_tool"); reflexivity.
Qed.

Lemma searches_cons (action : Action.t) (actions : list Action.t) :
  searches (action :: actions) = (searches [action] + searches actions)%nat.
Proof.
  unfold searches. cbn [List.filter].
  destruct (String.eqb (Action.Type_ action) "search_rag"); reflexivity.
Qed.

Lemma registered_nothing (actions : list Action.t) (r : AgentResponse.t) :
  registered actions r r.
Proof.
  exists [], 0%nat. rewrite !app_nil_r.
  split_and!; [reflexivity | reflexivity | apply sublist_nil_l | constructor | lia].
Qed.

Lemma registered_app (a1 a2 : list Action.t) (r1 r2 r3 : AgentResponse.t) :
  tool_calls (a1 ++ a2) = tool_calls a1 ++ tool_calls a2 ->
  searches (a1 ++ a2) = (searches a1 + searches a2)%nat ->
  registered a1 r1 r2 -> registered a2 r2 r3 -> registered (a1 ++ a2) r1 r3.
Proof.
  intros Htc Hse (t1 & n1 & Ht1 & Hs1 & Hsub1 & Hne1 & Hn1)
    (t2 & n2 & Ht2 & Hs2 & Hsub2 & Hne2 & Hn2).
  exists (t1 ++ t2), (n1 + n2)%nat.
  rewrite Ht2, Ht1, Hs2, Hs1, Htc, Hse, replicate_add, !app_assoc.
  split_and!; [reflexivity | reflexivity | | | lia].
  - apply sublist_app; assumption.
  - apply Forall_app. split; assumption.
Qed.

Lemma dispatch_action_registered (action : Action.t) (response response' : AgentResponse.t)
  (result : GoMap) (err : option error) (s s' : State) :
  dispatch_action action response s = (Ok (result, err, response'), s') ->
  registered [action] response response'.
Proof.
  unfold dispatch_action.
  destruct (String.eqb (Action.Type_ action) "search_rag") eqn:Hs.
  { intros H. apply bind_Ok_inv in H as ([result0 [e | ]] & s1 & Hex & H);
      inversion H; subst; [apply registered_nothing | ].
    exists [], 1%nat. unfold searches. cbn [List.filter]. rewrite Hs. cbn.
    rewrite app_nil_r.
    split_and!; [reflexivity | reflexivity | apply sublist_nil_l | constructor | lia]. }
  destruct (String.eqb (Action.Type_ action) "call_tool") eqn:Hc.
  { intros H. apply bind_Ok_inv in H as ([result0 [e | ]] & s1 & Hex & H);
      [inversion H; subst; apply registered_nothing | ].
    destruct (assert_string (map_index (Action.Parameters action) "tool"))
      as [toolName [ | ]] eqn:Hname;
      inversion H; subst; [ | apply registered_nothing].
    assert (Htool : tool_name action = toolName)
      by (unfold tool_name; rewrite Hname; reflexivity).
    assert (Hne : toolName <> EmptyString).
    { intros ->. unfold executeCallTool in Hex. rewrite Hname in Hex.
      cbn in Hex. inversion Hex. }
    exists [toolName], 0%nat. unfold tool_calls. cbn [List.filter]. rewrite Hc. cbn.
    rewrite Htool, app_nil_r.
    split_and!; [reflexivity | reflexivity | reflexivity | | lia].
    constructor; [exact Hne | constructor]. }
  destruct (String.eqb (Action.Type_ action) "synthesize");
    intros H; inversion H; subst; apply registered_nothing.
Qed.

Lemma execute_one_registered (action : Action.t) (response response' : AgentResponse.t)
  (result : GoMap) (s s' : State) :
  execute_one action response s = (Ok (result, response'), s') ->
  registered [action] response response'.
Proof.
  unfold execute_one. intros H.
  apply bind_Ok_inv in H as ([[result0 err] response0] & s1 & Hd & H).
  apply dispatch_action_registered in Hd.
  apply bind_Ok_inv in H as (result1 & s2 & _ & H).
  inversion H; subst. exact Hd.
Qed.

Lemma executeActions_from_registered (actions : list Action.t) :
  forall (results results' : list GoMap) (response response' : AgentResponse.t)
         (s s' : State),
    executeActions_from actions results response s = (Ok (results', response'), s') ->
    registered actions response response'.
Proof.
  induction actions as [ | action actions IH];
    intros results results' response response' s s' H.
  - cbn in H. inversion H; subst. apply registered_nothing.
  - cbn in H. apply bind_Ok_inv in H as ([result r1] & s1 & Hone & Hrest).
    apply execute_one_registered in Hone. apply IH in Hrest.
    exact (registered_app [action] actions _ _ _ (tool_calls_cons action actions)
             (searches_cons action actions) Hone Hrest).
Qed.

(** X15. What [executeActions] adds to the response. The tools it appends
    to [ToolsUsed] are, in the order of the plan, some of the tools the
    plan's [call_tool] actions name, each named by a non-empty text; the
    sources it appends are copies of "RAG Knowledge Base", at most one for
    each [search_rag] action, so the same source is listed again for every
    search that succeeds. Nothing is ever removed from either list. *)
Theorem sources_and_tools_registered (actions : list Action.t)
  (response response' : AgentResponse.t) (results : list GoMap) (s s' : State) :
  executeActions actions response s = (Ok (results, response'), s') ->
  exists (tools : list string) (n : nat),
    AgentResponse.ToolsUsed response' = AgentResponse.ToolsUsed response ++ tools
    /\ AgentResponse.Sources response'
       = AgentResponse.Sources response ++ replicate n "RAG Knowledge Base"
    /\ sublist tools (tool_calls actions)
    /\ Forall (fun tool => tool <> EmptyString) tools
    /\ (n <= searches actions)%nat.
Proof.
  unfold executeActions. intros H.
  exact (executeActions_from_registered actions _ _ _ _ _ _ H).
Qed.

(** ** The planning endpoint *)

(** X16. What [planHandler] replies. It always replies and never touches
    the conversation store. A plain 405 goes to any method but POST, a 400
    to a body that did not decode; every other request, an empty query
    included, is handed to [createExecutionPlan], whose error comes back as
    a 500 with the message "Failed to create plan: <error>" and whose plan
    comes back with status 200. *)
Theorem plan_reply (method : string) (body : AgentRequest.t * option error) (s : State) :
  exists reply s',
    planHandler method body s = (Ok reply, s')
    /\ conversations s' = conversations s
    /\ match reply with
       | PlainError message status =>
           method <> "POST" /\ message = "Method not allowed" /\ status = 405 /\ s' = s
       | JSONError message status =>
           method = "POST"
           /\ ((snd body <> None /\ message = "Invalid request body" /\ status = 400
                /\ s' = s)
               \/ (exists err,
                      snd body = None
                      /\ createExecutionPlan (AgentRequest.Query (fst body))
                           (AgentRequest.Context (fst body)) s
                         = (Ok (inr err), s')
                      /\ message = "Failed to create plan: " +:+ err /\ status = 500))
       | JSON plan status =>
           method = "POST" /\ snd body = None /\ status = 200
           /\ createExecutionPlan (AgentRequest.Query (fst body))
                (AgentRequest.Context (fst body)) s
              = (Ok (inl plan), s')
       end.
Proof.
  unfold planHandler.
  destruct (String.eqb_spec method "POST") as [-> | Hmethod]; cbn [negb].
  2:{ eexists _, _. split; [reflexivity | ]. split; [reflexivity | ].
      split_and!; [exact Hmethod | reflexivity..]. }
  destruct body as [rq [err | ]]; cbn [fst snd].
  { eexists _, _. split; [reflexivity | ]. split; [reflexivity | ].
    split; [reflexivity | ]. left. split_and!; [discriminate | reflexivity..]. }
  destruct (createExecutionPlan_safe (AgentRequest.Query rq) (AgentRequest.Context rq) s)
    as ([plan | err] & s1 & Hrun & Hconv);
    rewrite (bind_run _ _ _ _ _ Hrun); eexists _, _;
    (split; [reflexivity | ]); (split; [exact Hconv | ]).
  - split_and!; [reflexivity.. | exact Hrun].
  - split; [reflexivity | ]. right. exists err.
    split_and!; [reflexivity | exact Hrun | reflexivity | reflexivity].
Qed.

(** ** The reported verdict *)

Lemma final_iterations (rq : AgentRequest.t) (m : nat) (r5 : AgentResponse.t)
  (st : LoopState) :
  grown (5 * S m) (initial_response rq) r5 ->
  AgentResponse.Steps (response st) = AgentResponse.Steps r5 ->
  AgentResponse.Iterations (final_response st) = Z.of_nat (S m).
Proof.
  intros Hg Hsteps. pose proof (grown_len _ _ _ Hg) as Hlen.
  change (len (AgentResponse.Steps (initial_response rq))) with 0 in Hlen.
  unfold final_response.
  change (AgentResponse.Iterations (AgentResponse.set_Iterations ?n _)) with n.
  cbn [AgentResponse.Steps AgentResponse.set_Confidence AgentResponse.set_Answer].
  rewrite Hsteps, Hlen.
  replace (0 + Z.of_nat (5 * S m)) with (Z.of_nat (S m) * 5) by lia.
  apply Z.quot_mul. lia.
Qed.

(** X17. The verdict a response reports is the last one the verifier
    gave. A response that counts [k] iterations, [k] positive, carries the
    confidence of the verification of iteration [k], unchanged, and asks
    for more information exactly when that verification was not
    [satisfactory]. A response that counts no iteration, because the cap
    was not positive or because a planning step failed, also after
    complete iterations, reports confidence 0 and asks for nothing. *)
Theorem last_verdict_reported (rq : AgentRequest.t) (s s' : State)
  (resp : AgentResponse.t) :
  executeAgenticLoop rq s = (Ok resp, s') ->
  (AgentResponse.Iterations resp = 0
   /\ AgentResponse.Confidence resp = 0%float
   /\ AgentResponse.NeedMoreInfo resp = false
   /\ AgentResponse.FollowUpQ resp = EmptyString)
  \/ exists (k : nat) (v : Verification.t),
      AgentResponse.Iterations resp = Z.of_nat (S k)
      /\ iteration_verification rq s (S k) = Some v
      /\ AgentResponse.Confidence resp = Verification.Confidence v
      /\ AgentResponse.NeedMoreInfo resp = negb (satisfactory v).
Proof.
  intros H. apply executeAgenticLoop_inv in H as (exit & s1 & Hloop & H).
  apply exit_response in Hloop.
  destruct exit as [resp0 | st].
  - left. destruct H as (-> & _). destruct Hloop as (err & r2 & m & -> & Hg & _).
    cbn [AgentResponse.Iterations AgentResponse.Confidence AgentResponse.NeedMoreInfo
           AgentResponse.FollowUpQ AgentResponse.set_Answer].
    rewrite (grown_Iterations _ _ _ Hg), (grown_Confidence _ _ _ Hg),
      (grown_NeedMoreInfo _ _ _ Hg), (grown_FollowUpQ _ _ _ Hg).
    split_and!; reflexivity.
  - destruct H as (-> & _).
    destruct Hloop as [(_ & -> & _) | (m & r5 & v & Hg & Hm & _ & Hconf & _ & Hiv & Hresp)].
    + left. split_and!; reflexivity.
    + right. exists m, v.
      assert (Hsteps : AgentResponse.Steps (response st) = AgentResponse.Steps r5)
        by (destruct Hresp as [(_ & ->) | (_ & _ & ->)]; reflexivity).
      split_and!; [exact (final_iterations rq m r5 st Hg Hsteps) | exact Hiv | exact Hconf | ].
      destruct Hresp as [(Hsat & Hr) | (Hsat & _ & Hr)]; rewrite Hsat;
        unfold final_response; cbn; rewrite Hr; reflexivity.
Qed.

(** ** Replies without text *)

(** X18. What the four callers of the model make of a reply that has no
    text to read, that is no candidate, a first candidate without content,
    or a content without parts. The analysis becomes "Query analysis
    completed" and the answer "No answer could be generated."; the verifier
    returns [parse_fallback], which the loop takes as [satisfactory]; only
    the planner reports an error, which ends the run. *)
Theorem reply_without_text (resp : genai.GenerateContentResponse Part) (w : World)
  (query answer : string) (ctxMap : gmap string string) (results : list GoMap)
  (s : State) :
  first_part resp = None ->
  (GenerateContent modelName (analysis_prompt query ctxMap) (world s) = (inl resp, w) ->
   analyzeQuery query ctxMap s
   = (Ok "Query analysis completed", mkState w (conversations s)))
  /\ (GenerateContent modelName (plan_prompt query) (world s) = (inl resp, w) ->
      exists message,
        createExecutionPlan query ctxMap s
        = (Ok (inr message), mkState w (conversations s))
        /\ (message = "no response from model" \/ message = "empty response"))
  /\ (GenerateContent modelName
        (synthesize_prompt query
           (gather_results 0 results ("Information gathered:" +:+ nl +:+ nl)))
        (world s) = (inl resp, w) ->
      synthesizeAnswer query results s
      = (Ok "No answer could be generated.", mkState w (conversations s)))
  /\ (GenerateContent modelName (verify_prompt query answer) (world s) = (inl resp, w) ->
      verifyAnswer query answer results s
      = (Ok parse_fallback, mkState w (conversations s))
      /\ satisfactory parse_fallback = true).
Proof.
  unfold first_part. intros Hpart.
  split_and!; intros Hgen;
    [unfold analyzeQuery | unfold createExecutionPlan | unfold synthesizeAnswer
    | unfold verifyAnswer];
    rewrite (bind_run _ _ _ _ _ (lift_world_run _ s)), Hgen; cbn [fst snd];
    destruct (genai.Candidates resp) as [ | [[content | ]] rest];
    try destruct (genai.Parts content) as [ | part parts];
    try discriminate Hpart;
    try reflexivity;
    try (split; reflexivity);
    eexists; (split; [reflexivity | ]); auto.
Qed.

(** ** What the lists of a response can hold *)

Lemma listed_registered (actions : list Action.t) (r r' : AgentResponse.t) :
  registered actions r r' -> listed r -> listed r'.
Proof.
  intros (tools & n & Ht & Hs & _ & Hne & _) ((m & Hm) & Hall). split.
  - exists (m + n)%nat. rewrite Hs, Hm, replicate_add. reflexivity.
  - rewrite Ht. apply Forall_app. split; assumption.
Qed.

Lemma listed_same (r r' : AgentResponse.t) :
  AgentResponse.Sources r' = AgentResponse.Sources r ->
  AgentResponse.ToolsUsed r' = AgentResponse.ToolsUsed r ->
  listed r -> listed r'.
Proof. intros Hs Ht [Hsrc Htools]. unfold listed. rewrite Hs, Ht. split; assumption. Qed.

Lemma step_execute_listed (st st' : LoopState) (plan : ExecutionPlan.t)
  (results : list GoMap) (s s' : State) :
  step_execute st plan s = (Ok (st', results), s') ->
  listed (response st) -> listed (response st').
Proof.
  unfold step_execute.
  run_head (safe_lift_world time_Now).
  intros H. apply bind_Ok_inv in H as ([executionResults response0] & s1 & Hex & H).
  apply executeActions_from_registered in Hex.
  revert H. run_head (safe_lift_world (time_Since_ms a)).
  intros H Hl. inversion H; subst. cbn.
  apply (listed_same response0); [reflexivity | reflexivity | ].
  exact (listed_registered _ _ _ Hex Hl).
Qed.

Lemma step_synthesize_listed (st st' : LoopState) (executionResults : list GoMap)
  (s s' : State) :
  step_synthesize st executionResults s = (Ok st', s') ->
  listed (response st) -> listed (response st').
Proof.
  unfold step_synthesize.
  run_head (safe_lift_world time_Now).
  run_head (synthesizeAnswer_safe (AgentRequest.Query (req st)) executionResults).
  run_head (safe_lift_world (time_Since_ms a)).
  intros H Hl. inversion H; subst. cbn.
  exact (listed_same (response st) _ eq_refl eq_refl Hl).
Qed.

Lemma step_verify_listed (st st' : LoopState) (executionResults : list GoMap)
  (verification : Verification.t) (s s' : State) :
  step_verify st executionResults s = (Ok (st', verification), s') ->
  listed (response st) -> listed (response st').
Proof.
  unfold step_verify.
  run_head (safe_lift_world time_Now).
  run_head (verifyAnswer_safe (AgentRequest.Query (req st)) (finalAnswer st)
              executionResults).
  run_head (safe_lift_world (time_Since_ms a)).
  intros H Hl. inversion H; subst. cbn.
  exact (listed_same (response st) _ eq_refl eq_refl Hl).
Qed.

Lemma run_phases_listed (st : LoopState) (p : PhaseResult) (s s' : State) :
  run_phases st s = (Ok p, s') ->
  listed (response st) -> listed (phase_response p).
Proof.
  unfold run_phases.
  destruct (step_analyze_run st s) as (analysis & d1 & s1 & Hrun1 & Hc1).
  rewrite (bind_run _ _ _ _ _ Hrun1). unfold plan_onwards.
  match goal with |- context [bind (step_plan ?x)] => set (st1 := x) end.
  destruct (step_plan_run st1 s1) as (d2 & s2 & Hc2 & [(err & Hrun2) | (plan & Hrun2)]);
    rewrite (bind_run _ _ _ _ _ Hrun2).
  - intros H Hl. inversion H; subst.
    exact (listed_same (response st) _ eq_refl eq_refl Hl).
  - intros H Hl. apply bind_Ok_inv in H as ([st3 results] & s3 & Hex & H).
    apply bind_Ok_inv in H as (st4 & s4 & Hsy & H).
    apply bind_Ok_inv in H as ([st5 v] & s5 & Hve & H).
    inversion H; subst. cbn [phase_response].
    apply (step_verify_listed _ _ _ _ _ _ Hve).
    apply (step_synthesize_listed _ _ _ _ _ Hsy).
    apply (step_execute_listed _ _ _ _ _ _ Hex).
    exact (listed_same (response st) _ eq_refl eq_refl Hl).
Qed.

Lemma loop_entry_listed (rq : AgentRequest.t) (s : State) (n : nat) :
  forall (st : LoopState) (s1 : State),
    loop_entry rq s n = Some (st, s1) -> listed (response st).
Proof.
  induction n as [ | n IH]; intros st s1 H.
  - cbn in H. destruct (1 <=? AgentRequest.MaxIterations rq); [ | discriminate].
    inversion H; subst. split; [exists 0%nat; reflexivity | constructor].
  - cbn [loop_entry] in H.
    destruct (loop_entry rq s n) as [[st0 s0] | ]; [ | discriminate].
    specialize (IH st0 s0 eq_refl).
    destruct (run_phases st0 s0) as [[[resp | st' v] | msg] s2] eqn:Hrun; try discriminate.
    apply run_phases_listed in Hrun; [ | exact IH].
    destruct (decide_if_done (Z.of_nat (S n)) st' v) as [ | | st''] eqn:Hd; try discriminate.
    apply decide_Iterate_inv in Hd as (_ & _ & ->).
    inversion H; subst. exact Hrun.
Qed.

(** X19. What the lists of a returned response can hold. Every entry of
    [Sources] is the literal "RAG Knowledge Base", once for every search
    that succeeded in any iteration: the field never names a document or a
    collection. No entry of [ToolsUsed] is the empty name. *)
Theorem only_generic_sources (rq : AgentRequest.t) (s s' : State)
  (resp : AgentResponse.t) :
  executeAgenticLoop rq s = (Ok resp, s') ->
  (exists n : nat, AgentResponse.Sources resp = replicate n "RAG Knowledge Base")
  /\ Forall (fun tool => tool <> EmptyString) (AgentResponse.ToolsUsed resp).
Proof.
  intros H. apply executeAgenticLoop_inv in H as (exit & s1 & Hloop & H).
  apply run_exit_inv in Hloop.
  change (listed resp).
  destruct Hloop as [(Hneg & -> & ->) | (m & stm & sm & Hentry & Hexit)].
  { destruct H as (-> & _). split; [exists 0%nat; reflexivity | constructor]. }
  pose proof (loop_entry_listed rq s m stm sm Hentry) as Hl.
  destruct exit as [resp0 | stf].
  - destruct H as (-> & _). exact (run_phases_listed _ _ _ _ Hexit Hl).
  - destruct H as (-> & _). destruct Hexit as (st' & v & Hrun & Hd).
    apply run_phases_listed in Hrun; [ | exact Hl]. cbn [phase_response] in Hrun.
    apply (listed_same (response st')); [ | | exact Hrun];
      (destruct Hd as [Hd | Hd];
       [apply decide_Done_inv in Hd as (_ & ->)
       | apply decide_NeedsInfo_inv in Hd as (_ & _ & ->)]; reflexivity).
Qed.

(** ** Panics *)

Section NoNilResult.

Hypothesis decoded_not_nil : forall data : string, json_Decode_map data <> (None, None).





End NoNilResult.

End Coverage.

(** * The claims on sample runs *)

Module Runs.

Import Scripted.

(** Scenario A of the specification: one iteration, verified complete with
    confidence 0.9. *)
Lemma stop_when_satisfactory_witness :
  iteration_verification (E := E) (request 1) (s0 confident_world) 1
  = Some (Verification.mk true 0.9%float "")
  /\ exists resp s',
      executeAgenticLoop (E := E) (request 1) (s0 confident_world) = (Ok resp, s')
      /\ AgentResponse.NeedMoreInfo resp = false
      /\ len (AgentResponse.Steps resp) = 5 * Z.of_nat 1
      /\ AgentResponse.Iterations resp = Z.of_nat 1
      /\ Z.of_nat 1 <= AgentRequest.MaxIterations (request 1)
      /\ iteration_entry (E := E) (request 1) (s0 confident_world) 2 = None.
Proof.
  split; [vm_compute; reflexivity | ].
  apply (stop_when_satisfactory (E := E) (request 1) (s0 confident_world) 1
           (Verification.mk true 0.9%float ""));
    vm_compute; reflexivity.
Defined.

(** Scenario B of the specification: two iterations, both verified
    incomplete with "budget limits" missing. *)
Lemma need_more_info_at_cap_witness :
  iteration_verification (E := E) (request 2) (s0 doubtful_world) 2
  = Some (Verification.mk false 0.3%float "budget limits")
  /\ exists resp s',
      executeAgenticLoop (E := E) (request 2) (s0 doubtful_world) = (Ok resp, s')
      /\ AgentResponse.NeedMoreInfo resp = true
      /\ AgentResponse.FollowUpQ resp
         = "I need more information to answer completely. Can you provide more context about: "
             +:+ "budget limits"
      /\ AgentResponse.FollowUpQ resp <> EmptyString
      /\ len (AgentResponse.Steps resp) = 5 * 2.
Proof.
  split; [vm_compute; reflexivity | ].
  apply (need_more_info_at_cap (E := E) (request 2) (s0 doubtful_world)
           (Verification.mk false 0.3%float "budget limits"));
    vm_compute; reflexivity.
Defined.

Lemma default_plan_on_decode_failure_witness :
  exists plan,
    createExecutionPlan (E := E) kyc_query ∅ (s0 prose_reply)
    = (Ok (inl plan), @mkState E silent_world ∅)
    /\ ExecutionPlan.Actions plan
       = [Action.mk "search_rag" "Search knowledge base"
            (Some (<["query" := VString kyc_query]>
                    (<["collection" := VString "regulatory_docs"]>
                      (<["top_k" := VInt 5]> ∅))))]
    /\ ExecutionPlan.Reasoning plan = "Default plan: search knowledge base"
    /\ ExecutionPlan.RewrittenQueries plan = [kyc_query]
    /\ planHandler (E := E) "POST" (AgentRequest.mk kyc_query EmptyString 0 ∅, None)
         (s0 prose_reply)
       = (Ok (JSON plan 200), @mkState E silent_world ∅).
Proof.
  eapply (default_plan_on_decode_failure (E := E) kyc_query ∅ (s0 prose_reply));
    reflexivity.
Defined.

Lemma verify_fallbacks_witness :
  verifyAnswer (E := E) kyc_query "KYC requires identity verification." []
    (s0 silent_world)
  = (Ok (Verification.mk true 0.5%float EmptyString), @mkState E silent_world ∅)
  /\ verifyAnswer (E := E) kyc_query "KYC requires identity verification." []
       (s0 prose_reply)
     = (Ok (Verification.mk true 0.7%float EmptyString), @mkState E silent_world ∅).
Proof.
  split.
  - apply (proj1 (verify_fallbacks (E := E) kyc_query
                    "KYC requires identity verification." [] (s0 silent_world))
             "model unavailable" silent_world).
    reflexivity.
  - eapply (proj1 (proj2 (verify_fallbacks (E := E) kyc_query
                            "KYC requires identity verification." [] (s0 prose_reply))));
      reflexivity.
Defined.

Lemma analyze_failure_absorbed_witness :
  exists analyzed s1,
    step_analyze (E := E) (initial_state (request 1)) (s0 analysis_down)
    = (Ok analyzed, s1)
    /\ AgentStep.Result <$> AgentResponse.Steps (response analyzed)
       = ["Unable to analyze query"]
    /\ AgentStep.Success <$> AgentResponse.Steps (response analyzed) = [true]
    /\ run_phases (E := E) (initial_state (request 1)) (s0 analysis_down)
       = plan_onwards analyzed s1.
Proof.
  destruct (analyze_failure_absorbed (E := E) (initial_state (request 1))
              (s0 analysis_down) "deadline exceeded" _ eq_refl)
    as (_ & Hstep & Hphases & _).
  eexists _, _. split; [exact Hstep | ].
  split; [reflexivity | ]. split; [reflexivity | exact Hphases].
Defined.

(** C8 fails as stated: when the verifier names nothing as missing, the
    second of two unsuccessful iterations plans with the very query of the
    first, to which no suffix was appended. *)
Lemma identical_planning_call_repeated :
  iteration_query (E := E) (request 2) (s0 vague_world) 1 = Some kyc_query
  /\ iteration_verification (E := E) (request 2) (s0 vague_world) 1
     = Some (Verification.mk false 0.3%float "")
  /\ iteration_query (E := E) (request 2) (s0 vague_world) 2 = Some kyc_query
  /\ iteration_verification (E := E) (request 2) (s0 vague_world) 2
     = Some (Verification.mk false 0.3%float "")
  /\ kyc_query <> kyc_query +:+ " (specifically about: " +:+ "" +:+ ")".
Proof.
  split_and!; try (vm_compute; reflexivity).
  vm_compute. discriminate.
Qed.

Lemma query_refined_between_iterations_witness :
  kyc_query +:+ " (specifically about: budget limits)"
  = enhanceQueryForIteration kyc_query "budget limits"
  /\ ("budget limits" <> EmptyString ->
      kyc_query +:+ " (specifically about: budget limits)"
      = kyc_query +:+ " (specifically about: " +:+ "budget limits" +:+ ")"
      /\ kyc_query +:+ " (specifically about: budget limits)" <> kyc_query
      /\ plan_prompt (kyc_query +:+ " (specifically about: budget limits)")
         <> plan_prompt kyc_query)
  /\ ("budget limits" = EmptyString ->
      kyc_query +:+ " (specifically about: budget limits)" = kyc_query).
Proof.
  apply (query_refined_between_iterations (E := E) (request 2) (s0 doubtful_world) 1
           (Verification.mk false 0.3%float "budget limits"));
    vm_compute; reflexivity.
Defined.

(** C4 fails as stated: a reply that reports a confidence of 1.5 is decoded
    and passed on as it is, by the verifier and by the loop. *)
Lemma confidence_above_one :
  Verification.Confidence
    <$> returned
          (verifyAnswer (E := env unchecked) kyc_query
             "KYC requires identity verification." []
             (start unchecked overconfident_reply))
  = Some 1.5%float
  /\ AgentResponse.Confidence
       <$> returned
             (executeAgenticLoop (E := env unchecked) (request 1)
                (start unchecked overconfident_world))
     = Some 1.5%float
  /\ in_unit_interval 1.5%float = false.
Proof. split_and!; vm_compute; reflexivity. Qed.

Lemma assoc_Forall {A : Type} (P : A -> Prop) (table : list (string * A))
  (data : string) (a : A) :
  List.Forall (fun entry => P (snd entry)) table -> assoc table data = Some a -> P a.
Proof.
  induction 1 as [ | [k a0] table Hhead Htail IH]; cbn [assoc].
  - discriminate.
  - destruct (String.eqb k data); [ | exact IH].
    intros Heq. inversion Heq; subst. exact Hhead.
Qed.

(** The sample decoder reports confidences within [0,1] only. *)
Lemma sample_decoder_in_range (data : string) (v0 v : Verification.t) :
  json_Unmarshal_verification (Externals := E) data v0 = (v, None) ->
  in_unit_interval (Verification.Confidence v) = true.
Proof.
  change (json_Unmarshal_verification (Externals := E) data v0)
    with (decode sample_verifications v0 data).
  unfold decode.
  destruct (assoc sample_verifications data) as [a | ] eqn:Hassoc; [ | discriminate].
  intros Heq. inversion Heq; subst.
  apply (assoc_Forall (fun v => in_unit_interval (Verification.Confidence v) = true)
           sample_verifications data v); [ | exact Hassoc].
  repeat constructor.
Qed.

Lemma confidence_in_unit_interval_witness :
  (exists v s',
      verifyAnswer (E := E) kyc_query "KYC requires identity verification." []
        (s0 doubtful_world)
      = (Ok v, s')
      /\ in_unit_interval (Verification.Confidence v) = true)
  /\ match executeAgenticLoop (E := E) (request 2) (s0 doubtful_world) with
     | (Ok resp, _) => in_unit_interval (AgentResponse.Confidence resp) = true
     | (Panic _, _) => True
     end.
Proof.
  destruct (confidence_in_unit_interval (E := E) sample_decoder_in_range) as (Hv & Hloop).
  split; [apply Hv | ].
  destruct (executeAgenticLoop (E := E) (request 2) (s0 doubtful_world))
    as [[resp | msg] s'] eqn:Hrun; [exact (Hloop _ _ _ _ Hrun) | exact I].
Defined.

(** C3 on a failing input. The gateway answers the tool call with the body
    [null], which decodes without error to the nil map; writing
    "action_type" into it panics, so no result is returned for the first
    action and the second action is never executed. *)
Theorem nil_result_panics :
  json_Decode_map (Externals := E) "null" = (None, None)
  /\ fst (executeActions (E := E) [tool_action; synthesize_action]
            (initial_response (request 1)) (s0 null_world))
     = Panic "assignment to entry in nil map"
  /\ returned (executeActions (E := E) [tool_action; synthesize_action]
                 (initial_response (request 1)) (s0 null_world))
     = None.
Proof. split_and!; vm_compute; reflexivity. Qed.

(** C6 on a failing input. The first iteration completes with five steps,
    the second is cut short by a planning failure after two more: the
    response holds seven steps, and reports no iteration where the integer
    division gives one. *)
Theorem iterations_lost_on_hard_stop :
  len <$> (AgentResponse.Steps
             <$> returned (executeAgenticLoop (E := E) (request 2) (s0 broken_world)))
  = Some 7
  /\ AgentResponse.Iterations
       <$> returned (executeAgenticLoop (E := E) (request 2) (s0 broken_world))
     = Some 0
  /\ AgentResponse.Answer
       <$> returned (executeAgenticLoop (E := E) (request 2) (s0 broken_world))
     = Some "Failed to create plan: model unavailable"
  /\ 7 ÷ 5 = 1.
Proof. split_and!; vm_compute; reflexivity. Qed.

(** C7 on failing inputs. After two iterations the user message stored is
    the query as rewritten for the second iteration, not the query that was
    submitted and that the response still reports; and a call ended by a
    planning failure stores nothing. *)
Theorem stored_query_is_rewritten :
  AgentResponse.Query
    <$> returned (executeAgenticLoop (E := E) (request 2) (s0 doubtful_world))
  = Some kyc_query
  /\ history (executeAgenticLoop (E := E) (request 2) (s0 doubtful_world)) "C1"
     = Some [("user", kyc_query +:+ " (specifically about: budget limits)");
             ("assistant", "KYC requires identity verification.")]
  /\ AgentResponse.Answer
       <$> returned (executeAgenticLoop (E := E) (request 2) (s0 silent_world))
     = Some "Failed to create plan: model unavailable"
  /\ history (executeAgenticLoop (E := E) (request 2) (s0 silent_world)) "C1" = None.
Proof. split_and!; vm_compute; reflexivity. Qed.

(** ** Further properties on sample runs *)



Lemma steps_and_iterations_bounded_witness :
  executeAgenticLoop (E := E) (request 2) (s0 broken_world)
  = (Ok (response_of (executeAgenticLoop (E := E) (request 2) (s0 broken_world))),
     snd (executeAgenticLoop (E := E) (request 2) (s0 broken_world)))
  /\ len (AgentResponse.Steps
            (response_of (executeAgenticLoop (E := E) (request 2) (s0 broken_world))))
     <= 5 * Z.max 0 2
  /\ numbered_from 1
       (AgentResponse.Steps
          (response_of (executeAgenticLoop (E := E) (request 2) (s0 broken_world))))
  /\ 0 <= AgentResponse.Iterations
            (response_of (executeAgenticLoop (E := E) (request 2) (s0 broken_world)))
       <= Z.max 0 2.
Proof.
  assert (Hrun : executeAgenticLoop (E := E) (request 2) (s0 broken_world)
                 = (Ok (response_of
                          (executeAgenticLoop (E := E) (request 2) (s0 broken_world))),
                    snd (executeAgenticLoop (E := E) (request 2) (s0 broken_world))))
    by (vm_compute; reflexivity).
  split; [exact Hrun | ].
  exact (steps_and_iterations_bounded (E := E) (request 2) (s0 broken_world) _ _ Hrun).
Defined.

Lemma hard_stop_returns_early_witness :
  executeAgenticLoop (E := E) (request 2) (s0 broken_world)
  = (Ok (early_response
           (agentic_loop (E := E) 2 1 (initial_state (request 2)) (s0 broken_world))),
     snd (agentic_loop (E := E) 2 1 (initial_state (request 2)) (s0 broken_world)))
  /\ AgentResponse.Iterations
       (early_response
          (agentic_loop (E := E) 2 1 (initial_state (request 2)) (s0 broken_world)))
     = 0.
Proof.
  assert (Hloop : agentic_loop (E := E) (Z.to_nat (AgentRequest.MaxIterations (request 2)))
                    1 (initial_state (request 2)) (s0 broken_world)
                  = (Ok (Returned
                           (early_response
                              (agentic_loop (E := E) 2 1 (initial_state (request 2))
                                 (s0 broken_world)))),
                     snd (agentic_loop (E := E) 2 1 (initial_state (request 2))
                            (s0 broken_world))))
    by (vm_compute; reflexivity).
  destruct (hard_stop_returns_early (E := E) (request 2) (s0 broken_world) _ _ Hloop)
    as (Hrun & _ & Hit & _).
  split; [exact Hrun | exact Hit].
Defined.

Lemma first_iteration_history_witness :
  exists resp s' conv t1 t2,
    executeAgenticLoop (E := E) (request 1) (s0 confident_world) = (Ok resp, s')
    /\ AgentResponse.Iterations resp = 1
    /\ conversations s' !! AgentRequest.ConversationID (request 1) = Some conv
    /\ Conversation.Messages conv
       = match conversations (s0 confident_world)
               !! AgentRequest.ConversationID (request 1) with
         | Some old => Conversation.Messages old
         | None => []
         end
         ++ [Message.mk "user" (AgentRequest.Query (request 1)) t1;
             Message.mk "assistant" (AgentResponse.Answer resp) t2].
Proof.
  apply (first_iteration_history (E := E) (request 1) (s0 confident_world)
           (Verification.mk true 0.9%float ""));
    [vm_compute; reflexivity | left; vm_compute; reflexivity].
Defined.

(** ** Further properties of the orchestrator on sample runs *)

(** Two iterations, both unsatisfactory: the flag is set and the follow-up
    question names what the last verification missed. *)
Lemma follow_up_goes_with_flag_witness :
  doubtful_run = (Ok (response_of doubtful_run), snd doubtful_run)
  /\ AgentResponse.NeedMoreInfo (response_of doubtful_run) = true
  /\ AgentResponse.Iterations (response_of doubtful_run)
     = AgentRequest.MaxIterations (request 2)
  /\ exists v,
      iteration_verification (E := E) (request 2) (s0 doubtful_world)
        (Z.to_nat (AgentRequest.MaxIterations (request 2))) = Some v
      /\ satisfactory v = false
      /\ AgentResponse.FollowUpQ (response_of doubtful_run)
         = "I need more information to answer completely. Can you provide more context about: "
             +:+ Verification.MissingInfo v.
Proof.
  assert (Hrun : executeAgenticLoop (E := E) (request 2) (s0 doubtful_world)
                 = (Ok (response_of doubtful_run), snd doubtful_run))
    by (vm_compute; reflexivity).
  assert (Hflag : AgentResponse.NeedMoreInfo (response_of doubtful_run) = true)
    by (vm_compute; reflexivity).
  destruct (follow_up_goes_with_flag (E := E) (request 2) (s0 doubtful_world) _ _ Hrun)
    as (Hset & _).
  split; [exact Hrun | ]. split; [exact Hflag | ]. exact (Hset Hflag).
Defined.

(** The second iteration of the doubtful run works on the submitted query
    with the missing information appended. *)
Lemma submitted_query_is_kept_witness :
  iteration_entry (E := E) (request 2) (s0 doubtful_world) 2
  = Some (fst second_entry, snd second_entry)
  /\ AgentRequest.Query (req (fst second_entry))
     = kyc_query +:+ " (specifically about: budget limits)"
  /\ String.prefix (AgentRequest.Query (request 2))
       (AgentRequest.Query (req (fst second_entry))) = true
  /\ AgentRequest.ConversationID (req (fst second_entry))
     = AgentRequest.ConversationID (request 2)
  /\ AgentRequest.MaxIterations (req (fst second_entry))
     = AgentRequest.MaxIterations (request 2)
  /\ AgentRequest.Context (req (fst second_entry)) = AgentRequest.Context (request 2).
Proof.
  assert (Hentry : iteration_entry (E := E) (request 2) (s0 doubtful_world) 2
                   = Some (fst second_entry, snd second_entry))
    by (vm_compute; reflexivity).
  split; [exact Hentry | ]. split; [vm_compute; reflexivity | ].
  exact (submitted_query_is_kept (E := E) (request 2) (s0 doubtful_world) 2 _ _ Hentry).
Defined.

(** The same question asked twice in one conversation: the second run adds
    its two messages after the two of the first. *)
Lemma conversations_only_grow_witness :
  second_run = (Ok (response_of second_run), snd second_run)
  /\ history confident_run "C1"
     = Some [("user", kyc_query); ("assistant", "KYC requires identity verification.")]
  /\ history second_run "C1"
     = Some [("user", kyc_query); ("assistant", "KYC requires identity verification.");
             ("user", kyc_query); ("assistant", "KYC requires identity verification.")]
  /\ exists old new more,
      conversations returning_state !! "C1" = Some old
      /\ conversations (snd second_run) !! "C1" = Some new
      /\ Conversation.Messages new = Conversation.Messages old ++ more.
Proof.
  assert (Hrun : executeAgenticLoop (E := E) (request 1) returning_state
                 = (Ok (response_of second_run), snd second_run))
    by (vm_compute; reflexivity).
  split; [exact Hrun | ]. split; [vm_compute; reflexivity | ].
  split; [vm_compute; reflexivity | ].
  destruct (conversations_only_grow (E := E) (request 1) returning_state _ _ Hrun)
    as (Hgrow & _).
  destruct (conversations returning_state !! "C1") as [old | ] eqn:Hold;
    [ | vm_compute in Hold; discriminate Hold].
  destruct (Hgrow "C1" old Hold) as (new & more & Hnew & Hmsgs & _).
  exists old, new, more. split_and!; [reflexivity | exact Hnew | exact Hmsgs].
Defined.

(** A query answered in one iteration: status 200, the query and the
    conversation identifier of the request, one iteration counted. *)
Lemma query_reply_witness :
  query_call = (Ok (result_of (PlainError "" 0) query_call), snd query_call)
  /\ exists resp status,
      result_of (PlainError "" 0) query_call = JSON resp status
      /\ status = 200
      /\ AgentResponse.Query resp = kyc_query
      /\ AgentResponse.ConversationID resp = "C1"
      /\ 0 <= AgentResponse.Iterations resp <= 1.
Proof.
  assert (Hrun : agentQueryHandler (E := E) "POST" (request 1, None) (s0 confident_world)
                 = (Ok (result_of (PlainError "" 0) query_call), snd query_call))
    by (vm_compute; reflexivity).
  split; [exact Hrun | ].
  pose proof (query_reply (E := E) "POST" (request 1, None) (s0 confident_world) _ _ Hrun)
    as Hreply.
  destruct (result_of (PlainError "" 0) query_call)
    as [message status | message status | resp status].
  - destruct Hreply as (Hmethod & _). destruct (Hmethod eq_refl).
  - destruct Hreply as (_ & _ & _ & [(Hbody & _) | (_ & Hquery & _)]);
      [destruct (Hbody eq_refl) | discriminate Hquery].
  - destruct Hreply as (_ & Hstatus & _ & _ & Hquery & Hid & Hit).
    exists resp, status.
    split_and!; [reflexivity | exact Hstatus | exact Hquery | exact Hid | apply Hit | apply Hit].
Defined.

(** A cap of -1: the query is answered with the empty response and the
    empty answer is stored. *)
Lemma negative_cap_answers_nothing_witness :
  exists d s' conv,
    agentQueryHandler (E := E) "POST" (request (-1), None) (s0 confident_world)
    = (Ok (JSON (AgentResponse.set_ProcessTime d (initial_response (request (-1)))) 200), s')
    /\ conversations s' !! "C1" = Some conv
    /\ transcript conv = [("user", kyc_query); ("assistant", EmptyString)].
Proof.
  destruct (negative_cap_answers_nothing (E := E) (request (-1)) (s0 confident_world))
    as (d & s' & conv & Hrun & Hconv & Hscript);
    [intros H; discriminate H | intros H; discriminate H | reflexivity | ].
  exists d, s', conv. split_and!; [exact Hrun | exact Hconv | exact Hscript].
Defined.

(** The four shapes of a model text on the body [{}]. *)
Lemma clean_json_cases_witness :
  clean_json (E := E) (fence_json +:+ "{}" +:+ fence) = "{}"
  /\ clean_json (E := E) (fence +:+ "{}" +:+ fence) = "{}"
  /\ clean_json (E := E) "{}" = "{}"
  /\ clean_json (E := E) (fence_json +:+ "{}" +:+ fence +:+ nl) = "{}" +:+ fence.
Proof.
  destruct (clean_json_cases (E := E) "{}") as (Hjson & Hbare & Hplain & Hnl).
  split_and!.
  - exact (eq_trans (Hjson eq_refl) eq_refl).
  - exact (eq_trans (Hbare eq_refl) eq_refl).
  - exact (eq_trans (Hplain eq_refl eq_refl) eq_refl).
  - exact (eq_trans (Hnl eq_refl) eq_refl).
Defined.

(** One exchange stored in a new conversation and read back. *)
Lemma history_after_store_witness :
  (exists s' conv,
      storeConversation (E := E) "C1" kyc_query "KYC requires identity verification."
        (s0 silent_world) = (Ok tt, s')
      /\ historyHandler (E := E) "GET" ("/agent/history/" +:+ "C1") s'
         = (Ok (JSON conv 200), s')
      /\ transcript conv
         = [("user", kyc_query); ("assistant", "KYC requires identity verification.")])
  /\ historyHandler (E := E) "GET" ("/agent/history/" +:+ "C1") (s0 silent_world)
     = (Ok (JSONError "Conversation not found" 404), s0 silent_world)
  /\ historyHandler (E := E) "GET" "/agent/history/" (s0 silent_world)
     = (Ok (JSONError "Conversation ID required" 400), s0 silent_world)
  /\ historyHandler (E := E) "DELETE" "/agent/history/C1" (s0 silent_world)
     = (Ok (PlainError "Method not allowed" 405), s0 silent_world).
Proof.
  destruct (history_after_store (E := E) "C1" kyc_query
              "KYC requires identity verification." (s0 silent_world))
    as (Hstore & Hmissing & Hnoid & Hmethod); [intros H; discriminate H | ].
  split_and!.
  - exact Hstore.
  - exact (Hmissing eq_refl).
  - exact Hnoid.
  - apply (Hmethod "DELETE" "/agent/history/C1"). intros H. discriminate H.
Defined.

(** Three actions that need no collaborator, run while the gateway has a
    reply waiting: the reply is still waiting afterwards. *)
Lemma offline_actions_reach_nobody_witness :
  forallb offline [nameless_tool_action; unknown_action; synthesize_action] = true
  /\ exists results,
      executeActions (E := E) [nameless_tool_action; unknown_action; synthesize_action]
        (initial_response (request 1)) (s0 null_world)
      = (Ok (results, initial_response (request 1)), s0 null_world)
      /\ Forall2 in_band [nameless_tool_action; unknown_action; synthesize_action] results.
Proof.
  assert (Hall : forallb offline [nameless_tool_action; unknown_action; synthesize_action]
                 = true) by (vm_compute; reflexivity).
  split; [exact Hall | ].
  exact (offline_actions_reach_nobody (E := E) _ (initial_response (request 1))
           (s0 null_world) Hall).
Defined.

(** One full iteration, then a planning step that fails. *)
Lemma phases_in_order_witness :
  broken_run = (Ok (response_of broken_run), snd broken_run)
  /\ step_tags (response_of broken_run)
     = ["analyze"; "plan"; "execute"; "synthesize"; "verify"; "analyze"; "plan"]
  /\ step_flags (response_of broken_run) = [true; true; true; true; true; true; false]
  /\ exists k : nat,
      Z.of_nat k <= Z.max 0 (AgentRequest.MaxIterations (request 2))
      /\ ((step_tags (response_of broken_run) = iteration_tags k
           /\ step_flags (response_of broken_run) = replicate (5 * k) true)
          \/ (step_tags (response_of broken_run) = iteration_tags k ++ ["analyze"; "plan"]
              /\ step_flags (response_of broken_run)
                 = replicate (5 * k) true ++ [true; false]
              /\ Z.of_nat k < AgentRequest.MaxIterations (request 2))).
Proof.
  assert (Hrun : executeAgenticLoop (E := E) (request 2) (s0 broken_world)
                 = (Ok (response_of broken_run), snd broken_run))
    by (vm_compute; reflexivity).
  split; [exact Hrun | ]. split; [vm_compute; reflexivity | ].
  split; [vm_compute; reflexivity | ].
  exact (phases_in_order (E := E) (request 2) (s0 broken_world) _ _ Hrun).
Defined.

(** A search and a tool call that succeed, a tool call without a name and
    one that times out: one source and one tool are registered. *)
Lemma sources_and_tools_registered_witness :
  actions_run
  = (Ok (result_of ([], initial_response (request 1)) actions_run), snd actions_run)
  /\ tool_calls sample_actions = ["risk-score"; ""; "risk-score"]
  /\ AgentResponse.ToolsUsed (snd (result_of ([], initial_response (request 1)) actions_run))
     = ["risk-score"]
  /\ AgentResponse.Sources (snd (result_of ([], initial_response (request 1)) actions_run))
     = ["RAG Knowledge Base"]
  /\ exists (tools : list string) (n : nat),
      AgentResponse.ToolsUsed
        (snd (result_of ([], initial_response (request 1)) actions_run))
      = AgentResponse.ToolsUsed (initial_response (request 1)) ++ tools
      /\ AgentResponse.Sources
           (snd (result_of ([], initial_response (request 1)) actions_run))
         = AgentResponse.Sources (initial_response (request 1))
             ++ replicate n "RAG Knowledge Base"
      /\ sublist tools (tool_calls sample_actions)
      /\ Forall (fun tool => tool <> EmptyString) tools
      /\ (n <= searches sample_actions)%nat.
Proof.
  assert (Hrun : executeActions (E := env answering) sample_actions
                   (initial_response (request 1)) (start answering gateway_world)
                 = (Ok (fst (result_of ([], initial_response (request 1)) actions_run),
                        snd (result_of ([], initial_response (request 1)) actions_run)),
                    snd actions_run))
    by (vm_compute; reflexivity).
  split; [vm_compute; reflexivity | ]. split; [vm_compute; reflexivity | ].
  split; [vm_compute; reflexivity | ]. split; [vm_compute; reflexivity | ].
  exact (sources_and_tools_registered (E := env answering) sample_actions _ _ _ _ _ Hrun).
Defined.

(** The doubtful run reports the confidence 0.3 of its second
    verification and asks for more information. *)
Lemma last_verdict_reported_witness :
  doubtful_run = (Ok (response_of doubtful_run), snd doubtful_run)
  /\ exists (k : nat) (v : Verification.t),
      AgentResponse.Iterations (response_of doubtful_run) = Z.of_nat (S k)
      /\ iteration_verification (E := E) (request 2) (s0 doubtful_world) (S k) = Some v
      /\ AgentResponse.Confidence (response_of doubtful_run) = Verification.Confidence v
      /\ AgentResponse.NeedMoreInfo (response_of doubtful_run) = negb (satisfactory v).
Proof.
  assert (Hrun : executeAgenticLoop (E := E) (request 2) (s0 doubtful_world)
                 = (Ok (response_of doubtful_run), snd doubtful_run))
    by (vm_compute; reflexivity).
  split; [exact Hrun | ].
  destruct (last_verdict_reported (E := E) (request 2) (s0 doubtful_world) _ _ Hrun)
    as [(Hnone & _) | Hlast]; [vm_compute in Hnone; discriminate Hnone | exact Hlast].
Defined.

(** A reply without candidates, given to each of the four callers. *)
Lemma reply_without_text_witness :
  first_part (E := E) no_text = None
  /\ analyzeQuery (E := E) kyc_query ∅ (s0 mute_world)
     = (Ok "Query analysis completed", @mkState E silent_world ∅)
  /\ (exists message,
         createExecutionPlan (E := E) kyc_query ∅ (s0 mute_world)
         = (Ok (inr message), @mkState E silent_world ∅)
         /\ (message = "no response from model" \/ message = "empty response"))
  /\ synthesizeAnswer (E := E) kyc_query [] (s0 mute_world)
     = (Ok "No answer could be generated.", @mkState E silent_world ∅)
  /\ verifyAnswer (E := E) kyc_query "KYC requires identity verification." []
       (s0 mute_world)
     = (Ok parse_fallback, @mkState E silent_world ∅)
  /\ satisfactory parse_fallback = true.
Proof.
  destruct (reply_without_text (E := E) no_text silent_world kyc_query
              "KYC requires identity verification." ∅ [] (s0 mute_world) eq_refl)
    as (Hanalyze & Hplan & Hsynthesize & Hverify).
  split_and!.
  - reflexivity.
  - exact (Hanalyze eq_refl).
  - exact (Hplan eq_refl).
  - exact (Hsynthesize eq_refl).
  - exact (proj1 (Hverify eq_refl)).
  - exact (proj2 (Hverify eq_refl)).
Defined.

(** One iteration whose search succeeds: the one source is the literal. *)
Lemma only_generic_sources_witness :
  sourced_run = (Ok (response_of sourced_run), snd sourced_run)
  /\ AgentResponse.Sources (response_of sourced_run) = ["RAG Knowledge Base"]
  /\ (exists n : nat,
         AgentResponse.Sources (response_of sourced_run)
         = replicate n "RAG Knowledge Base")
  /\ Forall (fun tool => tool <> EmptyString)
       (AgentResponse.ToolsUsed (response_of sourced_run)).
Proof.
  assert (Hrun : executeAgenticLoop (E := env answering) (request 1)
                   (start answering sourced_world)
                 = (Ok (response_of sourced_run), snd sourced_run))
    by (vm_compute; reflexivity).
  split; [exact Hrun | ]. split; [vm_compute; reflexivity | ].
  exact (only_generic_sources (E := env answering) (request 1)
           (start answering sourced_world) _ _ Hrun).
Defined.


End Runs.
